(** * The Clockodo data client (src/clockodo.ts), embedded and verified

    The client performs authenticated, schema-validated, paginated retrieval
    of users, entries and projects.  The embedding follows the TypeScript
    source function by function:

    - JSON values and the zod schemas of lines 36-148;
    - the [Logger] of lines 6-34, writing to a log file held in the world;
    - [constructor], [makeRequest], [getUsers], [getEntries], [getProjects]
      of the class [ClockodoAPI], lines 157-320;
    - the earlier revision of the client, which keeps no log (module
      [Earlier]);
    - the read callbacks of the three resources the server registers in
      index.ts, with the [parseInt] and the regular expression they check
      their arguments with.

    Effects are explicit: a computation takes the world (log file, requests
    sent so far) and gives back an outcome (a value or a thrown error) and
    the new world.  The remote service is a parameter: a function from the
    requests sent so far and the current request to what [fetch] yields.
    The [while] loops may run forever against a service that keeps announcing
    further pages, so they carry fuel and answer [None] when it runs out.

    Idealisations: numbers are integers ([Z]; page numbers, counts and ids
    are, and the counter stays far below 2^53); a string is a sequence of
    8-bit characters; the log file can always be written; the body of a
    response that has arrived can always be read; timestamps of log lines
    are left out.

    JavaScript holds and prints exactly the integers below 2^53 in absolute
    value, the safe integers.  A user id that is read from text is rounded
    as [parseInt] rounds it ([to_double]); what is proved of the printed
    text of records is proved of records whose numbers are safe
    ([safe]). *)

From Stdlib Require Import ZArith List String Ascii Bool Lia DecimalString.
From Stdlib Require DecimalPos.
Import ListNotations.
Set Warnings "-register-all".
Open Scope string_scope.
Open Scope Z_scope.

(* ================================================================= *)
(** * Part I: the program

    ** Strings *)

(** [`${n}`] for an integer [n]. *)
Definition string_of_Z (n : Z) : string :=
  NilZero.string_of_int (Z.to_int n).

(** The double-quote character. *)
Definition dquote : string := String (ascii_of_nat 34) EmptyString.

(** The line feed character. *)
Definition newline : string := String (ascii_of_nat 10) EmptyString.

(** [s.startsWith(p)] *)
Fixpoint startsWith (p s : string) : bool :=
  match p, s with
  | EmptyString, _ => true
  | String a p', String b s' => Ascii.eqb a b && startsWith p' s'
  | String _ _, EmptyString => false
  end.

(** [s.includes(p)] *)
Fixpoint includes (p s : string) : bool :=
  startsWith p s ||
  match s with
  | EmptyString => false
  | String _ s' => includes p s'
  end.

(** [l.join(sep)] *)
Fixpoint join (sep : string) (l : list string) : string :=
  match l with
  | [] => ""
  | [x] => x
  | x :: rest => x ++ sep ++ join sep rest
  end.

(* ================================================================= *)
(** ** JSON values *)

Inductive json : Type :=
| JNull
| JBool (b : bool)
| JNum (n : Z)
| JStr (s : string)
| JArr (items : list json)
| JObj (fields : list (string * json)).

(** [o[k]] on the fields of an object; [None] is [undefined]. *)
Fixpoint lookup (k : string) (fields : list (string * json)) : option json :=
  match fields with
  | [] => None
  | (k', v) :: rest => if String.eqb k k' then Some v else lookup k rest
  end.

(** [v.k] for a value that is not [null]; [None] is [undefined].
    (The properties of arrays and strings other than [length] are not
    needed.) *)
Definition prop (v : json) (k : string) : option json :=
  match v with
  | JObj fields => lookup k fields
  | JArr items => if String.eqb k "length" then Some (JNum (Z.of_nat (List.length items))) else None
  | JStr s => if String.eqb k "length" then Some (JNum (Z.of_nat (String.length s))) else None
  | _ => None
  end.

(** [typeof v] *)
Definition typeof (v : json) : string :=
  match v with
  | JNull => "object"
  | JBool _ => "boolean"
  | JNum _ => "number"
  | JStr _ => "string"
  | JArr _ => "object"
  | JObj _ => "object"
  end.

(** [Array.isArray(v)] *)
Definition isArray (v : json) : bool :=
  match v with JArr _ => true | _ => false end.

(** Truthiness, as [||] and [?:] test it. *)
Definition truthy (v : json) : bool :=
  match v with
  | JNull => false
  | JBool b => b
  | JNum n => negb (n =? 0)
  | JStr s => negb (String.eqb s "")
  | JArr _ => true
  | JObj _ => true
  end.

(** [a || b] on possibly undefined values. *)
Definition js_or (a b : option json) : option json :=
  match a with
  | Some v => if truthy v then a else b
  | None => b
  end.

(** [a?.k] *)
Definition opt_chain (a : option json) (k : string) : option json :=
  match a with
  | None => None
  | Some JNull => None
  | Some v => prop v k
  end.

(** Object literals in which a field may be [undefined]: [JSON.stringify]
    leaves such a field out. *)
Definition obj (fields : list (string * option json)) : json :=
  JObj (flat_map (fun kv => match snd kv with
                            | Some v => [(fst kv, v)]
                            | None => []
                            end) fields).

(** The backslash character. *)
Definition backslash : string := String (ascii_of_nat 92) EmptyString.

(** A hexadecimal digit, as [JSON.stringify] prints it. *)
Definition hex_digit (n : nat) : string :=
  match n with
  | 0 => "0" | 1 => "1" | 2 => "2" | 3 => "3" | 4 => "4" | 5 => "5" | 6 => "6" | 7 => "7"
  | 8 => "8" | 9 => "9" | 10 => "a" | 11 => "b" | 12 => "c" | 13 => "d" | 14 => "e"
  | _ => "f"
  end%nat.

(** A character inside a JSON string: quote, backslash and the control
    characters are escaped. *)
Definition escape_char (c : ascii) : string :=
  let n := nat_of_ascii c in
  if Nat.eqb n 34 then backslash ++ dquote
  else if Nat.eqb n 92 then backslash ++ backslash
  else if Nat.eqb n 8 then backslash ++ "b"
  else if Nat.eqb n 9 then backslash ++ "t"
  else if Nat.eqb n 10 then backslash ++ "n"
  else if Nat.eqb n 12 then backslash ++ "f"
  else if Nat.eqb n 13 then backslash ++ "r"
  else if Nat.ltb n 32 then backslash ++ "u00" ++ hex_digit (n / 16) ++ hex_digit (n mod 16)
  else String c EmptyString.

Fixpoint escape (s : string) : string :=
  match s with
  | EmptyString => ""
  | String c rest => escape_char c ++ escape rest
  end.

(** A string as [JSON.stringify] prints it. *)
Definition quote (s : string) : string := dquote ++ escape s ++ dquote.

(** [JSON.stringify(v, null, 2)]: [ind] is the current indentation.  A
    number is printed as its decimal numeral; this is what [JSON.stringify]
    prints for the safe integers (beyond them it prints a rounded numeral,
    from 10^21 on with an exponent). *)

Fixpoint stringify_at (ind : string) (v : json) : string :=
  match v with
  | JNull => "null"
  | JBool true => "true"
  | JBool false => "false"
  | JNum n => string_of_Z n
  | JStr s => quote s
  | JArr [] => "[]"
  | JArr items =>
      let ind' := ind ++ "  " in
      "[" ++ newline ++ ind' ++
      join ("," ++ newline ++ ind') (map (stringify_at ind') items) ++
      newline ++ ind ++ "]"
  | JObj [] => "{}"
  | JObj fields =>
      let ind' := ind ++ "  " in
      "{" ++ newline ++ ind' ++
      join ("," ++ newline ++ ind')
           (map (fun kv => quote (fst kv) ++ ": " ++ stringify_at ind' (snd kv)) fields) ++
      newline ++ ind ++ "}"
  end.

Definition JSON_stringify (v : json) : string := stringify_at "" v.

(* ================================================================= *)
(** ** Thrown values and outcomes *)

(** An element of the [path] of a zod issue. *)
Inductive PathElem : Type :=
| Key (k : string)
| Index (i : nat).

(** A zod issue.  The schemas of this file only give rise to
    [invalid_type] issues. *)
Record ZodIssue : Type := mkIssue {
  code : string;
  expected : string;
  received : string;
  path : list PathElem;
  issue_message : string
}.

(** What can be thrown: an [Error] object of some class [name] that is not
    a [ZodError], or a [ZodError] with its issues.  Nothing else is thrown in
    this program: [fetch] and [response.json()] reject with [Error] objects,
    [Object.keys] throws a [TypeError], [schema.parse] a [ZodError], and the
    client itself throws [new Error(...)]. *)
Inductive Thrown : Type :=
| Err (name : string) (message : string)
| ZodError (issues : list ZodIssue).

Inductive Outcome (A : Type) : Type :=
| Returns (a : A)
| Throws (e : Thrown).
Arguments Returns {A} a.
Arguments Throws {A} e.

Definition issue_json (i : ZodIssue) : json :=
  JObj [("code", JStr (code i));
        ("expected", JStr (expected i));
        ("received", JStr (received i));
        ("path", JArr (map (fun p => match p with
                                     | Key k => JStr k
                                     | Index n => JNum (Z.of_nat n)
                                     end) (path i)));
        ("message", JStr (issue_message i))].

(** [error.message]: for a [ZodError] it is the issues, pretty-printed. *)
Definition message_of (e : Thrown) : string :=
  match e with
  | Err _ m => m
  | ZodError issues => JSON_stringify (JArr (map issue_json issues))
  end.

(* ================================================================= *)
(** ** zod: the schema combinators the client uses

    The library is not part of the repository; this is zod 3 on the eight
    combinators the schemas are built from.  [z.object] is in its default
    mode: keys that the shape does not name are stripped from the parsed
    value.  Validation does not stop at the first violation: every element
    of an array and every field of a shape is checked, and all issues are
    collected, in the order of the shape and of the array.  [issues_of] and
    [strip] are the two halves of what zod computes in one pass: the issues,
    and the value handed back when there is none. *)

Inductive ZodType : Type :=
| z_number
| z_string
| z_boolean
| z_any
| z_nullable (t : ZodType)
| z_optional (t : ZodType)
| z_array (t : ZodType)
| z_object (shape : list (string * ZodType)).

(** The parsed type zod reports for an input; [None] is [undefined]. *)
Definition received_type (input : option json) : string :=
  match input with
  | None => "undefined"
  | Some JNull => "null"
  | Some (JBool _) => "boolean"
  | Some (JNum _) => "number"
  | Some (JStr _) => "string"
  | Some (JArr _) => "array"
  | Some (JObj _) => "object"
  end.

Definition invalid_type (exp : string) (input : option json) (p : list PathElem) : ZodIssue :=
  {| code := "invalid_type";
     expected := exp;
     received := received_type input;
     path := p;
     issue_message :=
       match input with
       | None => "Required"
       | Some _ => "Expected " ++ exp ++ ", received " ++ received_type input
       end |}.

Fixpoint mapi_from {A B : Type} (f : nat -> A -> B) (i : nat) (l : list A) : list B :=
  match l with
  | [] => []
  | x :: rest => f i x :: mapi_from f (S i) rest
  end.

(** The issues zod raises for [input] at [p] against [t]. *)
Fixpoint issues_of (t : ZodType) (p : list PathElem) (input : option json) : list ZodIssue :=
  match t with
  | z_number =>
      match input with
      | Some (JNum _) => []
      | _ => [invalid_type "number" input p]
      end
  | z_string =>
      match input with
      | Some (JStr _) => []
      | _ => [invalid_type "string" input p]
      end
  | z_boolean =>
      match input with
      | Some (JBool _) => []
      | _ => [invalid_type "boolean" input p]
      end
  | z_any => []
  | z_nullable t' =>
      match input with
      | Some JNull => []
      | _ => issues_of t' p input
      end
  | z_optional t' =>
      match input with
      | None => []
      | _ => issues_of t' p input
      end
  | z_array t' =>
      match input with
      | Some (JArr items) =>
          List.concat (mapi_from (fun i x => issues_of t' (p ++ [Index i])%list (Some x)) 0 items)
      | _ => [invalid_type "array" input p]
      end
  | z_object shape =>
      match input with
      | Some (JObj fields) =>
          (fix check (sh : list (string * ZodType)) : list ZodIssue :=
             match sh with
             | [] => []
             | (k, tk) :: sh' =>
                 (issues_of tk (p ++ [Key k])%list (lookup k fields) ++ check sh')%list
             end) shape
      | _ => [invalid_type "object" input p]
      end
  end.

(** The value zod hands back for a valid input: the fields of the shape,
    in the order of the shape, and nothing else. *)
Fixpoint strip (t : ZodType) (v : json) : json :=
  match t with
  | z_nullable t' =>
      match v with
      | JNull => JNull
      | _ => strip t' v
      end
  | z_optional t' => strip t' v
  | z_array t' =>
      match v with
      | JArr items => JArr (map (strip t') items)
      | _ => v
      end
  | z_object shape =>
      match v with
      | JObj fields =>
          JObj ((fix keep (sh : list (string * ZodType)) : list (string * json) :=
                   match sh with
                   | [] => []
                   | (k, tk) :: sh' =>
                       match lookup k fields with
                       | Some x => (k, strip tk x) :: keep sh'
                       | None => keep sh'
                       end
                   end) shape)
      | _ => v
      end
  | _ => v
  end.

(** [schema.parse(data)] *)
Definition parse (schema : ZodType) (data : json) : Outcome json :=
  match issues_of schema [] (Some data) with
  | [] => Returns (strip schema data)
  | issues => Throws (ZodError issues)
  end.

(* ================================================================= *)
(** ** The schemas of src/clockodo.ts, lines 36-148 *)

Definition ClockodoUserSchema : ZodType :=
  z_object [
    ("id", z_number);
    ("name", z_string);
    ("email", z_string);
    ("number", z_optional (z_nullable z_string));
    ("active", z_boolean);
    ("role", z_optional (z_nullable z_string));
    ("initials", z_optional (z_nullable z_string));
    ("language", z_optional (z_nullable z_string));
    ("timezone", z_optional (z_nullable z_string));
    ("teams_id", z_optional (z_nullable z_number));
    ("weekstart_monday", z_optional z_boolean);
    ("weekend_friday", z_optional z_boolean);
    ("timeformat_12h", z_optional z_boolean);
    ("nonbusiness_groups_id", z_optional (z_nullable z_number));
    ("nonbusinessgroups_id", z_optional (z_nullable z_number));
    ("work_time_regulations_id", z_optional (z_nullable z_number));
    ("default_work_time_regulation", z_optional z_boolean);
    ("boss", z_optional (z_nullable z_any));
    ("absence_managers_id", z_optional (z_array z_number));
    ("can_generally_see_absences", z_optional z_boolean);
    ("can_generally_manage_absences", z_optional z_boolean);
    ("can_add_customers", z_optional z_boolean);
    ("default_holidays_count", z_optional z_boolean);
    ("default_target_hours", z_optional z_boolean);
    ("future_coworker", z_optional z_boolean);
    ("start_date", z_optional (z_nullable z_string));
    ("wage_type", z_optional z_number);
    ("worktime_regulation_id", z_optional (z_nullable z_number));
    ("access_groups_ids", z_optional (z_array z_number));
    ("edit_lock", z_optional (z_nullable z_any));
    ("edit_lock_dyn", z_optional (z_nullable z_any));
    ("edit_lock_sync", z_optional (z_nullable z_any));
    ("work_time_edit_lock_days", z_optional (z_nullable z_number))
  ].

Definition PagingSchema : ZodType :=
  z_object [
    ("items_per_page", z_number);
    ("current_page", z_number);
    ("count_pages", z_number);
    ("count_items", z_number)
  ].

Definition ClockodoUsersResponseSchema : ZodType :=
  z_object [
    ("data", z_array ClockodoUserSchema);
    ("paging", PagingSchema)
  ].

Definition ClockodoEntrySchema : ZodType :=
  z_object [
    ("id", z_number);
    ("customers_id", z_number);
    ("projects_id", z_nullable z_number);
    ("users_id", z_number);
    ("billable", z_number);
    ("text", z_nullable z_string);
    ("time_since", z_string);
    ("time_until", z_string);
    ("time_insert", z_string);
    ("time_last_change", z_string);
    ("hourly_rate", z_optional (z_nullable z_number));
    ("revenue", z_optional (z_nullable z_number));
    ("budget_is_hours", z_optional z_boolean);
    ("budget_is_not_strict", z_optional z_boolean);
    ("offset", z_optional z_number);
    ("clocked", z_optional z_boolean);
    ("locked", z_optional z_boolean)
  ].

Definition ClockodoEntriesResponseSchema : ZodType :=
  z_object [
    ("entries", z_array ClockodoEntrySchema);
    ("paging", PagingSchema)
  ].

Definition ClockodoProjectSchema : ZodType :=
  z_object [
    ("id", z_number);
    ("customers_id", z_number);
    ("name", z_string);
    ("number", z_nullable z_string);
    ("active", z_boolean);
    ("billable_default", z_boolean);
    ("note", z_optional (z_nullable z_string));
    ("billed_money", z_optional (z_nullable z_number));
    ("billed_completely", z_optional (z_nullable z_boolean));
    ("completed", z_boolean);
    ("completed_at", z_nullable z_string);
    ("revenue_factor", z_optional (z_nullable z_number));
    ("test_data", z_boolean);
    ("count_subprojects", z_number);
    ("deadline", z_optional (z_nullable z_string));
    ("start_date", z_optional (z_nullable z_string));
    ("budget", z_optional (z_nullable (z_object [
      ("monetary", z_boolean);
      ("hard", z_boolean);
      ("from_subprojects", z_boolean);
      ("interval", z_optional (z_nullable z_number));
      ("amount", z_optional (z_nullable z_number));
      ("notification_thresholds", z_optional (z_array z_any))
    ])))
  ].

Definition ClockodoProjectsResponseSchema : ZodType :=
  z_object [
    ("data", z_array ClockodoProjectSchema);
    ("paging", PagingSchema)
  ].

(* ================================================================= *)
(** ** The world: log file, network *)

(** A line of the log file.  [Banner] is the line written when the file is
    created; an [Entry] is a message and the data printed under it. *)
Inductive LogEntry : Type :=
| Banner
| Entry (message : string) (data : option json).

Record Request : Type := mkRequest {
  method : string;
  url : string;
  headers : list (string * string)
}.

(** A response that has arrived: status line, the body as text (what
    [response.text()] gives) and the body as JSON (what [response.json()]
    gives: the parsed value, or the message of the [SyntaxError]). *)
Record Response : Type := mkResponse {
  status : Z;
  statusText : string;
  body_text : string;
  body_json : string + json
}.

(** [response.ok] *)
Definition ok (r : Response) : bool := (200 <=? status r) && (status r <=? 299).

(** What [fetch] yields: the promise rejects with an error of class [name]
    (DNS failure, timeout, connection reset), or resolves with a response. *)
Inductive FetchOutcome : Type :=
| Rejects (name : string) (message : string)
| Resolves (r : Response).

(** The remote service, with the network in front of it: what the next
    [fetch] yields, given the requests sent before it. *)
Definition Backend : Type := list Request -> Request -> FetchOutcome.

Record World : Type := mkWorld {
  logFile : option (list LogEntry);   (* [None]: the file does not exist *)
  sent : list Request                (* the requests sent so far, oldest first *)
}.

(** Computations: state passing with exceptions. *)
Definition M (A : Type) : Type := World -> Outcome A * World.

Definition ret {A : Type} (a : A) : M A := fun w => (Returns a, w).

Definition throw {A : Type} (e : Thrown) : M A := fun w => (Throws e, w).

Definition bind {A B : Type} (c : M A) (k : A -> M B) : M B :=
  fun w =>
    match c w with
    | (Returns a, w') => k a w'
    | (Throws e, w') => (Throws e, w')
    end.

(** [try { body } catch (error) { handler }] *)
Definition try_catch {A : Type} (body : M A) (handler : Thrown -> M A) : M A :=
  fun w =>
    match body w with
    | (Returns a, w') => (Returns a, w')
    | (Throws e, w') => handler e w'
    end.

(** A pure step that may throw. *)
Definition lift {A : Type} (o : Outcome A) : M A := fun w => (o, w).

Declare Scope m_scope.
Delimit Scope m_scope with M.
Notation "x <- c ;; k" := (bind c (fun x => k))
  (at level 61, c at next level, right associativity) : m_scope.
Notation "c ;; k" := (bind c (fun _ => k))
  (at level 61, right associativity) : m_scope.
Open Scope m_scope.

(** [fetch(url, { method, headers })] against the service [b]. *)
Definition fetch (b : Backend) (req : Request) : M Response :=
  fun w =>
    let w' := {| logFile := logFile w; sent := (sent w ++ [req])%list |} in
    match b (sent w) req with
    | Rejects n m => (Throws (Err n m), w')
    | Resolves r => (Returns r, w')
    end.

(** [Object.keys(v)]: throws on [null]. *)
Definition Object_keys (v : json) : Outcome (list string) :=
  match v with
  | JNull => Throws (Err "TypeError" "Cannot convert undefined or null to object")
  | JObj fields => Returns (map fst fields)
  | JArr items => Returns (map (fun i => string_of_Z (Z.of_nat i)) (seq 0 (List.length items)))
  | JStr s => Returns (map (fun i => string_of_Z (Z.of_nat i)) (seq 0 (String.length s)))
  | _ => Returns []
  end.

(* ================================================================= *)
(** ** Logger (lines 6-34) *)

Module Logger.

(** [appendFileSync(this.logFile, entry)]: creates the file if need be. *)
Definition appendFileSync (e : LogEntry) : M unit :=
  fun w =>
    (Returns tt,
     {| logFile := Some (match logFile w with
                         | Some entries => entries ++ [e]
                         | None => [e]
                         end)%list;
        sent := sent w |}).

(** The constructor: writes the banner if the file does not exist. *)
Definition new : M unit :=
  fun w =>
    match logFile w with
    | Some _ => (Returns tt, w)
    | None => (Returns tt, {| logFile := Some [Banner]; sent := sent w |})
    end.

(** [log(message, data?)]: the data is printed when it is truthy. *)
Definition log (message : string) (data : option json) : M unit :=
  appendFileSync
    (Entry message
       (match data with
        | Some v => if truthy v then Some v else None
        | None => None
        end)).

Definition logRequest (method url : string) (headers : list (string * string)) : M unit :=
  log (">>> REQUEST " ++ method ++ " " ++ url)
      (Some (JObj [("headers", JObj (map (fun h => (fst h, JStr (snd h))) headers))])).

Definition logResponse (status : Z) (statusText : string) (data : option json) : M unit :=
  log ("<<< RESPONSE " ++ string_of_Z status ++ " " ++ statusText) data.

Definition logError (error : string) (details : option json) : M unit :=
  log ("!!! ERROR: " ++ error) details.

End Logger.

(* ================================================================= *)
(** ** ClockodoAPI (lines 157-320) *)

Record ClockodoAPI : Type := mkClockodoAPI {
  email : string;
  apiKey : string;
  baseUrl : string
}.

(** [process.env] *)
Definition Env : Type := string -> option string.

(** [process.env.NAME || ""] *)
Definition env_or_empty (v : option string) : string :=
  match v with
  | Some s => s
  | None => ""
  end.

(** [!s] for a string: only the empty string is falsy. *)
Definition is_empty (s : string) : bool := String.eqb s "".

Definition constructor (env : Env) : M ClockodoAPI :=
  let this := {| email := env_or_empty (env "CLOCKODO_EMAIL");
                 apiKey := env_or_empty (env "CLOCKODO_API_KEY");
                 baseUrl := "https://my.clockodo.com/api" |} in
  Logger.new ;;
  if is_empty (email this) || is_empty (apiKey this) then
    throw (Err "Error" "CLOCKODO_EMAIL and CLOCKODO_API_KEY environment variables are required")
  else
    Logger.log "ClockodoAPI initialized"
      (Some (JObj [("email", JStr (email this));
                   ("baseUrl", JStr (baseUrl this));
                   ("hasApiKey", JBool (negb (is_empty (apiKey this))))])) ;;
    ret this.

(** The headers of a request, with [key] in the place of the API key. *)
Definition request_headers (this : ClockodoAPI) (key : string) : list (string * string) :=
  [("Accept", "application/json");
   ("X-ClockodoApiUser", email this);
   ("X-ClockodoApiKey", key);
   ("X-Clockodo-External-Application", "mcp-ts")].

(** The request [makeRequest] sends for [endpoint]. *)
Definition request_for (this : ClockodoAPI) (endpoint : string) : Request :=
  {| method := "GET";
     url := baseUrl this ++ endpoint;
     headers := request_headers this (apiKey this) |}.

(** [makeRequest(endpoint, schema)], lines 179-242.  Every value thrown in
    its body is an [Error] object, so [error instanceof Error ? error.message
    : String(error)] is [error.message]. *)
Definition makeRequest (b : Backend) (this : ClockodoAPI)
    (endpoint : string) (schema : ZodType) : M json :=
  let url := baseUrl this ++ endpoint in
  let headers := request_headers this "***" in   (* Hide API key in logs *)
  Logger.logRequest "GET" url headers ;;
  try_catch
    (response <- fetch b (request_for this endpoint) ;;
     Logger.logResponse (status response) (statusText response) None ;;
     (if negb (ok response) then
        let errorText := body_text response in
        Logger.logError ("HTTP " ++ string_of_Z (status response) ++ ": " ++ statusText response)
          (Some (JObj [("url", JStr url); ("responseBody", JStr errorText)])) ;;
        throw (Err "Error" ("HTTP " ++ string_of_Z (status response) ++ ": " ++ statusText response))
      else ret tt) ;;
     data <- lift (match body_json response with
                   | inr v => Returns v
                   | inl m => Throws (Err "SyntaxError" m)
                   end) ;;
     keys <- (if String.eqb (typeof data) "object" then
                ks <- lift (Object_keys data) ;;
                ret (Some (JArr (map JStr ks)))
              else ret None) ;;
     Logger.log "Response data received"
       (Some (obj [("dataType", Some (JStr (typeof data)));
                   ("isArray", Some (JBool (isArray data)));
                   ("keys", keys);
                   ("entryCount",
                     js_or (js_or (opt_chain (opt_chain (Some data) "entries") "length")
                                  (opt_chain (opt_chain (Some data) "data") "length"))
                           (Some (JStr "unknown")))])) ;;
     parsedData <- lift (parse schema data) ;;
     Logger.log "Data successfully validated with schema" None ;;
     ret parsedData)
    (fun error =>
       match error with
       | ZodError issues =>
           Logger.logError "Zod validation error"
             (Some (JObj [("error", JStr (message_of error));
                          ("issues", JArr (map issue_json issues))])) ;;
           throw (Err "Error" ("Invalid API response format: " ++ message_of error))
       | _ =>
           Logger.logError "Request failed"
             (Some (JObj [("error", JStr (message_of error)); ("url", JStr url)])) ;;
           throw error
       end).

(** *** The pagination loops (lines 244-320)

    A validated response is an object with an array under its payload key
    and a numeric [paging.count_pages] (lemma [parsed_page_shape] below), so
    the typed reads [response.data] and [response.paging.count_pages] of the
    source are reads through the two views below; the branch for a response
    without them is there only to make the functions total. *)

(** [response.data], [response.entries] *)
Definition payload (key : string) (response : json) : option (list json) :=
  match prop response key with
  | Some (JArr items) => Some items
  | _ => None
  end.

(** [response.paging.count_pages] *)
Definition count_pages (response : json) : option Z :=
  match prop response "paging" with
  | Some paging =>
      match prop paging "count_pages" with
      | Some (JNum n) => Some n
      | _ => None
      end
  | None => None
  end.

(** [response.paging.current_page]: the client never reads it. *)
Definition current_page (response : json) : option Z :=
  match prop response "paging" with
  | Some paging =>
      match prop paging "current_page" with
      | Some (JNum n) => Some n
      | _ => None
      end
  | None => None
  end.

Definition untyped_read : Thrown :=
  Err "TypeError" "Cannot read properties of undefined".

(** A loop that has used up its fuel answers [None]. *)
Definition Run (A : Type) : Type := World -> option (Outcome A * World).

(** [try { body } catch (error) { throw new Error(`${prefix}${message}`) }],
    where [message] is [error instanceof Error ? error.message :
    String(error)], that is [error.message]. *)
Definition rethrow_as {A : Type} (prefix : string) (body : Run A) : Run A :=
  fun w =>
    match body w with
    | Some (Returns a, w') => Some (Returns a, w')
    | Some (Throws error, w') => Some (Throws (Err "Error" (prefix ++ message_of error)), w')
    | None => None
    end.

(** The [while (hasMorePages)] loop of [getUsers], lines 250-260. *)
Fixpoint getUsers_while (b : Backend) (this : ClockodoAPI) (fuel : nat)
    (allUsers : list json) (page : Z) : Run (list json) :=
  fun w =>
    match fuel with
    | O => None
    | S fuel' =>
        match makeRequest b this ("/v3/users?page=" ++ string_of_Z page)
                ClockodoUsersResponseSchema w with
        | (Throws e, w1) => Some (Throws e, w1)
        | (Returns response, w1) =>
            match payload "data" response, count_pages response with
            | Some data, Some count =>
                let allUsers := (allUsers ++ data)%list in
                let hasMorePages := page <? count in
                if hasMorePages
                then getUsers_while b this fuel' allUsers (page + 1) w1
                else Some (Returns allUsers, w1)
            | _, _ => Some (Throws untyped_read, w1)
            end
        end
    end.

Definition getUsers (b : Backend) (this : ClockodoAPI) (fuel : nat) : Run (list json) :=
  rethrow_as "Failed to fetch users from Clockodo API: "
    (getUsers_while b this fuel [] 1).

(** [entry => entry.users_id === userId] *)
Definition entry_of_user (userId : Z) (entry : json) : bool :=
  match prop entry "users_id" with
  | Some (JNum n) => n =? userId
  | _ => false
  end.

(** The loop of [getEntries], lines 278-290.  The [filter] string of lines
    275-276 is computed and never used; it is left out. *)
Fixpoint getEntries_while (b : Backend) (this : ClockodoAPI) (fuel : nat)
    (userId : Z) (timeSince timeUntil : string)
    (allEntries : list json) (page : Z) : Run (list json) :=
  fun w =>
    match fuel with
    | O => None
    | S fuel' =>
        match makeRequest b this
                ("/v2/entries?time_since=" ++ timeSince ++ "&time_until=" ++ timeUntil
                 ++ "&page=" ++ string_of_Z page)
                ClockodoEntriesResponseSchema w with
        | (Throws e, w1) => Some (Throws e, w1)
        | (Returns response, w1) =>
            match payload "entries" response, count_pages response with
            | Some entries, Some count =>
                let userEntries := filter (entry_of_user userId) entries in
                let allEntries := (allEntries ++ userEntries)%list in
                let hasMorePages := page <? count in
                if hasMorePages
                then getEntries_while b this fuel' userId timeSince timeUntil
                       allEntries (page + 1) w1
                else Some (Returns allEntries, w1)
            | _, _ => Some (Throws untyped_read, w1)
            end
        end
    end.

Definition getEntries (b : Backend) (this : ClockodoAPI) (fuel : nat)
    (userId : Z) (timeSince timeUntil : string) : Run (list json) :=
  rethrow_as "Failed to fetch entries from Clockodo API: "
    (getEntries_while b this fuel userId timeSince timeUntil [] 1).

(** The loop of [getProjects], lines 304-314. *)
Fixpoint getProjects_while (b : Backend) (this : ClockodoAPI) (fuel : nat)
    (allProjects : list json) (page : Z) : Run (list json) :=
  fun w =>
    match fuel with
    | O => None
    | S fuel' =>
        match makeRequest b this ("/v4/projects?page=" ++ string_of_Z page)
                ClockodoProjectsResponseSchema w with
        | (Throws e, w1) => Some (Throws e, w1)
        | (Returns response, w1) =>
            match payload "data" response, count_pages response with
            | Some data, Some count =>
                let allProjects := (allProjects ++ data)%list in
                let hasMorePages := page <? count in
                if hasMorePages
                then getProjects_while b this fuel' allProjects (page + 1) w1
                else Some (Returns allProjects, w1)
            | _, _ => Some (Throws untyped_read, w1)
            end
        end
    end.

Definition getProjects (b : Backend) (this : ClockodoAPI) (fuel : nat) : Run (list json) :=
  rethrow_as "Failed to fetch projects from Clockodo API: "
    (getProjects_while b this fuel [] 1).

(* ================================================================= *)
(** ** The earlier client (src/unnamed/part_003)

    An earlier revision of src/clockodo.ts: the schema of users only, one
    retrieval operation, and no log. *)

Module Earlier.

Definition constructor (env : Env) : M ClockodoAPI :=
  let this := {| email := env_or_empty (env "CLOCKODO_EMAIL");
                 apiKey := env_or_empty (env "CLOCKODO_API_KEY");
                 baseUrl := "https://my.clockodo.com/api" |} in
  if is_empty (email this) || is_empty (apiKey this) then
    throw (Err "Error" "CLOCKODO_EMAIL and CLOCKODO_API_KEY environment variables are required")
  else ret this.

Definition makeRequest (b : Backend) (this : ClockodoAPI)
    (endpoint : string) (schema : ZodType) : M json :=
  try_catch
    (response <- fetch b (request_for this endpoint) ;;
     (if negb (ok response) then
        throw (Err "Error" ("HTTP " ++ string_of_Z (status response) ++ ": " ++ statusText response))
      else ret tt) ;;
     data <- lift (match body_json response with
                   | inr v => Returns v
                   | inl m => Throws (Err "SyntaxError" m)
                   end) ;;
     lift (parse schema data))
    (fun error =>
       match error with
       | ZodError _ =>
           throw (Err "Error" ("Invalid API response format: " ++ message_of error))
       | _ => throw error
       end).

Fixpoint getUsers_while (b : Backend) (this : ClockodoAPI) (fuel : nat)
    (allUsers : list json) (page : Z) : Run (list json) :=
  fun w =>
    match fuel with
    | O => None
    | S fuel' =>
        match makeRequest b this ("/v3/users?page=" ++ string_of_Z page)
                ClockodoUsersResponseSchema w with
        | (Throws e, w1) => Some (Throws e, w1)
        | (Returns response, w1) =>
            match payload "data" response, count_pages response with
            | Some data, Some count =>
                let allUsers := (allUsers ++ data)%list in
                let hasMorePages := page <? count in
                if hasMorePages
                then getUsers_while b this fuel' allUsers (page + 1) w1
                else Some (Returns allUsers, w1)
            | _, _ => Some (Throws untyped_read, w1)
            end
        end
    end.

Definition getUsers (b : Backend) (this : ClockodoAPI) (fuel : nat) : Run (list json) :=
  rethrow_as "Failed to fetch users from Clockodo API: "
    (getUsers_while b this fuel [] 1).

End Earlier.

(* ================================================================= *)
(** ** The resource gateway (src/unnamed/part_004)

    The three read callbacks registered with the MCP server.  The server
    itself (URI matching, transport) is the SDK's; a callback gets the
    [href] of the URI read and, for the entries template, its variables. *)

(** A variable of a resource template: a string, or an array of strings. *)
Inductive TemplateVar : Type :=
| Single (s : string)
| Several (values : list string).

(** [Array.isArray(v) ? v[0] : v]; [None] is [undefined]. *)
Definition first_or_self (v : TemplateVar) : option string :=
  match v with
  | Single s => Some s
  | Several values => hd_error values
  end.

(** [ToString] on a string or [undefined], as [parseInt], [RegExp.test] and
    template literals apply it. *)
Definition ToString (v : option string) : string :=
  match v with
  | Some s => s
  | None => "undefined"
  end.

(** The white space [parseInt] skips (among 8-bit characters: tab, line
    feed, vertical tab, form feed, carriage return, space, no-break space). *)
Definition is_white (c : ascii) : bool :=
  let n := nat_of_ascii c in
  ((9 <=? n) && (n <=? 13) || (n =? 32) || (n =? 160))%nat.

Fixpoint trim_start (s : string) : string :=
  match s with
  | String c rest => if is_white c then trim_start rest else s
  | EmptyString => s
  end.

(** A decimal digit. *)
Definition is_digit (c : ascii) : bool :=
  let n := nat_of_ascii c in ((48 <=? n) && (n <=? 57))%nat.

Definition digit_value (c : ascii) : Z := Z.of_nat (nat_of_ascii c) - 48.

(** The value of the leading digits of [s], after those read into [acc]. *)
Fixpoint digits_value (acc : Z) (s : string) : Z :=
  match s with
  | String c rest =>
      if is_digit c then digits_value (10 * acc + digit_value c) rest else acc
  | EmptyString => acc
  end.

(** The integer that [parseInt(v, 10)] reads off [v], before it makes a
    Number of it; [None] where there is none and the result is [NaN]. *)
Definition parsed_integer (v : option string) : option Z :=
  let s := trim_start (ToString v) in
  let negative := match s with
                  | String c _ => Ascii.eqb c "-"
                  | EmptyString => false
                  end in
  let s := match s with
           | String c rest => if Ascii.eqb c "-" || Ascii.eqb c "+" then rest else s
           | EmptyString => s
           end in
  match s with
  | String c _ =>
      if is_digit c
      then Some (if negative then - digits_value 0 s else digits_value 0 s)
      else None
  | EmptyString => None
  end.

(** The Number an integer becomes: the double nearest to it, and of two
    that are equally near the one with the even mantissa.  Below 2^53 in
    absolute value every integer is a double.  Beyond, the 53 leading bits
    are kept and the rest is rounded off.  From 2^1024 - 2^970 on the
    Number is [Infinity]; 2^1024 stands for it here: as a user id it is not
    [NaN], and it is the id of no entry. *)
Definition to_double (n : Z) : Z :=
  let a := Z.abs n in
  if a <? 2 ^ 53 then n
  else
    let e := Z.log2 a - 52 in
    let q := a / 2 ^ e in
    let r := a mod 2 ^ e in
    let q := if (2 ^ (e - 1) <? r) || ((r =? 2 ^ (e - 1)) && Z.odd q) then q + 1 else q in
    let m := Z.min (q * 2 ^ e) (2 ^ 1024) in
    if n <? 0 then - m else m.

(** [parseInt(v, 10)]; [None] is [NaN]. *)
Definition parseInt (v : option string) : option Z :=
  option_map to_double (parsed_integer v).

(** [isNaN(x)] *)
Definition isNaN (x : option Z) : bool :=
  match x with
  | Some _ => false
  | None => true
  end.

(** Regular expressions, as far as the gateway uses them: a matcher takes a
    prefix off a string.  The matchers are greedy and do not backtrack; for
    [dateRegex] this is no restriction, since what follows an optional group
    there cannot match the character the group begins with. *)
Definition Matcher : Type := string -> option string.

(** [\d] *)
Definition digit : Matcher :=
  fun s =>
    match s with
    | String c rest => if is_digit c then Some rest else None
    | EmptyString => None
    end.

(** A literal character. *)
Definition lit (a : ascii) : Matcher :=
  fun s =>
    match s with
    | String c rest => if Ascii.eqb c a then Some rest else None
    | EmptyString => None
    end.

(** [m1 m2] *)
Definition then_ (m1 m2 : Matcher) : Matcher :=
  fun s =>
    match m1 s with
    | Some rest => m2 rest
    | None => None
    end.

(** [m{n}] *)
Fixpoint times (n : nat) (m : Matcher) : Matcher :=
  match n with
  | O => fun s => Some s
  | S n' => then_ m (times n' m)
  end.

(** [(m)?] *)
Definition opt (m : Matcher) : Matcher :=
  fun s =>
    match m s with
    | Some rest => Some rest
    | None => Some s
    end.

(** [/^m$/.test(v)] *)
Definition test (m : Matcher) (v : option string) : bool :=
  match m (ToString v) with
  | Some EmptyString => true
  | _ => false
  end.

(** [/^\d{4}-\d{2}-\d{2}T\d{2}:\d{2}:\d{2}(\.\d{3})?Z?$/] *)
Definition dateRegex : Matcher :=
  then_ (times 4 digit) (then_ (lit "-")
  (then_ (times 2 digit) (then_ (lit "-")
  (then_ (times 2 digit) (then_ (lit "T")
  (then_ (times 2 digit) (then_ (lit ":")
  (then_ (times 2 digit) (then_ (lit ":")
  (then_ (times 2 digit)
  (then_ (opt (then_ (lit ".") (times 3 digit)))
         (opt (lit "Z"))))))))))))).

(** An element of [contents]. *)
Record Content : Type := mkContent {
  uri : string;
  text : string
}.

Definition run_ret {A : Type} (a : A) : Run A := fun w => Some (Returns a, w).

Definition run_throw {A : Type} (e : Thrown) : Run A := fun w => Some (Throws e, w).

Definition run_bind {A B : Type} (r : Run A) (k : A -> Run B) : Run B :=
  fun w =>
    match r w with
    | Some (Returns a, w') => k a w'
    | Some (Throws e, w') => Some (Throws e, w')
    | None => None
    end.

(** The callback of the resource [clockodo://users]. *)
Definition users_resource (b : Backend) (clockodoAPI : ClockodoAPI) (fuel : nat)
    (href : string) : Run (list Content) :=
  rethrow_as "Failed to fetch users: "
    (run_bind (getUsers b clockodoAPI fuel) (fun users =>
     run_ret [{| uri := href; text := JSON_stringify (JArr users) |}])).

(** The callback of [clockodo://entries/{userId}/{timeSince}/{timeUntil}]. *)
Definition entries_resource (b : Backend) (clockodoAPI : ClockodoAPI) (fuel : nat)
    (href : string) (userId timeSince timeUntil : TemplateVar) : Run (list Content) :=
  rethrow_as "Failed to fetch entries: "
    (let userIdStr := first_or_self userId in
     let timeSinceStr := first_or_self timeSince in
     let timeUntilStr := first_or_self timeUntil in
     let userIdNum := parseInt userIdStr in
     match userIdNum with
     | None => (* isNaN(userIdNum) *)
         run_throw (Err "Error" "Invalid userId: must be a number")
     | Some userIdNum =>
         if negb (test dateRegex timeSinceStr) || negb (test dateRegex timeUntilStr) then
           run_throw (Err "Error"
             "Invalid date format. Use ISO 8601 format: YYYY-MM-DDTHH:mm:ssZ")
         else
           run_bind (getEntries b clockodoAPI fuel userIdNum
                       (ToString timeSinceStr) (ToString timeUntilStr)) (fun entries =>
           run_ret [{| uri := href; text := JSON_stringify (JArr entries) |}])
     end).

(** The callback of the resource [clockodo://projects]. *)
Definition projects_resource (b : Backend) (clockodoAPI : ClockodoAPI) (fuel : nat)
    (href : string) : Run (list Content) :=
  rethrow_as "Failed to fetch projects: "
    (run_bind (getProjects b clockodoAPI fuel) (fun projects =>
     run_ret [{| uri := href; text := JSON_stringify (JArr projects) |}])).

(* ================================================================= *)
(** * Part II: the vocabulary of the properties

    ** What [makeRequest] does, case by case *)

(** The outcome of [makeRequest] as a function of what [fetch] yields
    (lemma [makeRequest_outcome]). *)
Definition request_outcome (o : FetchOutcome) (schema : ZodType) : Outcome json :=
  match o with
  | Rejects n m => Throws (Err n m)
  | Resolves r =>
      if ok r then
        match body_json r with
        | inl m => Throws (Err "SyntaxError" m)
        | inr JNull => Throws (Err "TypeError" "Cannot convert undefined or null to object")
        | inr data =>
            match parse schema data with
            | Returns v => Returns v
            | Throws e => Throws (Err "Error" ("Invalid API response format: " ++ message_of e))
            end
        end
      else Throws (Err "Error" ("HTTP " ++ string_of_Z (status r) ++ ": " ++ statusText r))
  end.

(* ================================================================= *)
(** ** The three retrieval operations, uniformly *)

Inductive Operation : Type :=
| Users
| Entries (userId : Z) (timeSince timeUntil : string)
| Projects.

(** The operation, run. *)
Definition retrieve (b : Backend) (this : ClockodoAPI) (fuel : nat) (op : Operation)
  : Run (list json) :=
  match op with
  | Users => getUsers b this fuel
  | Entries userId timeSince timeUntil => getEntries b this fuel userId timeSince timeUntil
  | Projects => getProjects b this fuel
  end.

(** What distinguishes the three loops: the endpoint of a page, the schema,
    the key of the payload array, the records kept, the prefix of the error. *)
Definition entries_endpoint (timeSince timeUntil : string) (page : Z) : string :=
  "/v2/entries?time_since=" ++ timeSince ++ "&time_until=" ++ timeUntil
  ++ "&page=" ++ string_of_Z page.

Definition endpoint_of (op : Operation) (page : Z) : string :=
  match op with
  | Users => "/v3/users?page=" ++ string_of_Z page
  | Entries _ timeSince timeUntil => entries_endpoint timeSince timeUntil page
  | Projects => "/v4/projects?page=" ++ string_of_Z page
  end.

Definition schema_of (op : Operation) : ZodType :=
  match op with
  | Users => ClockodoUsersResponseSchema
  | Entries _ _ _ => ClockodoEntriesResponseSchema
  | Projects => ClockodoProjectsResponseSchema
  end.

Definition payload_key (op : Operation) : string :=
  match op with
  | Users => "data"
  | Entries _ _ _ => "entries"
  | Projects => "data"
  end.

Definition kept (op : Operation) (record : json) : bool :=
  match op with
  | Users => true
  | Entries userId _ _ => entry_of_user userId record
  | Projects => true
  end.

Definition failure_prefix (op : Operation) : string :=
  match op with
  | Users => "Failed to fetch users from Clockodo API: "
  | Entries _ _ _ => "Failed to fetch entries from Clockodo API: "
  | Projects => "Failed to fetch projects from Clockodo API: "
  end.

(** The shared shape of the three loops (lemmas [getUsers_while_paginate],
    [getEntries_while_paginate], [getProjects_while_paginate]). *)
Fixpoint paginate (b : Backend) (this : ClockodoAPI) (op : Operation) (fuel : nat)
    (acc : list json) (page : Z) : Run (list json) :=
  fun w =>
    match fuel with
    | O => None
    | S fuel' =>
        match makeRequest b this (endpoint_of op page) (schema_of op) w with
        | (Throws e, w1) => Some (Throws e, w1)
        | (Returns response, w1) =>
            match payload (payload_key op) response, count_pages response with
            | Some items, Some count =>
                if page <? count
                then paginate b this op fuel' (acc ++ filter (kept op) items)%list (page + 1) w1
                else Some (Returns (acc ++ filter (kept op) items)%list, w1)
            | _, _ => Some (Throws untyped_read, w1)
            end
        end
    end.

(** The pages [p, p+1, ..., p+n-1]. *)
Fixpoint pages_from (p : Z) (n : nat) : list Z :=
  match n with
  | O => []
  | S n' => p :: pages_from (p + 1) n'
  end.

(** The requests an operation sends for a list of pages. *)
Definition requests (this : ClockodoAPI) (op : Operation) (pages : list Z) : list Request :=
  map (fun p => request_for this (endpoint_of op p)) pages.

(** What [makeRequest] gives the loop of [op] for [page], after the requests
    of [history]. *)
Definition page_result (b : Backend) (this : ClockodoAPI) (op : Operation)
    (history : list Request) (page : Z) : Outcome json :=
  request_outcome (b history (request_for this (endpoint_of op page))) (schema_of op).

(** The payload array of a validated response. *)
Definition items_of (op : Operation) (response : json) : list json :=
  match payload (payload_key op) response with
  | Some items => items
  | None => []
  end.

(** The records of [responses] the operation returns. *)
Definition collected (op : Operation) (responses : list json) : list json :=
  flat_map (fun r => filter (kept op) (items_of op r)) responses.

(* ================================================================= *)
(** ** The shape of a validated response *)

(** The three response schemas are one envelope around a record schema. *)
Definition envelope (key : string) (item : ZodType) : ZodType :=
  z_object [(key, z_array item); ("paging", PagingSchema)].

Definition item_schema (op : Operation) : ZodType :=
  match op with
  | Users => ClockodoUserSchema
  | Entries _ _ _ => ClockodoEntrySchema
  | Projects => ClockodoProjectSchema
  end.

Definition paging_object (items_per_page current count_pages count_items : Z) : json :=
  JObj [("items_per_page", JNum items_per_page);
        ("current_page", JNum current);
        ("count_pages", JNum count_pages);
        ("count_items", JNum count_items)].

(* ================================================================= *)
(** ** What validation does to a record *)

(** The fields of an object. *)
Definition fields_of (v : json) : list (string * json) :=
  match v with
  | JObj fields => fields
  | _ => []
  end.

(** The shape of an object schema. *)
Definition shape_of (t : ZodType) : list (string * ZodType) :=
  match t with
  | z_object shape => shape
  | _ => []
  end.

(** The schema a shape gives a key. *)
Fixpoint shape_lookup (k : string) (shape : list (string * ZodType)) : option ZodType :=
  match shape with
  | [] => None
  | (k', t) :: rest => if String.eqb k k' then Some t else shape_lookup k rest
  end.

(** Schemas without [z.object] inside: validation hands the value back as
    it came. *)
Fixpoint flat (t : ZodType) : bool :=
  match t with
  | z_nullable t' => flat t'
  | z_optional t' => flat t'
  | z_array t' => flat t'
  | z_object _ => false
  | _ => true
  end.

(* ================================================================= *)
(** ** Runs of the pagination loop *)

(** [loop_steps b this op history page responses]: starting at [page] after
    the requests of [history], the loop of [op] receives [responses], one per
    turn, and each of them makes it go on. *)
Inductive loop_steps (b : Backend) (this : ClockodoAPI) (op : Operation)
  : list Request -> Z -> list json -> Prop :=
| steps_done history page :
    loop_steps b this op history page []
| steps_more history page response count rest :
    page_result b this op history page = Returns response ->
    count_pages response = Some count ->
    page < count ->
    loop_steps b this op (history ++ [request_for this (endpoint_of op page)])%list
      (page + 1) rest ->
    loop_steps b this op history page (response :: rest).

(** From the world [w] on, the pages 1, 2, ... of [op] are received as
    [responses], one after the other, and each announces more pages than its
    own number. *)
Definition received_more (b : Backend) (this : ClockodoAPI) (op : Operation)
    (w : World) (responses : list json) : Prop :=
  forall i response, nth_error responses i = Some response ->
    page_result b this op (sent w ++ requests this op (pages_from 1 i))%list
      (1 + Z.of_nat i) = Returns response /\
    exists count, count_pages response = Some count /\ 1 + Z.of_nat i < count.

(* ================================================================= *)
(** ** What the service sends *)

(** After the requests of [history], the service answers the request for
    [endpoint] with a 2xx status and the JSON body [body]. *)
Definition serves (b : Backend) (this : ClockodoAPI) (history : list Request)
    (endpoint : string) (body : json) : Prop :=
  exists r, b history (request_for this endpoint) = Resolves r /\
            ok r = true /\ body_json r = inr body.

(** The body has the shape the operation expects: zod raises no issue. *)
Definition valid (op : Operation) (body : json) : Prop :=
  issues_of (schema_of op) [] (Some body) = [].



(* ================================================================= *)
(** ** Sample data for the examples *)

Definition sample_api : ClockodoAPI :=
  {| email := "me@example.com";
     apiKey := "s3cret";
     baseUrl := "https://my.clockodo.com/api" |}.

(** A world in which nothing has happened yet. *)
Definition fresh : World := {| logFile := None; sent := [] |}.

(** A service that answers the n-th request with the n-th outcome of a
    script, and is unreachable after that. *)
Definition scripted (outcomes : list FetchOutcome) : Backend :=
  fun history _ => nth (List.length history) outcomes (Rejects "TypeError" "fetch failed").

Definition ok_json (body : json) : FetchOutcome :=
  Resolves {| status := 200; statusText := "OK";
              body_text := JSON_stringify body; body_json := inr body |}.

Definition sample_paging (current count : Z) : json :=
  JObj [("items_per_page", JNum 2); ("current_page", JNum current);
        ("count_pages", JNum count); ("count_items", JNum 3)].

Definition sample_user (id : Z) (name : string) : json :=
  JObj [("id", JNum id); ("name", JStr name); ("email", JStr "user@example.com");
        ("active", JBool true); ("role", JNull)].

Definition sample_entry (id users_id : Z) : json :=
  JObj [("id", JNum id); ("customers_id", JNum 7); ("projects_id", JNull);
        ("users_id", JNum users_id); ("billable", JNum 1); ("text", JStr "work");
        ("time_since", JStr "2025-09-01T08:00:00Z"); ("time_until", JStr "2025-09-01T09:00:00Z");
        ("time_insert", JStr "2025-09-01T09:00:01Z");
        ("time_last_change", JStr "2025-09-01T09:00:01Z")].

Definition users_page (users : list json) (current count : Z) : json :=
  JObj [("paging", sample_paging current count); ("data", JArr users)].

Definition entries_page (entries : list json) (current count : Z) : json :=
  JObj [("paging", sample_paging current count); ("entries", JArr entries)].

(** A service that announces, with every page, one page more. *)
Definition endless : Backend :=
  fun history _ =>
    ok_json (users_page [] (Z.of_nat (S (List.length history)))
                           (Z.of_nat (S (S (List.length history))))).

(* ================================================================= *)
(** ** The log *)

(** The lines of the log file. *)
Definition log_lines (w : World) : list LogEntry :=
  match logFile w with
  | Some entries => entries
  | None => []
  end.

(** The line [makeRequest] logs before it sends a request. *)
Definition request_line (this : ClockodoAPI) (endpoint : string) : LogEntry :=
  Entry (">>> REQUEST GET " ++ baseUrl this ++ endpoint)
    (Some (JObj [("headers",
                  JObj [("Accept", JStr "application/json");
                        ("X-ClockodoApiUser", JStr (email this));
                        ("X-ClockodoApiKey", JStr "***");
                        ("X-Clockodo-External-Application", JStr "mcp-ts")])])).

(** A computation that only appends to the log. *)
Definition appends {A : Type} (c : M A) : Prop :=
  forall w, exists rest, log_lines (snd (c w)) = (log_lines w ++ rest)%list.

(* ================================================================= *)
(** ** What a run shows *)

(** A request with the API key masked. *)
Definition masked (r : Request) : Request :=
  {| method := method r;
     url := url r;
     headers := map (fun h => if String.eqb (fst h) "X-ClockodoApiKey"
                              then (fst h, "***") else h) (headers r) |}.

(** A service whose answers do not depend on the API key it is sent. *)
Definition key_blind (b : Backend) : Prop :=
  forall history history' request request',
    map masked history = map masked history' ->
    masked request = masked request' ->
    b history request = b history' request'.

(** What a run shows: its outcome (the value, or the error with its
    message), the log file, and the requests sent with the key masked. *)
Definition visible {A : Type} (r : option (Outcome A * World))
  : option (Outcome A * option (list LogEntry) * list Request) :=
  option_map (fun ow => (fst ow, logFile (snd ow), map masked (sent (snd ow)))) r.

(** Two worlds that show the same. *)
Definition same_view (w1 w2 : World) : Prop :=
  logFile w1 = logFile w2 /\ map masked (sent w1) = map masked (sent w2).

(** The outcome of a run. *)
Definition outcome_of {A : Type} (r : option (Outcome A * World)) : option (Outcome A) :=
  option_map fst r.

(** The URLs of the requests a run has sent. *)
Definition urls_of (r : option (Outcome (list json) * World)) : option (list string) :=
  option_map (fun ow => map url (sent (snd ow))) r.

(** The world a run ends in. *)
Definition final_world {A : Type} (r : option (Outcome A * World)) : World :=
  match r with
  | Some (_, w) => w
  | None => fresh
  end.

(** [s] occurs in [t]. *)
Definition occurs_in (s t : string) : Prop := exists a c, t = a ++ s ++ c.

(** The error of a construction without credentials. *)
Definition missing_credentials : Thrown :=
  Err "Error" "CLOCKODO_EMAIL and CLOCKODO_API_KEY environment variables are required".

(* ================================================================= *)
(** ** The gateway: numbers and timestamps as text *)

(** The value of a decimal numeral read after [acc]. *)
Fixpoint uint_value (d : Decimal.uint) (acc : Z) : Z :=
  match d with
  | Decimal.Nil => acc
  | Decimal.D0 l => uint_value l (10 * acc)
  | Decimal.D1 l => uint_value l (10 * acc + 1)
  | Decimal.D2 l => uint_value l (10 * acc + 2)
  | Decimal.D3 l => uint_value l (10 * acc + 3)
  | Decimal.D4 l => uint_value l (10 * acc + 4)
  | Decimal.D5 l => uint_value l (10 * acc + 5)
  | Decimal.D6 l => uint_value l (10 * acc + 6)
  | Decimal.D7 l => uint_value l (10 * acc + 7)
  | Decimal.D8 l => uint_value l (10 * acc + 8)
  | Decimal.D9 l => uint_value l (10 * acc + 9)
  end.

(** Every character of [s] satisfies [p]. *)
Fixpoint string_forall (p : ascii -> bool) (s : string) : bool :=
  match s with
  | EmptyString => true
  | String c rest => p c && string_forall p rest
  end.

(** [s] does not begin with a digit. *)
Definition no_leading_digit (s : string) : bool :=
  match s with
  | String c _ => negb (is_digit c)
  | EmptyString => true
  end.

(** [d] is [n] digits. *)
Definition digits (n : nat) (d : string) : Prop :=
  String.length d = n /\ string_forall is_digit d = true.

(** The strings [dateRegex] describes. *)
Definition timestamp_shape (s : string) : Prop :=
  exists year month day hour minute second fraction zone,
    digits 4 year /\ digits 2 month /\ digits 2 day /\
    digits 2 hour /\ digits 2 minute /\ digits 2 second /\
    (fraction = "" \/ exists millis, digits 3 millis /\ fraction = "." ++ millis) /\
    (zone = "" \/ zone = "Z") /\
    s = year ++ "-" ++ month ++ "-" ++ day ++ "T" ++ hour ++ ":" ++ minute ++ ":" ++ second
        ++ fraction ++ zone.

(** The characters of a timestamp: digits and [- T : . Z]. *)
Definition timestamp_char (c : ascii) : bool :=
  is_digit c || Ascii.eqb c "-" || Ascii.eqb c "T" || Ascii.eqb c ":"
  || Ascii.eqb c "." || Ascii.eqb c "Z".

(** What a resource callback makes of the outcome of a retrieval. *)
Definition as_contents (prefix href : string) (r : option (Outcome (list json) * World))
  : option (Outcome (list Content) * World) :=
  match r with
  | Some (Returns records, w') =>
      Some (Returns [{| uri := href; text := JSON_stringify (JArr records) |}], w')
  | Some (Throws e, w') => Some (Throws (Err "Error" (prefix ++ message_of e)), w')
  | None => None
  end.

(** Reading the resource of an operation: the callback registered for it,
    given the user id in print and the timestamps as template variables. *)
Definition read_resource (b : Backend) (clockodoAPI : ClockodoAPI) (fuel : nat)
    (href : string) (op : Operation) : Run (list Content) :=
  match op with
  | Users => users_resource b clockodoAPI fuel href
  | Entries userId timeSince timeUntil =>
      entries_resource b clockodoAPI fuel href
        (Single (string_of_Z userId)) (Single timeSince) (Single timeUntil)
  | Projects => projects_resource b clockodoAPI fuel href
  end.

(** The prefix a callback puts before the message of a failure. *)
Definition gateway_prefix (op : Operation) : string :=
  match op with
  | Users => "Failed to fetch users: "
  | Entries _ _ _ => "Failed to fetch entries: "
  | Projects => "Failed to fetch projects: "
  end.

(** The timestamps of an operation pass [dateRegex]. *)
Definition timestamps_ok (op : Operation) : bool :=
  match op with
  | Entries _ timeSince timeUntil =>
      test dateRegex (Some timeSince) && test dateRegex (Some timeUntil)
  | _ => true
  end.

(* ================================================================= *)
(** ** Safe numbers *)

(** [Number.isSafeInteger(n)] *)
Definition safe_integer (n : Z) : bool := (- 2 ^ 53 <? n) && (n <? 2 ^ 53).

(** All numbers of a value are safe integers. *)
Fixpoint safe (v : json) : bool :=
  match v with
  | JNum n => safe_integer n
  | JArr items => forallb safe items
  | JObj fields => forallb (fun kv => safe (snd kv)) fields
  | _ => true
  end.


(** The operation the gateway runs when it reads the resource of [op] with
    the user id in print: [parseInt] has rounded the user id. *)
Definition as_read (op : Operation) : Operation :=
  match op with
  | Entries userId timeSince timeUntil => Entries (to_double userId) timeSince timeUntil
  | _ => op
  end.

(** A service whose bodies hold safe numbers only. *)
Definition safe_service (b : Backend) : Prop :=
  forall history request r data,
    b history request = Resolves r -> body_json r = inr data -> safe data = true.

(* ================================================================= *)
(** ** The earlier client and the present one *)

(** The outcome of [Earlier.makeRequest] as a function of what [fetch]
    yields (lemma [earlier_makeRequest_outcome]). *)
Definition earlier_outcome (o : FetchOutcome) (schema : ZodType) : Outcome json :=
  match o with
  | Rejects n m => Throws (Err n m)
  | Resolves r =>
      if ok r then
        match body_json r with
        | inl m => Throws (Err "SyntaxError" m)
        | inr data =>
            match parse schema data with
            | Returns v => Returns v
            | Throws e => Throws (Err "Error" ("Invalid API response format: " ++ message_of e))
            end
        end
      else Throws (Err "Error" ("HTTP " ++ string_of_Z (status r) ++ ": " ++ statusText r))
  end.

(** A service that never answers with the body [null]. *)
Definition never_null (b : Backend) : Prop :=
  forall history request r, b history request = Resolves r -> body_json r <> inr JNull.

(** The outcome of a run and the requests it has sent. *)
Definition trace {A : Type} (r : option (Outcome A * World))
  : option (Outcome A * list Request) :=
  option_map (fun ow => (fst ow, sent (snd ow))) r.

(* ================================================================= *)
(** ** Values that conform to a schema *)

(** [input] conforms to [t]: the reading of a schema as a predicate.
    [issues_of] raises no issue exactly for such inputs (lemma
    [no_issue_iff_conforms]). *)
Fixpoint conforms (t : ZodType) (input : option json) : bool :=
  match t with
  | z_number => match input with Some (JNum _) => true | _ => false end
  | z_string => match input with Some (JStr _) => true | _ => false end
  | z_boolean => match input with Some (JBool _) => true | _ => false end
  | z_any => true
  | z_nullable t' =>
      match input with
      | Some JNull => true
      | _ => conforms t' input
      end
  | z_optional t' =>
      match input with
      | None => true
      | _ => conforms t' input
      end
  | z_array t' =>
      match input with
      | Some (JArr items) => forallb (fun x => conforms t' (Some x)) items
      | _ => false
      end
  | z_object shape =>
      match input with
      | Some (JObj fields) =>
          (fix all (sh : list (string * ZodType)) : bool :=
             match sh with
             | [] => true
             | (k, tk) :: sh' => conforms tk (lookup k fields) && all sh'
             end) shape
      | _ => false
      end
  end.

(** The fields of [fields] conform to the entries of [sh]. *)
Fixpoint conforms_fields (sh : list (string * ZodType)) (fields : list (string * json)) : bool :=
  match sh with
  | [] => true
  | (k, tk) :: sh' => conforms tk (lookup k fields) && conforms_fields sh' fields
  end.

(** The fields validation keeps for the entries of [sh]. *)
Fixpoint strip_fields (sh : list (string * ZodType)) (fields : list (string * json))
  : list (string * json) :=
  match sh with
  | [] => []
  | (k, tk) :: sh' =>
      match lookup k fields with
      | Some x => (k, strip tk x) :: strip_fields sh' fields
      | None => strip_fields sh' fields
      end
  end.

(** No string occurs twice. *)
Fixpoint distinct (l : list string) : bool :=
  match l with
  | [] => true
  | k :: rest => negb (existsb (String.eqb k) rest) && distinct rest
  end.

(** A schema as an object literal gives it: no key twice in a shape. *)
Fixpoint well_formed (t : ZodType) : bool :=
  match t with
  | z_nullable t' => well_formed t'
  | z_optional t' => well_formed t'
  | z_array t' => well_formed t'
  | z_object shape =>
      distinct (map fst shape) &&
      (fix all (sh : list (string * ZodType)) : bool :=
         match sh with
         | [] => true
         | (_, tk) :: sh' => well_formed tk && all sh'
         end) shape
  | _ => true
  end.

(* ================================================================= *)
(** ** Requests in the log *)

(** The message of the line [logRequest] writes for a request. *)
Definition request_message (r : Request) : string :=
  ">>> REQUEST " ++ method r ++ " " ++ url r.

(** The request lines among the entries of a log: the messages that begin
    with [>>> REQUEST]. *)
Definition request_lines (entries : list LogEntry) : list string :=
  flat_map (fun e => match e with
                     | Entry message _ =>
                         if startsWith ">>> REQUEST " message then [message] else []
                     | Banner => []
                     end) entries.

(* ================================================================= *)
(** ** Services with a bounded number of pages *)

(** Whatever page of [op] the service [b] delivers, it announces at most
    [N] pages. *)
Definition announces_at_most (b : Backend) (this : ClockodoAPI) (op : Operation) (N : Z)
  : Prop :=
  forall history page response count,
    page_result b this op history page = Returns response ->
    count_pages response = Some count ->
    count <= N.

(* ================================================================= *)
(** * Part III: the properties

    ** [makeRequest], case by case *)

Lemma parse_throws_zod schema data e :
  parse schema data = Throws e -> exists issues, e = ZodError issues.
Proof.
  unfold parse. destruct (issues_of schema [] (Some data)); intros H; inversion H; eauto.
Qed.

Lemma makeRequest_outcome b this endpoint schema w :
  fst (makeRequest b this endpoint schema w) =
  request_outcome (b (sent w) (request_for this endpoint)) schema.
Proof.
  unfold makeRequest, request_outcome, try_catch, bind, fetch,
    Logger.logRequest, Logger.logResponse, Logger.logError, Logger.log,
    Logger.appendFileSync, lift, ret, throw.
  cbn [sent logFile fst snd].
  destruct (b (sent w) (request_for this endpoint)) as [n m | r]; [reflexivity|].
  destruct (ok r); cbn [negb fst snd]; [|reflexivity].
  destruct (body_json r) as [m | data]; [reflexivity|].
  destruct data; cbn [typeof String.eqb Object_keys fst snd]; try reflexivity;
    (destruct (parse schema _) as [v | e] eqn:Hp; cbn [fst snd]; [reflexivity|];
     destruct (parse_throws_zod _ _ _ Hp) as [issues ->]; reflexivity).
Qed.

Lemma makeRequest_sent b this endpoint schema w :
  sent (snd (makeRequest b this endpoint schema w)) =
  (sent w ++ [request_for this endpoint])%list.
Proof.
  unfold makeRequest, try_catch, bind, fetch,
    Logger.logRequest, Logger.logResponse, Logger.logError, Logger.log,
    Logger.appendFileSync, lift, ret, throw.
  cbn [sent logFile fst snd].
  destruct (b (sent w) (request_for this endpoint)) as [n m | r]; [reflexivity|].
  destruct (ok r); cbn [negb fst snd sent]; [|reflexivity].
  destruct (body_json r) as [m | data]; [reflexivity|].
  destruct data; cbn [typeof String.eqb Object_keys fst snd sent]; try reflexivity;
    (destruct (parse schema _) as [v | e] eqn:Hp; cbn [fst snd sent]; [reflexivity|];
     destruct (parse_throws_zod _ _ _ Hp) as [issues ->]; reflexivity).
Qed.

(* ================================================================= *)
(** ** The three loops are one *)

Lemma filter_all {A : Type} (l : list A) : filter (fun _ => true) l = l.
Proof. induction l as [|x l IH]; [reflexivity|]. cbn. now rewrite IH. Qed.

Lemma getUsers_while_paginate b this fuel : forall acc page w,
  getUsers_while b this fuel acc page w = paginate b this Users fuel acc page w.
Proof.
  induction fuel as [|fuel IH]; intros acc page w; [reflexivity|].
  cbn [getUsers_while paginate endpoint_of schema_of payload_key].
  destruct (makeRequest _ _ _ _ w) as [[response | e] w1]; [|reflexivity].
  destruct (payload "data" response) as [items|]; [|reflexivity].
  destruct (count_pages response) as [count|]; [|reflexivity].
  change (kept Users) with (fun _ : json => true). rewrite filter_all.
  cbv zeta. now rewrite IH.
Qed.

Lemma getProjects_while_paginate b this fuel : forall acc page w,
  getProjects_while b this fuel acc page w = paginate b this Projects fuel acc page w.
Proof.
  induction fuel as [|fuel IH]; intros acc page w; [reflexivity|].
  cbn [getProjects_while paginate endpoint_of schema_of payload_key].
  destruct (makeRequest _ _ _ _ w) as [[response | e] w1]; [|reflexivity].
  destruct (payload "data" response) as [items|]; [|reflexivity].
  destruct (count_pages response) as [count|]; [|reflexivity].
  change (kept Projects) with (fun _ : json => true). rewrite filter_all.
  cbv zeta. now rewrite IH.
Qed.

Lemma getEntries_while_paginate b this userId timeSince timeUntil fuel : forall acc page w,
  getEntries_while b this fuel userId timeSince timeUntil acc page w =
  paginate b this (Entries userId timeSince timeUntil) fuel acc page w.
Proof.
  induction fuel as [|fuel IH]; intros acc page w; [reflexivity|].
  cbn [getEntries_while paginate endpoint_of schema_of payload_key].
  destruct (makeRequest _ _ _ _ w) as [[response | e] w1]; [|reflexivity].
  destruct (payload "entries" response) as [items|]; [|reflexivity].
  destruct (count_pages response) as [count|]; [|reflexivity].
  cbv zeta. now rewrite IH.
Qed.

Lemma retrieve_paginate b this fuel op w :
  retrieve b this fuel op w =
  rethrow_as (failure_prefix op) (paginate b this op fuel [] 1) w.
Proof.
  destruct op as [|userId timeSince timeUntil|]; cbn [retrieve failure_prefix].
  - unfold getUsers, rethrow_as. now rewrite getUsers_while_paginate.
  - unfold getEntries, rethrow_as. now rewrite getEntries_while_paginate.
  - unfold getProjects, rethrow_as. now rewrite getProjects_while_paginate.
Qed.

(** One turn of the loop. *)
Lemma paginate_S b this op fuel acc page w :
  paginate b this op (S fuel) acc page w =
  let w1 := snd (makeRequest b this (endpoint_of op page) (schema_of op) w) in
  match page_result b this op (sent w) page with
  | Throws e => Some (Throws e, w1)
  | Returns response =>
      match payload (payload_key op) response, count_pages response with
      | Some items, Some count =>
          if page <? count
          then paginate b this op fuel (acc ++ filter (kept op) items)%list (page + 1) w1
          else Some (Returns (acc ++ filter (kept op) items)%list, w1)
      | _, _ => Some (Throws untyped_read, w1)
      end
  end.
Proof.
  unfold page_result. rewrite <- makeRequest_outcome.
  cbn [paginate].
  destruct (makeRequest b this (endpoint_of op page) (schema_of op) w) as [[response | e] w1];
    reflexivity.
Qed.

(* ================================================================= *)
(** ** The shape of a validated response *)

Lemma schema_of_envelope op : schema_of op = envelope (payload_key op) (item_schema op).
Proof. destruct op; reflexivity. Qed.

Lemma issues_number_nil p input :
  issues_of z_number p input = [] -> exists n, input = Some (JNum n).
Proof.
  destruct input as [[]|]; cbn; intros H; try discriminate; eauto.
Qed.

Lemma parse_paging p input :
  issues_of PagingSchema p input = [] ->
  exists fields ipp cur cp cnt,
    input = Some (JObj fields) /\
    lookup "items_per_page" fields = Some (JNum ipp) /\
    lookup "current_page" fields = Some (JNum cur) /\
    lookup "count_pages" fields = Some (JNum cp) /\
    lookup "count_items" fields = Some (JNum cnt) /\
    strip PagingSchema (JObj fields) = paging_object ipp cur cp cnt.
Proof.
  destruct input as [[| | | | |fields]|]; try (cbn; discriminate).
  unfold PagingSchema. cbn [issues_of]. intros H.
  apply app_eq_nil in H as [H1 H]. apply app_eq_nil in H as [H2 H].
  apply app_eq_nil in H as [H3 H]. apply app_eq_nil in H as [H4 _].
  apply issues_number_nil in H1 as [ipp H1], H2 as [cur H2], H3 as [cp H3], H4 as [cnt H4].
  exists fields, ipp, cur, cp, cnt. repeat split; try assumption.
  cbn [strip]. now rewrite H1, H2, H3, H4.
Qed.

Lemma strip_object2 k1 t1 k2 t2 fields x1 x2 :
  lookup k1 fields = Some x1 -> lookup k2 fields = Some x2 ->
  strip (z_object [(k1, t1); (k2, t2)]) (JObj fields) =
  JObj [(k1, strip t1 x1); (k2, strip t2 x2)].
Proof. intros H1 H2. cbn [strip]. now rewrite H1, H2. Qed.

(** A body passes an envelope schema exactly when it is an object with an
    array of valid records under the payload key and four numbers under
    [paging]; the parsed value has these two fields and no other. *)
Lemma parse_envelope key item data response :
  parse (envelope key item) data = Returns response ->
  exists fields raw_items pfields ipp cur cp cnt,
    data = JObj fields /\
    lookup key fields = Some (JArr raw_items) /\
    issues_of (z_array item) [Key key] (Some (JArr raw_items)) = [] /\
    lookup "paging" fields = Some (JObj pfields) /\
    lookup "current_page" pfields = Some (JNum cur) /\
    lookup "count_pages" pfields = Some (JNum cp) /\
    response = JObj [(key, JArr (map (strip item) raw_items));
                     ("paging", paging_object ipp cur cp cnt)].
Proof.
  unfold parse.
  destruct (issues_of (envelope key item) [] (Some data)) as [|i rest] eqn:Hi; [|discriminate].
  intros Hr.
  assert (Hresponse : response = strip (envelope key item) data) by congruence.
  clear Hr.
  destruct data as [| | | | |fields]; try discriminate.
  unfold envelope in Hi. cbn [issues_of app] in Hi.
  apply app_eq_nil in Hi as [Hitems Hp]. apply app_eq_nil in Hp as [Hp _].
  apply parse_paging in Hp as (pfields & ipp & cur & cp & cnt & Hpl & _ & Hcur & Hcp & _ & Hstrip).
  destruct (lookup key fields) as [[| | | |raw_items|]|] eqn:Hk; try discriminate.
  exists fields, raw_items, pfields, ipp, cur, cp, cnt.
  repeat (split; [assumption || reflexivity|]).
  rewrite Hresponse. unfold envelope.
  rewrite (strip_object2 _ _ _ _ _ _ _ Hk Hpl), Hstrip. reflexivity.
Qed.

Lemma payload_key_not_paging op : String.eqb "paging" (payload_key op) = false.
Proof. destruct op; reflexivity. Qed.

Lemma parsed_page_shape op data response :
  parse (schema_of op) data = Returns response ->
  exists items count,
    payload (payload_key op) response = Some items /\
    count_pages response = Some count.
Proof.
  rewrite schema_of_envelope. intros H.
  apply parse_envelope in H as (fields & raw & pf & ipp & cur & cp & cnt & _ & _ & _ & _ & _ & _ & Hr).
  subst response.
  exists (map (strip (item_schema op)) raw), cp. split.
  - unfold payload. cbn [prop lookup]. now rewrite String.eqb_refl.
  - unfold count_pages. cbn [prop lookup]. rewrite payload_key_not_paging.
    reflexivity.
Qed.

(** So a page that [makeRequest] returns to a loop has both parts. *)
Lemma page_result_shape b this op history page response :
  page_result b this op history page = Returns response ->
  exists items count,
    payload (payload_key op) response = Some items /\
    count_pages response = Some count.
Proof.
  unfold page_result, request_outcome.
  destruct (b history _) as [n m | r]; [discriminate|].
  destruct (ok r); [|discriminate].
  destruct (body_json r) as [m | data]; [discriminate|].
  destruct data; try discriminate;
    (destruct (parse (schema_of op) _) as [v | e] eqn:Hp; [|discriminate];
     intros H; inversion H; subst v; eapply parsed_page_shape; eassumption).
Qed.

(* ================================================================= *)
(** ** What validation does to a record: [strip] *)

(** A field the shape names keeps its key and is parsed by its schema; a
    field the shape does not name is dropped. *)
Lemma lookup_strip shape fields k :
  lookup k (fields_of (strip (z_object shape) (JObj fields))) =
  match shape_lookup k shape with
  | Some t => option_map (strip t) (lookup k fields)
  | None => None
  end.
Proof.
  induction shape as [|[k' t'] shape IH]; [reflexivity|].
  cbn [strip fields_of shape_lookup] in *.
  destruct (String.eqb k k') eqn:Hk.
  - apply String.eqb_eq in Hk. subst k'.
    destruct (lookup k fields) as [x|] eqn:Hx.
    + cbn [lookup option_map]. now rewrite String.eqb_refl.
    + rewrite IH. destruct (shape_lookup k shape); [|reflexivity].
      try rewrite Hx. reflexivity.
  - destruct (lookup k' fields) as [x|]; [|exact IH].
    cbn [lookup]. rewrite Hk. exact IH.
Qed.

Lemma strip_flat t : flat t = true -> forall v, strip t v = v.
Proof.
  induction t as [| | | |t IH|t IH|t IH|shape]; cbn [flat strip]; intros Hf v;
    try reflexivity; try discriminate.
  - destruct v; auto.
  - auto.
  - destruct v as [| | | |items|]; try reflexivity.
    f_equal. induction items as [|x items IHi]; [reflexivity|].
    cbn [map]. now rewrite IH, IHi.
Qed.

Lemma prop_strip_object shape fields k :
  prop (strip (z_object shape) (JObj fields)) k =
  match shape_lookup k shape with
  | Some t => option_map (strip t) (lookup k fields)
  | None => None
  end.
Proof. rewrite <- lookup_strip. reflexivity. Qed.


(* ================================================================= *)
(** ** Runs of the pagination loop *)

Lemma pages_from_length p n : List.length (pages_from p n) = n.
Proof. revert p. induction n as [|n IH]; intros p; cbn; [reflexivity|now rewrite IH]. Qed.

Lemma pages_from_snoc p n :
  pages_from p (S n) = (pages_from p n ++ [p + Z.of_nat n])%list.
Proof.
  revert p. induction n as [|n IH]; intros p.
  - cbn. now rewrite Z.add_0_r.
  - change (pages_from p (S (S n))) with (p :: pages_from (p + 1) (S n)).
    rewrite IH. cbn [pages_from app]. do 3 f_equal. lia.
Qed.

Lemma requests_app this op l1 l2 :
  requests this op (l1 ++ l2) = (requests this op l1 ++ requests this op l2)%list.
Proof. apply map_app. Qed.

Lemma requests_length this op l : List.length (requests this op l) = List.length l.
Proof. apply length_map. Qed.

Lemma collected_cons op response rest :
  collected op (response :: rest) =
  (filter (kept op) (items_of op response) ++ collected op rest)%list.
Proof. reflexivity. Qed.

Lemma collected_app op l1 l2 :
  collected op (l1 ++ l2) = (collected op l1 ++ collected op l2)%list.
Proof. apply flat_map_app. Qed.

Lemma items_of_payload op response items :
  payload (payload_key op) response = Some items -> items_of op response = items.
Proof. unfold items_of. now intros ->. Qed.

Section Loop.

Variables (b : Backend) (this : ClockodoAPI) (op : Operation).

(** After the turns of [loop_steps] the loop stands at the next page, with
    the kept records appended and one request sent for each turn. *)
Lemma paginate_steps history page responses :
  loop_steps b this op history page responses ->
  forall fuel acc w, sent w = history ->
  exists w',
    sent w' = (history ++ requests this op (pages_from page (List.length responses)))%list /\
    paginate b this op (List.length responses + fuel) acc page w =
    paginate b this op fuel (acc ++ collected op responses)%list
      (page + Z.of_nat (List.length responses)) w'.
Proof.
  induction 1 as [history page | history page response count rest Hres Hcount Hlt Hrest IH];
    intros fuel acc w Hw.
  - exists w. cbn [List.length pages_from requests map collected flat_map Nat.add].
    rewrite !app_nil_r, Z.add_0_r. auto.
  - cbn [List.length Nat.add]. rewrite paginate_S. cbv zeta.
    rewrite Hw, Hres.
    destruct (page_result_shape _ _ _ _ _ _ Hres) as (items & count' & Hitems & Hcount').
    rewrite Hitems, Hcount. apply Z.ltb_lt in Hlt. rewrite Hlt.
    set (w1 := snd (makeRequest b this (endpoint_of op page) (schema_of op) w)).
    assert (Hw1 : sent w1 = (history ++ [request_for this (endpoint_of op page)])%list).
    { unfold w1. now rewrite makeRequest_sent, Hw. }
    destruct (IH fuel (acc ++ filter (kept op) items)%list w1 Hw1) as (w' & Hsent & Hrun).
    exists w'. split.
    + rewrite Hsent. cbn [pages_from requests map]. now rewrite <- app_assoc.
    + rewrite Hrun. f_equal.
      * rewrite collected_cons, (items_of_payload _ _ _ Hitems).
        now rewrite <- app_assoc.
      * lia.
Qed.

(** Conversely, a run of the loop that ends went through turns that made
    it go on, and a last one: a page that made it stop, or a failure. *)
Lemma paginate_inv fuel : forall acc page w o w',
  paginate b this op fuel acc page w = Some (o, w') ->
  exists responses,
    loop_steps b this op (sent w) page responses /\
    (List.length responses < fuel)%nat /\
    sent w' = (sent w ++ requests this op (pages_from page (S (List.length responses))))%list /\
    match o with
    | Returns out =>
        exists last count,
          page_result b this op
            (sent w ++ requests this op (pages_from page (List.length responses)))%list
            (page + Z.of_nat (List.length responses)) = Returns last /\
          count_pages last = Some count /\
          count <= page + Z.of_nat (List.length responses) /\
          out = (acc ++ collected op (responses ++ [last]))%list
    | Throws e =>
        page_result b this op
          (sent w ++ requests this op (pages_from page (List.length responses)))%list
          (page + Z.of_nat (List.length responses)) = Throws e
    end.
Proof.
  induction fuel as [|fuel IH]; intros acc page w o w' Hrun; [discriminate|].
  rewrite paginate_S in Hrun. cbv zeta in Hrun.
  destruct (page_result b this op (sent w) page) as [response | e] eqn:Hres.
  - destruct (page_result_shape _ _ _ _ _ _ Hres) as (items & count & Hitems & Hcount).
    rewrite Hitems, Hcount in Hrun.
    destruct (page <? count) eqn:Hlt.
    + apply IH in Hrun as (responses & Hsteps & Hfuel & Hsent & Hend).
      rewrite makeRequest_sent in Hsteps, Hsent, Hend.
      exists (response :: responses).
      cbn [List.length]. rewrite Nat2Z.inj_succ.
      replace (page + Z.succ (Z.of_nat (List.length responses)))
        with (page + 1 + Z.of_nat (List.length responses)) by lia.
      change (pages_from page (S (List.length responses)))
        with (page :: pages_from (page + 1) (List.length responses)).
      change (pages_from page (S (S (List.length responses))))
        with (page :: pages_from (page + 1) (S (List.length responses))).
      cbn [requests map] in *. rewrite <- !app_assoc in Hend. rewrite <- app_assoc in Hsent.
      cbn [app] in Hend, Hsent.
      repeat split; try assumption; try lia.
      * apply Z.ltb_lt in Hlt. exact (steps_more b this op _ _ _ _ _ Hres Hcount Hlt Hsteps).
      * destruct o as [out | e]; [|exact Hend].
        destruct Hend as (last & count' & Hlast & Hcount' & Hle & Hout).
        exists last, count'. repeat split; try assumption.
        rewrite Hout. cbn [app]. rewrite collected_cons, (items_of_payload _ _ _ Hitems).
        now rewrite <- app_assoc.
    + injection Hrun as Ho Hw'. exists [].
      cbn [List.length pages_from requests map Z.of_nat]. rewrite app_nil_r, Z.add_0_r.
      repeat split; try lia.
      * constructor.
      * rewrite <- Hw'. apply makeRequest_sent.
      * rewrite <- Ho. exists response, count. repeat split; try assumption.
        -- now apply Z.ltb_ge.
        -- cbn [app]. rewrite collected_cons, (items_of_payload _ _ _ Hitems).
           cbn [collected flat_map]. now rewrite app_nil_r.
  - injection Hrun as Ho Hw'. exists [].
    cbn [List.length pages_from requests map Z.of_nat]. rewrite app_nil_r, Z.add_0_r.
    repeat split; try lia.
    + constructor.
    + rewrite <- Hw'. apply makeRequest_sent.
    + rewrite <- Ho. exact Hres.
Qed.

(** The turns of the loop, given by index. *)
Lemma loop_steps_indexed responses : forall history page,
  (forall i response, nth_error responses i = Some response ->
     page_result b this op (history ++ requests this op (pages_from page i))%list
       (page + Z.of_nat i) = Returns response /\
     exists count, count_pages response = Some count /\ page + Z.of_nat i < count) ->
  loop_steps b this op history page responses.
Proof.
  induction responses as [|response rest IH]; intros history page H; [constructor|].
  destruct (H O response eq_refl) as (Hres & count & Hcount & Hlt).
  cbn [pages_from requests map] in Hres. rewrite app_nil_r, Z.add_0_r in Hres.
  rewrite Z.add_0_r in Hlt.
  apply (steps_more b this op _ _ _ count _ Hres Hcount Hlt).
  apply IH. intros i r Hi.
  destruct (H (S i) r Hi) as (Hres' & count' & Hcount' & Hlt').
  cbn [pages_from requests map] in Hres'. rewrite Nat2Z.inj_succ in Hres', Hlt'.
  rewrite <- app_assoc. cbn [app].
  replace (page + 1 + Z.of_nat i) with (page + Z.succ (Z.of_nat i)) by lia.
  split; [exact Hres'|]. exists count'. split; [assumption|lia].
Qed.

Lemma loop_steps_nth history page responses :
  loop_steps b this op history page responses ->
  forall i response, nth_error responses i = Some response ->
    page_result b this op (history ++ requests this op (pages_from page i))%list
      (page + Z.of_nat i) = Returns response /\
    exists count, count_pages response = Some count /\ page + Z.of_nat i < count.
Proof.
  induction 1 as [history page | history page r count rest Hres Hcount Hlt Hrest IH];
    intros i response Hi.
  - destruct i; discriminate.
  - destruct i as [|i].
    + injection Hi as <-. cbn [pages_from requests map Z.of_nat].
      rewrite app_nil_r, Z.add_0_r. eauto.
    + cbn [nth_error] in Hi. destruct (IH i response Hi) as (Hres' & count' & Hcount' & Hlt').
      cbn [pages_from requests map]. rewrite Nat2Z.inj_succ.
      rewrite <- app_assoc in Hres'. cbn [app] in Hres'.
      replace (page + Z.succ (Z.of_nat i)) with (page + 1 + Z.of_nat i) by lia.
      eauto.
Qed.

End Loop.

(* ================================================================= *)
(** ** From what the service sends to what the loop receives *)



(** A valid body that is served reaches the loop stripped, with the page
    count it declares and with its records stripped. *)
Lemma served_page b this op history page body :
  serves b this history (endpoint_of op page) body ->
  valid op body ->
  page_result b this op history page = Returns (strip (schema_of op) body) /\
  count_pages (strip (schema_of op) body) = count_pages body /\
  current_page (strip (schema_of op) body) = current_page body /\
  items_of op (strip (schema_of op) body) = map (strip (item_schema op)) (items_of op body).
Proof.
  intros (r & Hb & Hok & Hbody) Hvalid.
  assert (Hparse : parse (schema_of op) body = Returns (strip (schema_of op) body)).
  { unfold parse. unfold valid in Hvalid. now rewrite Hvalid. }
  pose proof Hparse as Henv. rewrite schema_of_envelope in Henv.
  apply parse_envelope in Henv
    as (fields & raw & pf & ipp & cur & cp & cnt & Hdata & Hk & _ & Hpl & Hcur & Hcp & Hstrip).
  rewrite <- schema_of_envelope in Hstrip.
  split; [|rewrite Hstrip; subst body; repeat split].
  - unfold page_result, request_outcome. rewrite Hb, Hok, Hbody, Hparse.
    subst body. reflexivity.
  - unfold count_pages. cbn [prop lookup]. rewrite payload_key_not_paging, Hpl.
    cbn [prop lookup String.eqb Ascii.eqb Bool.eqb]. now rewrite Hcp.
  - unfold current_page. cbn [prop lookup]. rewrite payload_key_not_paging, Hpl.
    cbn [prop lookup String.eqb Ascii.eqb Bool.eqb]. now rewrite Hcur.
  - unfold items_of, payload. cbn [prop lookup]. now rewrite String.eqb_refl, Hk.
Qed.


(** Served pages that all announce a further page are turns of the loop. *)
Lemma steps_of_served b this op bodies history page :
  (forall i body, nth_error bodies i = Some body ->
     serves b this (history ++ requests this op (pages_from page i))%list
       (endpoint_of op (page + Z.of_nat i)) body /\
     valid op body /\
     exists count, count_pages body = Some count /\ page + Z.of_nat i < count) ->
  loop_steps b this op history page (map (strip (schema_of op)) bodies).
Proof.
  intros H. apply loop_steps_indexed. intros i response Hi.
  rewrite nth_error_map in Hi.
  destruct (nth_error bodies i) as [body|] eqn:Hbody; [|discriminate].
  injection Hi as <-.
  destruct (H i body Hbody) as (Hserves & Hvalid & count & Hcount & Hlt).
  destruct (served_page _ _ _ _ _ _ Hserves Hvalid) as (Hres & Hcp & _ & _).
  split; [exact Hres|]. exists count. now rewrite Hcp.
Qed.

(** The last turn of a loop: a page that announces no further page. *)
Lemma paginate_last b this op fuel acc page w response count :
  page_result b this op (sent w) page = Returns response ->
  count_pages response = Some count ->
  count <= page ->
  exists w',
    paginate b this op (S fuel) acc page w =
      Some (Returns (acc ++ filter (kept op) (items_of op response))%list, w') /\
    sent w' = (sent w ++ [request_for this (endpoint_of op page)])%list.
Proof.
  intros Hres Hcount Hle.
  exists (snd (makeRequest b this (endpoint_of op page) (schema_of op) w)).
  split; [|apply makeRequest_sent].
  rewrite paginate_S. cbv zeta. rewrite Hres.
  destruct (page_result_shape _ _ _ _ _ _ Hres) as (items & count' & Hitems & _).
  rewrite Hitems, Hcount, (items_of_payload _ _ _ Hitems).
  apply Z.ltb_ge in Hle. now rewrite Hle.
Qed.

(** A turn in which [makeRequest] throws ends the loop with that error. *)
Lemma paginate_fail b this op fuel acc page w e :
  page_result b this op (sent w) page = Throws e ->
  exists w',
    paginate b this op (S fuel) acc page w = Some (Throws e, w') /\
    sent w' = (sent w ++ [request_for this (endpoint_of op page)])%list.
Proof.
  intros Hres.
  exists (snd (makeRequest b this (endpoint_of op page) (schema_of op) w)).
  split; [|apply makeRequest_sent].
  rewrite paginate_S. cbv zeta. now rewrite Hres.
Qed.







(* ================================================================= *)
(** ** C1: all pages are fetched, in order, and their records returned *)


(** Validation also drops the keys a schema does not name: a user received
    with an extra key is returned without it. *)
Example getUsers_drops_unknown_keys :
  let extra := JObj [("id", JNum 1); ("name", JStr "Ada"); ("email", JStr "a@example.com");
                     ("active", JBool true); ("shoe_size", JNum 38)] in
  outcome_of (retrieve (scripted [ok_json (users_page [extra] 1 1)]) sample_api 1 Users fresh)
  = Some (Returns [JObj [("id", JNum 1); ("name", JStr "Ada"); ("email", JStr "a@example.com");
                         ("active", JBool true)]]).
Proof. vm_compute. reflexivity. Qed.



(* ================================================================= *)
(** ** C2: [getEntries] filters on the client, after fetching every page *)






(** The entries the witness run returns: those of user 1, in order. *)
Example getEntries_returns_only_the_user :
  outcome_of
    (getEntries (scripted [ok_json (entries_page [sample_entry 10 2; sample_entry 11 1] 1 2);
                           ok_json (entries_page [sample_entry 12 1] 2 2)])
       sample_api 2 1 "2025-09-01T00:00:00Z" "2025-09-02T00:00:00Z" fresh)
  = Some (Returns [sample_entry 11 1; sample_entry 12 1]).
Proof. vm_compute. reflexivity. Qed.

(* ================================================================= *)
(** ** C3: what makes the loop go on *)

(** C3, as stated, fails: a first response that reports current_page = 5
    and count_pages = 3 (so current_page >= count_pages) does not stop the
    loop, and the next page requested is 2, not 6: the client goes by its
    own page counter and never reads [current_page]. *)
Lemma loop_ignores_current_page :
  let first := users_page [sample_user 1 "Ada"] 5 3 in
  let b := scripted [ok_json first;
                     ok_json (users_page [sample_user 2 "Bob"] 5 3);
                     ok_json (users_page [sample_user 3 "Cy"] 5 3)] in
  serves b sample_api [] (endpoint_of Users 1) first /\
  valid Users first /\
  current_page first = Some 5 /\
  count_pages first = Some 3 /\
  urls_of (retrieve b sample_api 3 Users fresh) =
    Some ["https://my.clockodo.com/api/v3/users?page=1";
          "https://my.clockodo.com/api/v3/users?page=2";
          "https://my.clockodo.com/api/v3/users?page=3"].
Proof.
  cbv zeta. repeat split; try (vm_compute; reflexivity).
  eexists. vm_compute. repeat split; reflexivity.
Qed.

(** The turns of a run that ends. *)
Lemma retrieve_inv b this op fuel w o w' :
  retrieve b this fuel op w = Some (o, w') ->
  exists responses,
    (List.length responses < fuel)%nat /\
    sent w' = (sent w ++ requests this op (pages_from 1 (S (List.length responses))))%list /\
    (forall i response, nth_error responses i = Some response ->
       page_result b this op (sent w ++ requests this op (pages_from 1 i))%list
         (1 + Z.of_nat i) = Returns response /\
       exists count, count_pages response = Some count /\ 1 + Z.of_nat i < count) /\
    match o with
    | Returns out =>
        exists last count,
          page_result b this op
            (sent w ++ requests this op (pages_from 1 (List.length responses)))%list
            (1 + Z.of_nat (List.length responses)) = Returns last /\
          count_pages last = Some count /\
          count <= 1 + Z.of_nat (List.length responses) /\
          out = collected op (responses ++ [last])
    | Throws e =>
        exists cause,
          page_result b this op
            (sent w ++ requests this op (pages_from 1 (List.length responses)))%list
            (1 + Z.of_nat (List.length responses)) = Throws cause /\
          e = Err "Error" (failure_prefix op ++ message_of cause)
    end.
Proof.
  rewrite retrieve_paginate. unfold rethrow_as.
  destruct (paginate b this op fuel [] 1 w) as [[o1 w1]|] eqn:Hrun; [|discriminate].
  apply paginate_inv in Hrun as (responses & Hsteps & Hfuel & Hsent & Hend).
  intros H. exists responses.
  assert (Hw : w1 = w') by (destruct o1; congruence). subst w1.
  repeat split; try assumption.
  - eapply loop_steps_nth; eassumption.
  - eapply loop_steps_nth; eassumption.
  - destruct o1 as [out | cause]; injection H as <-.
    + destruct Hend as (last & count & Hlast & Hcount & Hle & Hout).
      exists last, count. repeat split; assumption.
    + exists cause. split; [assumption|reflexivity].
Qed.

Lemma pages_from_app n m : forall p,
  pages_from p (n + m) = (pages_from p n ++ pages_from (p + Z.of_nat n) m)%list.
Proof.
  induction n as [|n IH]; intros p.
  - cbn [Nat.add pages_from app Z.of_nat]. now rewrite Z.add_0_r.
  - cbn [Nat.add pages_from app]. rewrite IH. do 3 f_equal. lia.
Qed.

Lemma received_more_firstn b this op w responses n :
  received_more b this op w responses ->
  received_more b this op w (firstn n responses).
Proof.
  intros H i response Hi. rewrite nth_error_firstn in Hi.
  destruct (Nat.ltb i n); [now apply H|discriminate].
Qed.

(** The loop stops: after pages that each announced more, a page whose
    count_pages is not above its number ends the run, with the records
    kept. *)
Lemma retrieve_stops b this op w responses last count :
  received_more b this op w responses ->
  page_result b this op
    (sent w ++ requests this op (pages_from 1 (List.length responses)))%list
    (1 + Z.of_nat (List.length responses)) = Returns last ->
  count_pages last = Some count ->
  count <= 1 + Z.of_nat (List.length responses) ->
  forall fuel, (List.length responses < fuel)%nat ->
  exists w',
    retrieve b this fuel op w = Some (Returns (collected op (responses ++ [last])), w') /\
    sent w' = (sent w ++ requests this op (pages_from 1 (S (List.length responses))))%list.
Proof.
  intros Hmore Hlast Hcount Hle fuel Hfuel.
  pose proof (loop_steps_indexed b this op responses (sent w) 1 Hmore) as Hsteps.
  replace fuel with (List.length responses + S (fuel - S (List.length responses)))%nat by lia.
  rewrite retrieve_paginate. unfold rethrow_as.
  destruct (paginate_steps _ _ _ _ _ _ Hsteps (S (fuel - S (List.length responses))) [] w eq_refl)
    as (w1 & Hsent1 & ->).
  rewrite <- Hsent1 in Hlast.
  destruct (paginate_last _ _ _ (fuel - S (List.length responses))
              ([] ++ collected op responses)%list _ _ _ _ Hlast Hcount Hle)
    as (w' & -> & Hsent').
  exists w'. split.
  - do 3 f_equal. cbn [app]. rewrite collected_app, collected_cons.
    cbn [collected flat_map]. now rewrite app_nil_r.
  - rewrite Hsent', Hsent1, pages_from_snoc, requests_app, <- app_assoc. reflexivity.
Qed.

(** The loop goes on: as many turns as pages that announced more do not end
    the run. *)
Lemma retrieve_not_yet b this op w responses :
  received_more b this op w responses ->
  forall fuel, (fuel <= List.length responses)%nat ->
  retrieve b this fuel op w = None.
Proof.
  intros Hmore fuel Hfuel.
  pose proof (loop_steps_indexed b this op (firstn fuel responses) (sent w) 1
                (received_more_firstn b this op w responses fuel Hmore)) as Hsteps.
  assert (Hlen : List.length (firstn fuel responses) = fuel)
    by (rewrite length_firstn; lia).
  rewrite retrieve_paginate. unfold rethrow_as.
  destruct (paginate_steps _ _ _ _ _ _ Hsteps O [] w eq_refl) as (w1 & _ & Hrun).
  rewrite Hlen, Nat.add_0_r in Hrun. rewrite Hrun. reflexivity.
Qed.

(** And the page after them is requested by every run that ends. *)
Lemma retrieve_goes_on b this op w responses fuel o w' :
  received_more b this op w responses ->
  retrieve b this fuel op w = Some (o, w') ->
  exists more,
    sent w' = (sent w ++ requests this op (pages_from 1 (S (List.length responses)))
               ++ more)%list.
Proof.
  intros Hmore Hrun.
  apply retrieve_inv in Hrun as (turns & _ & Hsent & Hturns & Hend).
  assert (Hlong : (List.length responses <= List.length turns)%nat).
  { destruct (Nat.le_gt_cases (List.length responses) (List.length turns)) as [H | H];
      [exact H|exfalso].
    destruct (nth_error responses (List.length turns)) as [response|] eqn:Hnth;
      [|apply nth_error_None in Hnth; lia].
    destruct (Hmore _ _ Hnth) as (Hpage & count & Hcount & Hlt).
    destruct o as [out | e].
    - destruct Hend as (last & count' & Hlast & Hcount' & Hle & _).
      rewrite Hpage in Hlast. injection Hlast as <-.
      rewrite Hcount in Hcount'. injection Hcount' as <-. lia.
    - destruct Hend as (cause & Hcause & _). rewrite Hpage in Hcause. discriminate. }
  exists (requests this op
            (pages_from (1 + Z.of_nat (S (List.length responses)))
                        (List.length turns - List.length responses))).
  rewrite Hsent, <- requests_app, <- pages_from_app. do 3 f_equal. lia.
Qed.

(** C3 (amended): the loop goes by its own page counter, started at 1 and
    stepped by 1, and by the count_pages of what it receives; the
    current_page of the envelope is not read.

    - Every run of a retrieval operation that ends, with a result or with an
      error, has sent the requests for pages 1, 2, ..., n+1 and no other;
      after each of the first n responses the counter was below the
      count_pages of that response; page n+1 either came with a count_pages
      not above n+1, and the run returned, or failed, and the run threw.
    - The loop stops: when the pages 1..n are received and each announces
      more pages than its number, and page n+1 is received with a count_pages
      not above n+1, the run, given fuel for n+1 turns, returns after
      exactly these n+1 requests.
    - The loop goes on: when the pages 1..n are received and each announces
      more pages than its number, n turns do not end the run, and every run
      that ends has requested page n+1 next. *)
Theorem loop_goes_by_its_counter b this op w :
  (forall fuel o w',
     retrieve b this fuel op w = Some (o, w') ->
     exists responses,
       received_more b this op w responses /\
       sent w' = (sent w ++ requests this op (pages_from 1 (S (List.length responses))))%list /\
       match o with
       | Returns out =>
           exists last count,
             page_result b this op
               (sent w ++ requests this op (pages_from 1 (List.length responses)))%list
               (1 + Z.of_nat (List.length responses)) = Returns last /\
             count_pages last = Some count /\
             count <= 1 + Z.of_nat (List.length responses) /\
             out = collected op (responses ++ [last])
       | Throws e =>
           exists cause,
             page_result b this op
               (sent w ++ requests this op (pages_from 1 (List.length responses)))%list
               (1 + Z.of_nat (List.length responses)) = Throws cause /\
             e = Err "Error" (failure_prefix op ++ message_of cause)
       end) /\
  (forall responses last count,
     received_more b this op w responses ->
     page_result b this op
       (sent w ++ requests this op (pages_from 1 (List.length responses)))%list
       (1 + Z.of_nat (List.length responses)) = Returns last ->
     count_pages last = Some count ->
     count <= 1 + Z.of_nat (List.length responses) ->
     forall fuel, (List.length responses < fuel)%nat ->
     exists w',
       retrieve b this fuel op w =
         Some (Returns (collected op (responses ++ [last])), w') /\
       sent w' = (sent w ++ requests this op (pages_from 1 (S (List.length responses))))%list) /\
  (forall responses,
     received_more b this op w responses ->
     (forall fuel, (fuel <= List.length responses)%nat ->
        retrieve b this fuel op w = None) /\
     (forall fuel o w',
        retrieve b this fuel op w = Some (o, w') ->
        exists more,
          sent w' = (sent w ++ requests this op (pages_from 1 (S (List.length responses)))
                     ++ more)%list)).
Proof.
  split; [|split].
  - intros fuel o w' Hrun.
    apply retrieve_inv in Hrun as (responses & _ & Hsent & Hsteps & Hend).
    exists responses. split; [exact Hsteps|split; [exact Hsent|exact Hend]].
  - intros responses last count. apply retrieve_stops.
  - intros responses Hmore. split.
    + now apply retrieve_not_yet.
    + intros fuel o w'. now apply retrieve_goes_on.
Qed.

(** Three pages that all report current_page = 5 and count_pages = 3: after
    the first two the loop goes on (two turns do not end the run), after the
    third it stops; the requests are those for pages 1, 2, 3. *)
Lemma loop_goes_by_its_counter_witness :
  let b := scripted [ok_json (users_page [sample_user 1 "Ada"] 5 3);
                     ok_json (users_page [sample_user 2 "Bob"] 5 3);
                     ok_json (users_page [sample_user 3 "Cy"] 5 3)] in
  (exists w',
     retrieve b sample_api 3 Users fresh =
       Some (Returns [sample_user 1 "Ada"; sample_user 2 "Bob"; sample_user 3 "Cy"], w') /\
     sent w' = (sent fresh ++ requests sample_api Users (pages_from 1 3))%list) /\
  retrieve b sample_api 2 Users fresh = None.
Proof.
  cbv zeta.
  destruct (loop_goes_by_its_counter
              (scripted [ok_json (users_page [sample_user 1 "Ada"] 5 3);
                         ok_json (users_page [sample_user 2 "Bob"] 5 3);
                         ok_json (users_page [sample_user 3 "Cy"] 5 3)])
              sample_api Users fresh) as (_ & Hstop & Hon).
  assert (Hmore : received_more
                    (scripted [ok_json (users_page [sample_user 1 "Ada"] 5 3);
                               ok_json (users_page [sample_user 2 "Bob"] 5 3);
                               ok_json (users_page [sample_user 3 "Cy"] 5 3)])
                    sample_api Users fresh
                    [strip ClockodoUsersResponseSchema (users_page [sample_user 1 "Ada"] 5 3);
                     strip ClockodoUsersResponseSchema (users_page [sample_user 2 "Bob"] 5 3)]).
  { intros [|[|i]] response Hi; cbn [nth_error] in Hi;
      try (destruct i; discriminate); injection Hi as <-;
      (split; [vm_compute; reflexivity|exists 3; split; [vm_compute; reflexivity|lia]]). }
  split.
  - exact (Hstop _ (strip ClockodoUsersResponseSchema (users_page [sample_user 3 "Cy"] 5 3)) 3
             Hmore eq_refl eq_refl ltac:(cbn; lia) 3%nat ltac:(cbn; lia)).
  - exact (proj1 (Hon _ Hmore) 2%nat ltac:(cbn; lia)).
Defined.

(* ================================================================= *)
(** ** C4: a failed page fails the whole operation *)

(** The run over served pages that announce more, ended by a failure. *)
Lemma retrieve_failing b this op w bodies cause :
  (forall i body, nth_error bodies i = Some body ->
     serves b this (sent w ++ requests this op (pages_from 1 i))%list
       (endpoint_of op (1 + Z.of_nat i)) body /\
     valid op body /\
     exists count, count_pages body = Some count /\ 1 + Z.of_nat i < count) ->
  page_result b this op
    (sent w ++ requests this op (pages_from 1 (List.length bodies)))%list
    (1 + Z.of_nat (List.length bodies)) = Throws cause ->
  forall fuel, (List.length bodies < fuel)%nat ->
  exists w',
    retrieve b this fuel op w =
      Some (Throws (Err "Error" (failure_prefix op ++ message_of cause)), w') /\
    sent w' = (sent w ++ requests this op (pages_from 1 (S (List.length bodies))))%list.
Proof.
  intros Hbodies Hfail fuel Hfuel.
  pose proof (steps_of_served _ _ _ _ _ _ Hbodies) as Hsteps.
  replace fuel with (List.length (map (strip (schema_of op)) bodies)
                     + S (fuel - S (List.length bodies)))%nat
    by (rewrite length_map; lia).
  rewrite retrieve_paginate. unfold rethrow_as.
  destruct (paginate_steps _ _ _ _ _ _ Hsteps (S (fuel - S (List.length bodies))) [] w eq_refl)
    as (w1 & Hsent1 & ->).
  rewrite length_map in *. rewrite <- Hsent1 in Hfail.
  destruct (paginate_fail _ _ _ (fuel - S (List.length bodies))
              ([] ++ collected op (map (strip (schema_of op)) bodies))%list
              _ _ _ Hfail) as (w' & -> & Hsent').
  exists w'. split; [reflexivity|].
  rewrite Hsent', Hsent1, pages_from_snoc, requests_app, <- app_assoc. reflexivity.
Qed.

(** C4: if the pages 1..k-1 are served (valid, each announcing a further
    page) and [makeRequest] throws [cause] for page k, then the operation,
    given fuel for k turns, throws an [Error] whose message is the wrapper
    of that very operation, ["Failed to fetch users from Clockodo API: "]
    for [getUsers], [... entries ...] for [getEntries], [... projects ...]
    for [getProjects], followed by the message of [cause]; no record of the
    pages 1..k-1 is returned; k requests were sent. *)
Theorem failed_page_fails_operation b this op w bodies cause :
  (forall i body, nth_error bodies i = Some body ->
     serves b this (sent w ++ requests this op (pages_from 1 i))%list
       (endpoint_of op (1 + Z.of_nat i)) body /\
     valid op body /\
     exists count, count_pages body = Some count /\ 1 + Z.of_nat i < count) ->
  page_result b this op
    (sent w ++ requests this op (pages_from 1 (List.length bodies)))%list
    (1 + Z.of_nat (List.length bodies)) = Throws cause ->
  forall fuel, (List.length bodies < fuel)%nat ->
  exists w',
    retrieve b this fuel op w =
      Some (Throws (Err "Error"
              ("Failed to fetch "
               ++ match op with
                  | Users => "users"
                  | Entries _ _ _ => "entries"
                  | Projects => "projects"
                  end
               ++ " from Clockodo API: " ++ message_of cause)), w') /\
    sent w' = (sent w ++ requests this op (pages_from 1 (S (List.length bodies))))%list.
Proof.
  intros Hbodies Hfail fuel Hfuel.
  destruct (retrieve_failing b this op w bodies cause Hbodies Hfail fuel Hfuel)
    as (w' & Hrun & Hsent).
  exists w'. split; [|exact Hsent]. rewrite Hrun.
  destruct op as [|userId timeSince timeUntil|]; reflexivity.
Qed.

(** Page 2 of 3 answers 500: the call fails, the users of page 1 are lost. *)
Lemma failed_page_fails_operation_witness :
  let b := scripted [ok_json (users_page [sample_user 1 "Ada"; sample_user 2 "Bob"] 1 3);
                     Resolves {| status := 500; statusText := "Internal Server Error";
                                 body_text := "oops"; body_json := inl "Unexpected token o" |};
                     ok_json (users_page [sample_user 3 "Cy"] 3 3)] in
  exists w',
    retrieve b sample_api 3 Users fresh =
      Some (Throws (Err "Error"
              "Failed to fetch users from Clockodo API: HTTP 500: Internal Server Error"),
            w') /\
    sent w' = (sent fresh ++ requests sample_api Users (pages_from 1 2))%list.
Proof.
  cbv zeta.
  refine (failed_page_fails_operation
            (scripted [ok_json (users_page [sample_user 1 "Ada"; sample_user 2 "Bob"] 1 3);
                       Resolves {| status := 500; statusText := "Internal Server Error";
                                   body_text := "oops"; body_json := inl "Unexpected token o" |};
                       ok_json (users_page [sample_user 3 "Cy"] 3 3)])
            sample_api Users fresh
            [users_page [sample_user 1 "Ada"; sample_user 2 "Bob"] 1 3]
            (Err "Error" "HTTP 500: Internal Server Error") _ _ 3%nat _).
  - intros [|i] body Hi; cbn [nth_error] in Hi; try (destruct i; discriminate).
    injection Hi as <-. split; [eexists; vm_compute; repeat split; reflexivity|].
    split; [vm_compute; reflexivity|]. exists 3. split; [vm_compute; reflexivity|lia].
  - vm_compute. reflexivity.
  - cbn. lia.
Defined.

Example failed_page_message :
  outcome_of
    (retrieve (scripted [ok_json (users_page [sample_user 1 "Ada"; sample_user 2 "Bob"] 1 3);
                         Resolves {| status := 500; statusText := "Internal Server Error";
                                     body_text := "oops";
                                     body_json := inl "Unexpected token o" |};
                         ok_json (users_page [sample_user 3 "Cy"] 3 3)])
       sample_api 3 Users fresh)
  = Some (Throws (Err "Error"
       "Failed to fetch users from Clockodo API: HTTP 500: Internal Server Error")).
Proof. vm_compute. reflexivity. Qed.

(* ================================================================= *)
(** ** C10: the first page is always fetched *)



(* ================================================================= *)
(** ** C5: a status outside 2xx *)

(** C5: when the response to a request has a status outside 200..299,
    [makeRequest] throws an [Error] whose message is ["HTTP <status>:
    <statusText>"], for every schema: no value is returned.  The body of the
    response is written to the log and appears nowhere else: the error does
    not depend on it. *)
Theorem non_2xx_status_fails b this endpoint schema w r :
  b (sent w) (request_for this endpoint) = Resolves r ->
  ok r = false ->
  makeRequest b this endpoint schema w =
    (Throws (Err "Error" ("HTTP " ++ string_of_Z (status r) ++ ": " ++ statusText r)),
     {| logFile :=
          Some (log_lines w ++
                [request_line this endpoint;
                 Entry ("<<< RESPONSE " ++ string_of_Z (status r) ++ " " ++ statusText r) None;
                 Entry ("!!! ERROR: " ++ "HTTP " ++ string_of_Z (status r) ++ ": " ++ statusText r)
                   (Some (JObj [("url", JStr (baseUrl this ++ endpoint));
                                ("responseBody", JStr (body_text r))]));
                 Entry "!!! ERROR: Request failed"
                   (Some (JObj [("error", JStr ("HTTP " ++ string_of_Z (status r) ++ ": "
                                                ++ statusText r));
                                ("url", JStr (baseUrl this ++ endpoint))]))])%list;
        sent := (sent w ++ [request_for this endpoint])%list |}).
Proof.
  intros Hb Hok.
  unfold makeRequest, try_catch, bind, fetch,
    Logger.logRequest, Logger.logResponse, Logger.logError, Logger.log,
    Logger.appendFileSync, lift, ret, throw, log_lines, request_line.
  cbn [sent logFile fst snd]. rewrite Hb. cbn [sent logFile fst snd]. rewrite Hok.
  cbn [negb sent logFile fst snd truthy message_of].
  destruct (logFile w) as [entries|]; cbn [app];
    repeat (rewrite <- app_assoc; cbn [app]); reflexivity.
Qed.

Lemma non_2xx_status_fails_witness :
  let r := {| status := 503; statusText := "Service Unavailable";
              body_text := "<html>maintenance</html>"; body_json := inl "Unexpected token <" |} in
  fst (makeRequest (scripted [Resolves r]) sample_api "/v4/projects?page=1"
         ClockodoProjectsResponseSchema fresh)
  = Throws (Err "Error" "HTTP 503: Service Unavailable").
Proof.
  cbv zeta.
  rewrite (non_2xx_status_fails
             (scripted [Resolves {| status := 503; statusText := "Service Unavailable";
                                    body_text := "<html>maintenance</html>";
                                    body_json := inl "Unexpected token <" |}])
             sample_api "/v4/projects?page=1" ClockodoProjectsResponseSchema fresh
             {| status := 503; statusText := "Service Unavailable";
                body_text := "<html>maintenance</html>";
                body_json := inl "Unexpected token <" |}).
  - reflexivity.
  - reflexivity.
  - reflexivity.
Defined.

(* ================================================================= *)
(** ** C8: transport failures *)

(** C8, as stated, fails: the error of a failed fetch leaves [makeRequest]
    as it came; nothing is wrapped around it, and its message does not
    carry the endpoint path. *)
Lemma transport_error_not_wrapped :
  exists message,
    fst (makeRequest (scripted []) sample_api "/v3/users?page=1"
           ClockodoUsersResponseSchema fresh)
    = Throws (Err "TypeError" message) /\
    includes "/v3/users?page=1" message = false /\
    includes "/v3/users" message = false.
Proof. exists "fetch failed". vm_compute. repeat split; reflexivity. Qed.

(** C8 (amended): when [fetch] rejects, [makeRequest] throws the very error
    of the rejection, of the same class and with the same message; the URL
    of the failed request goes to the log line "Request failed", not into
    the error. *)
Theorem transport_failure_rethrown b this endpoint schema w name message :
  b (sent w) (request_for this endpoint) = Rejects name message ->
  makeRequest b this endpoint schema w =
    (Throws (Err name message),
     {| logFile :=
          Some (log_lines w ++
                [request_line this endpoint;
                 Entry "!!! ERROR: Request failed"
                   (Some (JObj [("error", JStr message);
                                ("url", JStr (baseUrl this ++ endpoint))]))])%list;
        sent := (sent w ++ [request_for this endpoint])%list |}).
Proof.
  intros Hb.
  unfold makeRequest, try_catch, bind, fetch,
    Logger.logRequest, Logger.logResponse, Logger.logError, Logger.log,
    Logger.appendFileSync, lift, ret, throw, log_lines, request_line.
  cbn [sent logFile fst snd]. rewrite Hb.
  cbn [negb sent logFile fst snd truthy message_of].
  destruct (logFile w) as [entries|]; cbn [app];
    repeat (rewrite <- app_assoc; cbn [app]); reflexivity.
Qed.

Lemma transport_failure_rethrown_witness :
  fst (makeRequest (scripted []) sample_api "/v3/users?page=1"
         ClockodoUsersResponseSchema fresh)
  = Throws (Err "TypeError" "fetch failed").
Proof.
  rewrite (transport_failure_rethrown (scripted []) sample_api "/v3/users?page=1"
             ClockodoUsersResponseSchema fresh "TypeError" "fetch failed").
  - reflexivity.
  - reflexivity.
Defined.

(** X15: A 2xx response whose body is not JSON: the [SyntaxError] of
    [response.json()] leaves [makeRequest] as it is, not wrapped. *)
Lemma malformed_body_rethrown b this endpoint schema w r message :
  b (sent w) (request_for this endpoint) = Resolves r ->
  ok r = true ->
  body_json r = inl message ->
  fst (makeRequest b this endpoint schema w) = Throws (Err "SyntaxError" message).
Proof.
  intros Hb Hok Hbody. rewrite makeRequest_outcome, Hb. unfold request_outcome.
  now rewrite Hok, Hbody.
Qed.

(* ================================================================= *)
(** ** C6: a body that fails validation *)

Lemma append_assoc (a c d : string) : (a ++ c) ++ d = a ++ c ++ d.
Proof. induction a as [|x a IH]; [reflexivity|]. cbn. now rewrite IH. Qed.

Lemma occurs_in_refl s : occurs_in s s.
Proof.
  exists "", "". cbn. induction s as [|x s IH]; [reflexivity|]. cbn. now rewrite <- IH.
Qed.

Lemma occurs_in_append s t a c : occurs_in s t -> occurs_in s (a ++ t ++ c).
Proof.
  intros (a' & c' & ->). exists (a ++ a'), (c' ++ c).
  now rewrite !append_assoc.
Qed.

Lemma occurs_in_join sep x l : In x l -> occurs_in x (join sep l).
Proof.
  induction l as [|y l IH]; intros Hin; [contradiction|].
  destruct l as [|z l].
  - destruct Hin as [->|[]]. apply occurs_in_refl.
  - change (join sep (y :: z :: l)) with (y ++ sep ++ join sep (z :: l)).
    destruct Hin as [->|Hin].
    + destruct (occurs_in_append x x "" (sep ++ join sep (z :: l)) (occurs_in_refl x))
        as (a & c & H). exists a, c. exact H.
    + destruct (IH Hin) as (a & c & H). rewrite H.
      exists (y ++ sep ++ a), c. now rewrite !append_assoc.
Qed.

(** Every issue of a [ZodError] is spelled out in its message. *)
Lemma message_lists_every_issue issues i :
  In i issues ->
  occurs_in (stringify_at "  " (issue_json i)) (message_of (ZodError issues)).
Proof.
  intros Hin. unfold message_of, JSON_stringify.
  destruct issues as [|j rest]; [contradiction|].
  set (l := map issue_json (j :: rest)).
  assert (Hl : In (stringify_at "  " (issue_json i)) (map (stringify_at "  ") l)).
  { apply in_map. unfold l. now apply in_map. }
  change (stringify_at "" (JArr l))
    with ("[" ++ newline ++ "  " ++
          join ("," ++ newline ++ "  ") (map (stringify_at "  ") l) ++ newline ++ "" ++ "]").
  apply (occurs_in_join ("," ++ newline ++ "  ")) in Hl.
  apply (occurs_in_append _ _ ("[" ++ newline ++ "  ") (newline ++ "" ++ "]")) in Hl.
  rewrite !append_assoc in Hl. exact Hl.
Qed.

(** X16: What the code delivers whenever the body is not [null]: a body that
    fails validation makes [makeRequest] throw an [Error] whose message
    spells out every issue zod raised; nothing is returned. *)
Lemma invalid_body_rejected b this endpoint schema w r data i rest :
  b (sent w) (request_for this endpoint) = Resolves r ->
  ok r = true ->
  body_json r = inr data ->
  data <> JNull ->
  issues_of schema [] (Some data) = i :: rest ->
  fst (makeRequest b this endpoint schema w) =
    Throws (Err "Error" ("Invalid API response format: " ++ message_of (ZodError (i :: rest)))) /\
  forall issue, In issue (i :: rest) ->
    occurs_in (stringify_at "  " (issue_json issue)) (message_of (ZodError (i :: rest))).
Proof.
  intros Hb Hok Hbody Hnull Hissues. split.
  - rewrite makeRequest_outcome, Hb. unfold request_outcome. rewrite Hok, Hbody.
    unfold parse. rewrite Hissues. destruct data; try reflexivity. now contradiction Hnull.
  - intros issue. apply message_lists_every_issue.
Qed.

(** Validation does not stop at the first bad record: the issues of an
    array are those of all its elements. *)
Lemma array_issues_of_all_elements t p items :
  issues_of (z_array t) p (Some (JArr items)) =
  List.concat (mapi_from (fun i x => issues_of t (p ++ [Index i])%list (Some x)) 0 items).
Proof. reflexivity. Qed.

(** Two users without [id] in one body: both are reported, nothing is
    returned. *)
Example two_bad_users_both_reported :
  let bad := JObj [("name", JStr "Ada"); ("email", JStr "a@example.com");
                   ("active", JBool true)] in
  let b := scripted [ok_json (users_page [bad; sample_user 2 "Bob"; bad] 1 1)] in
  issues_of ClockodoUsersResponseSchema [] (Some (users_page [bad; sample_user 2 "Bob"; bad] 1 1))
  = [invalid_type "number" None [Key "data"; Index 0; Key "id"];
     invalid_type "number" None [Key "data"; Index 2; Key "id"]] /\
  exists message,
    outcome_of (getUsers b sample_api 1 fresh) =
      Some (Throws (Err "Error"
        ("Failed to fetch users from Clockodo API: Invalid API response format: " ++ message))).
Proof. cbv zeta. split; [vm_compute; reflexivity|]. eexists. vm_compute. reflexivity. Qed.

(** C6 fails on the body [null].  It fails validation (zod would report
    "Expected object, received null"), but [makeRequest] never gets to
    validate it: the line that logs the keys of the body calls
    [Object.keys(null)], which throws a [TypeError]; that error is not a
    [ZodError], so it is rethrown as it is, and the operation fails with
    "Cannot convert undefined or null to object" in place of the validation
    message. *)
Theorem null_body_escapes_validation :
  let b := scripted [ok_json JNull] in
  issues_of ClockodoUsersResponseSchema [] (Some JNull)
    = [invalid_type "object" (Some JNull) []] /\
  fst (makeRequest b sample_api "/v3/users?page=1" ClockodoUsersResponseSchema fresh)
    = Throws (Err "TypeError" "Cannot convert undefined or null to object") /\
  outcome_of (getUsers b sample_api 1 fresh)
    = Some (Throws (Err "Error"
        "Failed to fetch users from Clockodo API: Cannot convert undefined or null to object")) /\
  includes "Invalid API response format"
    "Failed to fetch users from Clockodo API: Cannot convert undefined or null to object"
    = false.
Proof. cbv zeta. repeat split; vm_compute; reflexivity. Qed.

(* ================================================================= *)
(** ** C7: the credentials are checked once, at construction *)



Example constructor_with_both :
  fst (constructor (fun name => if String.eqb name "CLOCKODO_EMAIL" then Some "me@example.com"
                                else if String.eqb name "CLOCKODO_API_KEY" then Some "s3cret"
                                else None) fresh)
  = Returns sample_api.
Proof. reflexivity. Qed.

Example constructor_without_key :
  fst (constructor (fun name => if String.eqb name "CLOCKODO_EMAIL" then Some "me@example.com"
                                else None) fresh)
  = Throws missing_credentials.
Proof. reflexivity. Qed.

Example constructor_with_empty_email :
  fst (constructor (fun name => if String.eqb name "CLOCKODO_EMAIL" then Some ""
                                else Some "s3cret") fresh)
  = Throws missing_credentials.
Proof. reflexivity. Qed.

(* ================================================================= *)
(** ** C9: the API key stays out of errors and log *)

Lemma masked_request_for this1 this2 endpoint :
  email this1 = email this2 -> baseUrl this1 = baseUrl this2 ->
  masked (request_for this1 endpoint) = masked (request_for this2 endpoint).
Proof.
  intros He Hb. unfold masked, request_for, request_headers.
  cbn [method url headers map fst snd String.eqb Ascii.eqb Bool.eqb].
  now rewrite He, Hb.
Qed.

Lemma makeRequest_blind b this1 this2 endpoint schema w1 w2 :
  key_blind b ->
  email this1 = email this2 -> baseUrl this1 = baseUrl this2 ->
  same_view w1 w2 ->
  fst (makeRequest b this1 endpoint schema w1) = fst (makeRequest b this2 endpoint schema w2) /\
  same_view (snd (makeRequest b this1 endpoint schema w1))
            (snd (makeRequest b this2 endpoint schema w2)).
Proof.
  intros Hblind He Hbase (Hlog & Hsent).
  assert (Hb : b (sent w1) (request_for this1 endpoint) =
               b (sent w2) (request_for this2 endpoint)).
  { apply Hblind; [exact Hsent|now apply masked_request_for]. }
  split; [now rewrite !makeRequest_outcome, Hb|]. split.
  - unfold makeRequest, try_catch, bind, fetch,
      Logger.logRequest, Logger.logResponse, Logger.logError, Logger.log,
      Logger.appendFileSync, lift, ret, throw, request_headers.
    cbn [sent logFile fst snd]. rewrite Hb, Hlog, He, Hbase.
    destruct (b (sent w2) (request_for this2 endpoint)) as [n m | r]; [reflexivity|].
    cbn [sent logFile fst snd].
    destruct (ok r); cbn [negb fst snd sent logFile]; [|reflexivity].
    destruct (body_json r) as [m | data]; [reflexivity|].
    destruct data; cbn [typeof String.eqb Object_keys fst snd sent logFile]; try reflexivity;
      (destruct (parse schema _) as [v | e] eqn:Hp; cbn [fst snd sent logFile]; [reflexivity|];
       destruct (parse_throws_zod _ _ _ Hp) as [issues ->]; reflexivity).
  - rewrite !makeRequest_sent, !map_app, Hsent. cbn [map].
    now rewrite (masked_request_for this1 this2).
Qed.

Lemma paginate_blind b this1 this2 op fuel :
  key_blind b ->
  email this1 = email this2 -> baseUrl this1 = baseUrl this2 ->
  forall acc page w1 w2,
    same_view w1 w2 ->
    visible (paginate b this1 op fuel acc page w1) =
    visible (paginate b this2 op fuel acc page w2).
Proof.
  intros Hblind He Hbase.
  induction fuel as [|fuel IH]; intros acc page w1 w2 Hview; [reflexivity|].
  cbn [paginate].
  destruct (makeRequest_blind b this1 this2 (endpoint_of op page) (schema_of op) w1 w2
              Hblind He Hbase Hview) as (Hout & Hlog' & Hsent').
  destruct (makeRequest b this1 (endpoint_of op page) (schema_of op) w1) as [o1 w1'].
  destruct (makeRequest b this2 (endpoint_of op page) (schema_of op) w2) as [o2 w2'].
  cbn [fst snd] in Hout, Hlog', Hsent'. subst o2.
  destruct o1 as [response | e].
  - destruct (payload (payload_key op) response) as [items|].
    + destruct (count_pages response) as [count|].
      * destruct (page <? count).
        -- apply IH. split; assumption.
        -- cbn [visible option_map fst snd]. now rewrite Hlog', Hsent'.
      * cbn [visible option_map fst snd]. now rewrite Hlog', Hsent'.
    + cbn [visible option_map fst snd]. now rewrite Hlog', Hsent'.
  - cbn [visible option_map fst snd]. now rewrite Hlog', Hsent'.
Qed.

Lemma rethrow_as_visible {A : Type} prefix (r1 r2 : Run A) w1 w2 :
  visible (r1 w1) = visible (r2 w2) ->
  visible (rethrow_as prefix r1 w1) = visible (rethrow_as prefix r2 w2).
Proof.
  unfold rethrow_as.
  destruct (r1 w1) as [[[a1 | e1] w1']|]; destruct (r2 w2) as [[[a2 | e2] w2']|];
    cbn [visible option_map fst snd]; intros H; try discriminate; try reflexivity;
    injection H as H1 H2 H3; subst; now rewrite H2, H3.
Qed.

Lemma appends_ret {A : Type} (a : A) : appends (ret a).
Proof. intros w. exists []. cbn. now rewrite app_nil_r. Qed.

Lemma appends_throw {A : Type} e : appends (@throw A e).
Proof. intros w. exists []. cbn. now rewrite app_nil_r. Qed.

Lemma appends_lift {A : Type} (o : Outcome A) : appends (lift o).
Proof. intros w. exists []. cbn. now rewrite app_nil_r. Qed.

Lemma appends_fetch b req : appends (fetch b req).
Proof.
  intros w. exists []. unfold fetch, log_lines.
  destruct (b (sent w) req); cbn; now rewrite app_nil_r.
Qed.

Lemma appends_log message data : appends (Logger.log message data).
Proof.
  intros w. unfold Logger.log, Logger.appendFileSync, log_lines. cbn.
  destruct (logFile w); eexists; reflexivity.
Qed.

Lemma appends_bind {A B : Type} (c : M A) (k : A -> M B) :
  appends c -> (forall a, appends (k a)) -> appends (bind c k).
Proof.
  intros Hc Hk w. unfold bind. destruct (Hc w) as (rest & H).
  destruct (c w) as [[a | e] w1]; cbn [snd] in *.
  - destruct (Hk a w1) as (rest' & H'). exists (rest ++ rest')%list.
    now rewrite H', H, app_assoc.
  - now exists rest.
Qed.

Lemma appends_try_catch {A : Type} (body : M A) (handler : Thrown -> M A) :
  appends body -> (forall e, appends (handler e)) -> appends (try_catch body handler).
Proof.
  intros Hc Hk w. unfold try_catch. destruct (Hc w) as (rest & H).
  destruct (body w) as [[a | e] w1]; cbn [snd] in *.
  - now exists rest.
  - destruct (Hk e w1) as (rest' & H'). exists (rest ++ rest')%list.
    now rewrite H', H, app_assoc.
Qed.

(** The first line [makeRequest] adds to the log is the request, with the
    API key header masked. *)
Lemma makeRequest_logs_masked_request b this endpoint schema w :
  exists rest,
    log_lines (snd (makeRequest b this endpoint schema w)) =
    (log_lines w ++ request_line this endpoint :: rest)%list.
Proof.
  unfold makeRequest. cbv zeta.
  match goal with
  | |- context [bind (Logger.logRequest ?m ?u ?h) ?k] =>
      set (rest_of_it := k);
      assert (Hrest : forall a, appends (rest_of_it a))
  end.
  { intros a. unfold rest_of_it. cbv beta. apply appends_try_catch.
    - apply appends_bind; [apply appends_fetch|intros response].
      apply appends_bind; [apply appends_log|intros _].
      apply appends_bind.
      { destruct (negb (ok response)); [|apply appends_ret].
        apply appends_bind; [apply appends_log|intros _; apply appends_throw]. }
      intros _. apply appends_bind; [apply appends_lift|intros data].
      apply appends_bind.
      { destruct (String.eqb (typeof data) "object"); [|apply appends_ret].
        apply appends_bind; [apply appends_lift|intros ks; apply appends_ret]. }
      intros keys. apply appends_bind; [apply appends_log|intros _].
      apply appends_bind; [apply appends_lift|intros parsedData].
      apply appends_bind; [apply appends_log|intros _; apply appends_ret].
    - intros [name message | issues];
        (apply appends_bind; [apply appends_log|intros _; apply appends_throw]). }
  unfold bind at 1.
  unfold Logger.logRequest, Logger.log, Logger.appendFileSync at 1.
  cbn [truthy].
  match goal with
  | |- context [rest_of_it tt ?w1] => destruct (Hrest tt w1) as (rest & H); exists rest
  end.
  rewrite H. unfold log_lines at 1. cbn [logFile]. unfold request_line, request_headers, log_lines.
  cbn [map fst snd]. destruct (logFile w); cbn [app]; [now rewrite <- app_assoc|reflexivity].
Qed.

(** C9: let the answers of the service not depend on the API key.  Then two
    environments that differ in the API key only, the key being empty in
    both or in neither, give constructions that log the same and fail with
    the same error or both succeed; and two clients that differ in the API
    key only give, for every retrieval operation, the same outcome (the same
    records or the same error message), the same log file and, the key
    masked, the same requests.  The API key header is logged as "***". *)
Theorem api_key_not_disclosed b :
  key_blind b ->
  (forall env1 env2 w,
     (forall name, name <> "CLOCKODO_API_KEY" -> env1 name = env2 name) ->
     is_empty (env_or_empty (env1 "CLOCKODO_API_KEY")) =
     is_empty (env_or_empty (env2 "CLOCKODO_API_KEY")) ->
     logFile (snd (constructor env1 w)) = logFile (snd (constructor env2 w)) /\
     match fst (constructor env1 w), fst (constructor env2 w) with
     | Throws e1, Throws e2 => e1 = e2
     | Returns this1, Returns this2 =>
         email this1 = email this2 /\ baseUrl this1 = baseUrl this2
     | _, _ => False
     end) /\
  (forall this1 this2 w1 w2 fuel op,
     email this1 = email this2 -> baseUrl this1 = baseUrl this2 ->
     same_view w1 w2 ->
     visible (retrieve b this1 fuel op w1) = visible (retrieve b this2 fuel op w2)) /\
  (forall this endpoint schema w,
     exists rest,
       log_lines (snd (makeRequest b this endpoint schema w)) =
       (log_lines w ++ request_line this endpoint :: rest)%list).
Proof.
  intros Hblind. split; [|split].
  - intros env1 env2 w Henv Hkey.
    assert (Hemail : env1 "CLOCKODO_EMAIL" = env2 "CLOCKODO_EMAIL")
      by (apply Henv; discriminate).
    unfold constructor, bind, Logger.new, Logger.log, Logger.appendFileSync, throw, ret.
    cbn [email apiKey baseUrl]. rewrite Hemail, Hkey.
    destruct (logFile w); cbn [fst snd logFile];
      destruct (is_empty (env_or_empty (env2 "CLOCKODO_EMAIL")));
      destruct (is_empty (env_or_empty (env2 "CLOCKODO_API_KEY")));
      cbn [orb fst snd logFile email baseUrl negb truthy]; auto.
  - intros this1 this2 w1 w2 fuel op He Hbase Hview.
    rewrite !retrieve_paginate. apply rethrow_as_visible.
    now apply paginate_blind.
  - intros this endpoint schema w. apply makeRequest_logs_masked_request.
Qed.

(** A scripted service goes by the number of requests it has seen: it is
    blind to the key. *)
Lemma scripted_key_blind outcomes : key_blind (scripted outcomes).
Proof.
  intros h1 h2 r1 r2 Hh _. unfold scripted.
  now rewrite <- (length_map masked h1), Hh, length_map.
Qed.

Lemma api_key_not_disclosed_witness :
  let b := scripted [ok_json (users_page [sample_user 1 "Ada"] 1 2);
                     Resolves {| status := 401; statusText := "Unauthorized";
                                 body_text := "bad key"; body_json := inl "Unexpected token b" |}] in
  let other := {| email := "me@example.com"; apiKey := "0ther-key";
                  baseUrl := "https://my.clockodo.com/api" |} in
  visible (retrieve b sample_api 2 Users fresh) = visible (retrieve b other 2 Users fresh).
Proof.
  cbv zeta.
  apply (proj1 (proj2 (api_key_not_disclosed
                         (scripted [ok_json (users_page [sample_user 1 "Ada"] 1 2);
                                    Resolves {| status := 401; statusText := "Unauthorized";
                                                body_text := "bad key";
                                                body_json := inl "Unexpected token b" |}])
                         (scripted_key_blind _)))).
  - reflexivity.
  - reflexivity.
  - split; reflexivity.
Defined.

(** What a run that fails shows: the error, the log, in which the key
    header reads "***", and the request with the key masked. *)
Example api_key_absent_from_error_and_log :
  let b := scripted [Resolves {| status := 401; statusText := "Unauthorized";
                                 body_text := "bad key"; body_json := inl "Unexpected token b" |}] in
  visible (retrieve b sample_api 1 Users fresh) =
  Some (Throws (Err "Error" "Failed to fetch users from Clockodo API: HTTP 401: Unauthorized"),
        Some [request_line sample_api "/v3/users?page=1";
              Entry "<<< RESPONSE 401 Unauthorized" None;
              Entry "!!! ERROR: HTTP 401: Unauthorized"
                (Some (JObj [("url", JStr "https://my.clockodo.com/api/v3/users?page=1");
                             ("responseBody", JStr "bad key")]));
              Entry "!!! ERROR: Request failed"
                (Some (JObj [("error", JStr "HTTP 401: Unauthorized");
                             ("url", JStr "https://my.clockodo.com/api/v3/users?page=1")]))],
        [{| method := "GET"; url := "https://my.clockodo.com/api/v3/users?page=1";
            headers := [("Accept", "application/json");
                        ("X-ClockodoApiUser", "me@example.com");
                        ("X-ClockodoApiKey", "***");
                        ("X-Clockodo-External-Application", "mcp-ts")] |}]).
Proof. vm_compute. reflexivity. Qed.

(* ================================================================= *)
(** ** The fields of a validated record *)

(** A field the schema names, with a schema without [z.object] inside, has
    in the validated record the value received. *)
Lemma strip_keeps_field shape fields k t :
  shape_lookup k shape = Some t -> flat t = true ->
  prop (strip (z_object shape) (JObj fields)) k = lookup k fields.
Proof.
  intros Hk Hflat. rewrite prop_strip_object, Hk.
  destruct (lookup k fields) as [x|]; [|reflexivity].
  cbn [option_map]. now rewrite strip_flat.
Qed.

(** A field the schema does not name is not in the validated record. *)
Lemma strip_drops_field shape fields k :
  shape_lookup k shape = None ->
  prop (strip (z_object shape) (JObj fields)) k = None.
Proof. intros Hk. now rewrite prop_strip_object, Hk. Qed.

(** All fields of users and entries are of this kind; of projects, all but
    the nested [budget]. *)
Lemma user_and_entry_fields_flat :
  forallb (fun kt => flat (snd kt)) (shape_of ClockodoUserSchema) = true /\
  forallb (fun kt => flat (snd kt)) (shape_of ClockodoEntrySchema) = true /\
  map fst (filter (fun kt => negb (flat (snd kt))) (shape_of ClockodoProjectSchema)) = ["budget"].
Proof. repeat split; reflexivity. Qed.

(* ================================================================= *)
(** ** Scenarios *)

(** The scenario of the specification: one page, count_pages = 1, two
    well-formed users; [getUsers] resolves to exactly these two records, in
    the order received, after one fetch. *)
Example getUsers_one_page_two_users :
  let b := scripted [ok_json (users_page [sample_user 1 "Ada"; sample_user 2 "Bob"] 1 1)] in
  outcome_of (getUsers b sample_api 1 fresh)
    = Some (Returns [sample_user 1 "Ada"; sample_user 2 "Bob"]) /\
  urls_of (getUsers b sample_api 1 fresh)
    = Some ["https://my.clockodo.com/api/v3/users?page=1"].
Proof. cbv zeta. split; vm_compute; reflexivity. Qed.

(** Projects over two pages; the nested budget is validated like the record
    around it. *)
Example getProjects_two_pages :
  let project (id : Z) (budget : list (string * json)) :=
    JObj ([("id", JNum id); ("customers_id", JNum 7); ("name", JStr "Site");
           ("number", JNull); ("active", JBool true); ("billable_default", JBool true);
           ("completed", JBool false); ("completed_at", JNull); ("test_data", JBool false);
           ("count_subprojects", JNum 0)] ++ budget)%list in
  let budget := JObj [("monetary", JBool true); ("hard", JBool false);
                      ("from_subprojects", JBool false); ("amount", JNum 1000)] in
  let page (projects : list json) (current : Z) :=
    JObj [("data", JArr projects); ("paging", sample_paging current 2)] in
  let b := scripted [ok_json (page [project 1 []] 1);
                     ok_json (page [project 2 [("budget", budget)]] 2)] in
  outcome_of (getProjects b sample_api 2 fresh)
    = Some (Returns [project 1 []; project 2 [("budget", budget)]]) /\
  urls_of (getProjects b sample_api 2 fresh)
    = Some ["https://my.clockodo.com/api/v4/projects?page=1";
            "https://my.clockodo.com/api/v4/projects?page=2"].
Proof. cbv zeta. split; vm_compute; reflexivity. Qed.

(** A service that always announces one page more keeps the loop going:
    whatever the fuel, the run uses it up and there is no outcome. *)
Lemma endless_loop_goes_on fuel : forall acc page w,
  page = Z.of_nat (S (List.length (sent w))) ->
  paginate endless sample_api Users fuel acc page w = None.
Proof.
  induction fuel as [|fuel IH]; intros acc page w Hpage; [reflexivity|].
  rewrite paginate_S. cbv zeta.
  set (body := users_page [] (Z.of_nat (S (List.length (sent w))))
                             (Z.of_nat (S (S (List.length (sent w)))))).
  assert (Hserves : serves endless sample_api (sent w) (endpoint_of Users page) body).
  { eexists. unfold endless, ok_json. repeat split; reflexivity. }
  assert (Hvalid : valid Users body) by reflexivity.
  destruct (served_page _ _ _ _ _ _ Hserves Hvalid) as (Hres & Hcp & _ & _).
  rewrite Hres.
  destruct (page_result_shape _ _ _ _ _ _ Hres) as (items & count & Hitems & Hcount).
  rewrite Hitems, Hcount.
  assert (Hc : count = Z.of_nat (S (S (List.length (sent w))))).
  { assert (Hb : count_pages body = Some (Z.of_nat (S (S (List.length (sent w))))))
      by reflexivity.
    congruence. }
  assert (Hlt : (page <? count) = true) by (apply Z.ltb_lt; lia).
  rewrite Hlt. apply IH.
  rewrite makeRequest_sent, length_app. cbn [List.length]. lia.
Qed.

Lemma getUsers_endless fuel : getUsers endless sample_api fuel fresh = None.
Proof.
  unfold getUsers, rethrow_as. rewrite getUsers_while_paginate.
  now rewrite endless_loop_goes_on.
Qed.

(* ================================================================= *)
(** * Part IV: further properties

    ** The gateway: the user id *)

Lemma digits_value_uint d : forall acc rest,
  digits_value acc (NilEmpty.string_of_uint d ++ rest) = digits_value (uint_value d acc) rest.
Proof.
  induction d; intros acc rest; cbn [NilEmpty.string_of_uint uint_value append];
    try reflexivity;
    (cbn [digits_value];
     match goal with |- context [is_digit ?c] => change (is_digit c) with true end;
     cbv iota; rewrite IHd;
     match goal with
     | |- context [digit_value ?c] =>
         let v := eval vm_compute in (digit_value c) in change (digit_value c) with v
     end;
     f_equal; f_equal; lia).
Qed.

Lemma uint_value_pos d : forall p, uint_value d (Z.pos p) = Z.pos (Pos.of_uint_acc d p).
Proof.
  induction d; intros p; cbn [uint_value Pos.of_uint_acc]; try reflexivity;
    rewrite <- IHd; f_equal; lia.
Qed.

Lemma uint_value_0 d : uint_value d 0 = Z.of_N (Pos.of_uint d).
Proof.
  induction d; cbn [uint_value Pos.of_uint]; try reflexivity; try exact IHd;
    cbn [Z.mul Z.add Z.of_N]; apply uint_value_pos.
Qed.

Lemma digits_value_no_digit acc s : no_leading_digit s = true -> digits_value acc s = acc.
Proof.
  destruct s as [|c s]; [reflexivity|]. cbn. now destruct (is_digit c).
Qed.

Lemma string_of_uint_starts_with_digit d rest :
  d <> Decimal.Nil ->
  exists c s, (NilEmpty.string_of_uint d ++ rest) = String c s /\ is_digit c = true
              /\ Ascii.eqb c "-" = false /\ Ascii.eqb c "+" = false /\ is_white c = false.
Proof.
  destruct d; [congruence| ..]; intros _; cbn [NilEmpty.string_of_uint append];
    eexists; eexists; repeat split; reflexivity.
Qed.

(** The digits of a positive number, read back. *)
Lemma digits_value_printed p rest :
  no_leading_digit rest = true ->
  digits_value 0 (NilEmpty.string_of_uint (Pos.to_uint p) ++ rest) = Z.pos p.
Proof.
  intros Hrest. rewrite digits_value_uint, digits_value_no_digit by assumption.
  rewrite uint_value_0, DecimalPos.Unsigned.of_to. reflexivity.
Qed.

Lemma string_of_uint_nonnil p :
  NilZero.string_of_uint (Pos.to_uint p) = NilEmpty.string_of_uint (Pos.to_uint p).
Proof.
  pose proof (DecimalPos.Unsigned.to_uint_nonnil p) as H.
  unfold NilZero.string_of_uint. destruct (Pos.to_uint p); [congruence| ..]; reflexivity.
Qed.

(** [parseInt] reads what [`${n}`] prints, whatever follows it, as long as
    that does not begin with a digit. *)
Lemma parsed_integer_printed n rest :
  no_leading_digit rest = true ->
  parsed_integer (Some (string_of_Z n ++ rest)) = Some n.
Proof.
  intros Hrest. unfold string_of_Z, parsed_integer, ToString.
  destruct n as [|p|p]; cbn [Z.to_int NilZero.string_of_int].
  - change (NilZero.string_of_uint Decimal.zero ++ rest) with (String "0" rest).
    cbn [trim_start]. change (is_white "0") with false. cbv iota.
    change (Ascii.eqb "0" "-") with false. change (Ascii.eqb "0" "+") with false.
    cbn [orb]. change (is_digit "0") with true. cbv iota.
    cbn [digits_value]. change (is_digit "0") with true. cbv iota.
    rewrite digits_value_no_digit by assumption. reflexivity.
  - rewrite string_of_uint_nonnil.
    destruct (string_of_uint_starts_with_digit (Pos.to_uint p) rest
                (DecimalPos.Unsigned.to_uint_nonnil p))
      as (c & s & Hs & Hd & Hm & Hp & Hw).
    pose proof (digits_value_printed p rest Hrest) as Hv.
    rewrite Hs in *. cbn [trim_start]. rewrite Hw, Hm, Hp. cbn [orb]. rewrite Hd.
    now rewrite Hv.
  - rewrite string_of_uint_nonnil.
    destruct (string_of_uint_starts_with_digit (Pos.to_uint p) rest
                (DecimalPos.Unsigned.to_uint_nonnil p))
      as (c & s & Hs & Hd & Hm & Hp & Hw).
    pose proof (digits_value_printed p rest Hrest) as Hv.
    cbn [append trim_start]. change (is_white "-") with false. cbv iota.
    change (Ascii.eqb "-" "-") with true. cbn [orb].
    rewrite Hs in *. rewrite Hd. now rewrite Hv.
Qed.

Lemma trim_start_white ws s :
  string_forall is_white ws = true -> trim_start (ws ++ s) = trim_start s.
Proof.
  induction ws as [|c ws IH]; [reflexivity|]. cbn [string_forall append trim_start].
  intros H. apply andb_prop in H as [Hc Hws]. rewrite Hc. now apply IH.
Qed.

Lemma parseInt_leading_white ws s :
  string_forall is_white ws = true -> parseInt (Some (ws ++ s)) = parseInt (Some s).
Proof.
  intros H. unfold parseInt, parsed_integer, ToString. now rewrite trim_start_white.
Qed.

(** And makes a Number of it. *)
Lemma parseInt_printed n rest :
  no_leading_digit rest = true ->
  parseInt (Some (string_of_Z n ++ rest)) = Some (to_double n).
Proof.
  intros Hrest. unfold parseInt. now rewrite parsed_integer_printed.
Qed.

(** A safe integer is a double. *)
Lemma to_double_safe n : safe_integer n = true -> to_double n = n.
Proof.
  unfold safe_integer, to_double. intros H. apply andb_prop in H as [Hlo Hhi].
  apply Z.ltb_lt in Hlo, Hhi.
  assert (Hlt : (Z.abs n <? 2 ^ 53) = true) by (apply Z.ltb_lt; lia).
  cbv zeta. now rewrite Hlt.
Qed.




(** X2: A timestamp that does not have the format is refused as well, once the
    user id has passed: nothing is sent or logged. *)
Theorem entries_resource_refuses_timestamp b api fuel href userId timeSince timeUntil w n :
  parseInt (first_or_self userId) = Some n ->
  test dateRegex (first_or_self timeSince) = false \/
  test dateRegex (first_or_self timeUntil) = false ->
  entries_resource b api fuel href userId timeSince timeUntil w =
    Some (Throws (Err "Error"
            "Failed to fetch entries: Invalid date format. Use ISO 8601 format: YYYY-MM-DDTHH:mm:ssZ"),
          w).
Proof.
  intros Hn Hd. unfold entries_resource, rethrow_as. cbv zeta. rewrite Hn.
  destruct Hd as [-> | ->]; cbn [negb orb]; [reflexivity|].
  now rewrite orb_true_r.
Qed.

Lemma entries_resource_refuses_timestamp_witness :
  entries_resource (scripted []) sample_api 0 "clockodo://entries/7/a/b"
    (Single "7") (Single "2025-09-01T00:00:00Z") (Single "2025-09-02") fresh =
  Some (Throws (Err "Error"
          "Failed to fetch entries: Invalid date format. Use ISO 8601 format: YYYY-MM-DDTHH:mm:ssZ"),
        fresh).
Proof.
  apply (entries_resource_refuses_timestamp (scripted []) sample_api 0
           "clockodo://entries/7/a/b" (Single "7") (Single "2025-09-01T00:00:00Z")
           (Single "2025-09-02") fresh 7).
  - reflexivity.
  - right. reflexivity.
Defined.

(* ================================================================= *)
(** ** The gateway: timestamps *)

Lemma length_append s t : String.length (s ++ t) = (String.length s + String.length t)%nat.
Proof. induction s as [|c s IH]; [reflexivity|]. cbn. now rewrite IH. Qed.

Lemma string_forall_append p s t :
  string_forall p (s ++ t) = string_forall p s && string_forall p t.
Proof.
  induction s as [|c s IH]; [reflexivity|]. cbn. now rewrite IH, andb_assoc.
Qed.

Lemma string_forall_impl (p q : ascii -> bool) s :
  (forall c, p c = true -> q c = true) ->
  string_forall p s = true -> string_forall q s = true.
Proof.
  intros Hpq. induction s as [|c s IH]; [reflexivity|]. cbn.
  intros H. apply andb_prop in H as [Hc Hs]. now rewrite (Hpq c Hc), IH.
Qed.

Lemma test_spec m s : test m (Some s) = true <-> m s = Some "".
Proof.
  unfold test, ToString. destruct (m s) as [[|c r]|]; split; intros H;
    try reflexivity; try discriminate.
Qed.

Lemma then_inv m1 m2 s r :
  then_ m1 m2 s = Some r -> exists mid, m1 s = Some mid /\ m2 mid = Some r.
Proof. unfold then_. destruct (m1 s) as [mid|]; [eauto|discriminate]. Qed.

Lemma lit_inv a s r : lit a s = Some r -> s = String a r.
Proof.
  destruct s as [|c s]; [discriminate|]. cbn.
  destruct (Ascii.eqb c a) eqn:H; [|discriminate].
  apply Ascii.eqb_eq in H. now intros [= ->]; subst.
Qed.

Lemma lit_here a r : lit a (String a r) = Some r.
Proof. cbn. now rewrite Ascii.eqb_refl. Qed.

Lemma times_digit_inv n : forall s r,
  times n digit s = Some r -> exists d, digits n d /\ s = d ++ r.
Proof.
  induction n as [|n IH]; intros s r H.
  - injection H as <-. exists "". repeat split.
  - cbn [times] in H. apply then_inv in H as (mid & Hd & Hrest).
    destruct s as [|c s]; [discriminate|]. cbn in Hd.
    destruct (is_digit c) eqn:Hc; [|discriminate]. injection Hd as <-.
    apply IH in Hrest as (d & (Hlen & Hall) & ->).
    exists (String c d). repeat split; cbn; [now rewrite Hlen|now rewrite Hc, Hall].
Qed.

Lemma times_digit_app n : forall d r, digits n d -> times n digit (d ++ r) = Some r.
Proof.
  induction n as [|n IH]; intros d r (Hlen & Hall).
  - destruct d; [reflexivity|discriminate].
  - destruct d as [|c d]; [discriminate|]. cbn in Hlen, Hall.
    apply andb_prop in Hall as [Hc Hd]. injection Hlen as Hlen.
    cbn [times append]. unfold then_. cbn [digit]. rewrite Hc.
    apply IH. split; assumption.
Qed.

Lemma then_digits n m d r : digits n d -> then_ (times n digit) m (d ++ r) = m r.
Proof. intros H. unfold then_. now rewrite times_digit_app. Qed.

Lemma then_lit a m r : then_ (lit a) m (String a r) = m r.
Proof. unfold then_. now rewrite lit_here. Qed.

(** What [dateRegex] accepts has the shape. *)
Lemma dateRegex_gives_shape s :
  test dateRegex (Some s) = true -> timestamp_shape s.
Proof.
  rewrite test_spec. unfold dateRegex.
  - intros H.
    apply then_inv in H as (s1 & H1 & H). apply times_digit_inv in H1 as (year & Hy & ->).
    apply then_inv in H as (s2 & H2 & H). apply lit_inv in H2 as ->.
    apply then_inv in H as (s3 & H3 & H). apply times_digit_inv in H3 as (month & Hmo & ->).
    apply then_inv in H as (s4 & H4 & H). apply lit_inv in H4 as ->.
    apply then_inv in H as (s5 & H5 & H). apply times_digit_inv in H5 as (day & Hd & ->).
    apply then_inv in H as (s6 & H6 & H). apply lit_inv in H6 as ->.
    apply then_inv in H as (s7 & H7 & H). apply times_digit_inv in H7 as (hour & Hh & ->).
    apply then_inv in H as (s8 & H8 & H). apply lit_inv in H8 as ->.
    apply then_inv in H as (s9 & H9 & H). apply times_digit_inv in H9 as (minute & Hmi & ->).
    apply then_inv in H as (s10 & H10 & H). apply lit_inv in H10 as ->.
    apply then_inv in H as (s11 & H11 & H). apply times_digit_inv in H11 as (second & Hs & ->).
    apply then_inv in H as (s12 & H12 & H).
    assert (Hzone : s12 = "" \/ s12 = "Z").
    { unfold opt in H. destruct (lit "Z" s12) as [r|] eqn:Hz.
      - injection H as ->. apply lit_inv in Hz. now right.
      - injection H as ->. now left. }
    assert (Hfraction : exists fraction,
               (fraction = "" \/ exists millis, digits 3 millis /\ fraction = "." ++ millis)
               /\ s11 = fraction ++ s12).
    { unfold opt in H12.
      destruct (then_ (lit ".") (times 3 digit) s11) as [r|] eqn:Hf.
      - injection H12 as ->. apply then_inv in Hf as (t & Hdot & Hms).
        apply lit_inv in Hdot as ->. apply times_digit_inv in Hms as (millis & Hm & ->).
        exists ("." ++ millis). split; [right; eauto|reflexivity].
      - injection H12 as ->. exists "". split; [now left|reflexivity]. }
    destruct Hfraction as (fraction & Hf & ->).
    exists year, month, day, hour, minute, second, fraction, s12.
    repeat split; try apply Hy; try apply Hmo; try apply Hd; try apply Hh;
      try apply Hmi; try apply Hs; assumption.
Qed.

(** X4: [dateRegex] accepts exactly the strings of the shape
    dddd-dd-ddTdd:dd:dd, optionally followed by a dot and three digits, and
    then optionally by Z.  The digits are not checked for being a date. *)
Theorem dateRegex_accepts_the_shape s :
  test dateRegex (Some s) = true <-> timestamp_shape s.
Proof.
  split; [apply dateRegex_gives_shape|].
  rewrite test_spec. unfold dateRegex.
  - intros (year & month & day & hour & minute & second & fraction & zone &
            Hy & Hmo & Hd & Hh & Hmi & Hs & Hf & Hz & ->).
    rewrite (then_digits _ _ _ _ Hy). cbn [append]. rewrite then_lit.
    rewrite (then_digits _ _ _ _ Hmo). cbn [append]. rewrite then_lit.
    rewrite (then_digits _ _ _ _ Hd). cbn [append]. rewrite then_lit.
    rewrite (then_digits _ _ _ _ Hh). cbn [append]. rewrite then_lit.
    rewrite (then_digits _ _ _ _ Hmi). cbn [append]. rewrite then_lit.
    rewrite (then_digits _ _ _ _ Hs).
    destruct Hf as [-> | (millis & Hm & ->)].
    + cbn [append]. destruct Hz as [-> | ->]; reflexivity.
    + cbn [append]. unfold then_ at 1, opt at 1. rewrite then_lit, (times_digit_app _ _ _ Hm).
      destruct Hz as [-> | ->]; reflexivity.
Qed.

Lemma digit_is_timestamp_char c : is_digit c = true -> timestamp_char c = true.
Proof. unfold timestamp_char. now intros ->. Qed.

Lemma digits_plain n d : digits n d -> string_forall timestamp_char d = true.
Proof. intros (_ & H). exact (string_forall_impl _ _ _ digit_is_timestamp_char H). Qed.

(** X5: A timestamp that passes the gateway is made of digits and of the
    characters - T : . Z only, and is 19, 20, 23 or 24 characters long: it
    brings no [&], [=], [#] or space into the query string [getEntries]
    builds from it. *)
Theorem accepted_timestamp_is_plain s :
  test dateRegex (Some s) = true ->
  string_forall timestamp_char s = true /\
  (String.length s = 19 \/ String.length s = 20 \/
   String.length s = 23 \/ String.length s = 24)%nat.
Proof.
  intros H. apply dateRegex_gives_shape in H
    as (year & month & day & hour & minute & second & fraction & zone &
        Hy & Hmo & Hd & Hh & Hmi & Hs & Hf & Hz & ->).
  split.
  - repeat (rewrite string_forall_append; cbn [string_forall append]).
    rewrite (digits_plain _ _ Hy), (digits_plain _ _ Hmo), (digits_plain _ _ Hd),
      (digits_plain _ _ Hh), (digits_plain _ _ Hmi), (digits_plain _ _ Hs).
    destruct Hf as [-> | (millis & Hm & ->)]; destruct Hz as [-> | ->];
      cbn [string_forall append]; rewrite ?(digits_plain _ _ Hm); reflexivity.
  - repeat (rewrite length_append; cbn [String.length append]).
    destruct Hy as (-> & _), Hmo as (-> & _), Hd as (-> & _), Hh as (-> & _),
             Hmi as (-> & _), Hs as (-> & _).
    destruct Hf as [-> | (millis & (Hm & _) & ->)]; destruct Hz as [-> | ->];
      cbn [String.length append]; rewrite ?Hm; cbn; tauto.
Qed.

Lemma accepted_timestamp_is_plain_witness :
  string_forall timestamp_char "2025-09-01T23:59:59.999Z" = true /\
  (String.length "2025-09-01T23:59:59.999Z" = 19 \/
   String.length "2025-09-01T23:59:59.999Z" = 20 \/
   String.length "2025-09-01T23:59:59.999Z" = 23 \/
   String.length "2025-09-01T23:59:59.999Z" = 24)%nat.
Proof.
  apply (accepted_timestamp_is_plain "2025-09-01T23:59:59.999Z"). reflexivity.
Defined.

(** The format is all that is checked: month 99 passes, an offset does not. *)
Example dateRegex_checks_no_ranges :
  test dateRegex (Some "2025-99-99T99:99:99") = true /\
  test dateRegex (Some "2025-09-01T00:00:00+02:00") = false /\
  test dateRegex (Some "2025-09-01") = false /\
  test dateRegex None = false.
Proof. repeat split; reflexivity. Qed.

(* ================================================================= *)
(** ** The gateway and the client together *)

Lemma append_empty s : s ++ "" = s.
Proof. induction s as [|c s IH]; [reflexivity|]. cbn. now rewrite IH. Qed.

Lemma parsed_integer_string_of_Z n : parsed_integer (Some (string_of_Z n)) = Some n.
Proof.
  rewrite <- (append_empty (string_of_Z n)). now apply parsed_integer_printed.
Qed.

Lemma parseInt_string_of_Z n : parseInt (Some (string_of_Z n)) = Some (to_double n).
Proof. unfold parseInt. now rewrite parsed_integer_string_of_Z. Qed.

(** A callback is its retrieval operation, the user id rounded, the result
    printed, a failure prefixed. *)
Lemma read_resource_as_contents b api fuel href op w :
  timestamps_ok op = true ->
  read_resource b api fuel href op w =
  as_contents (gateway_prefix op) href (retrieve b api fuel (as_read op) w).
Proof.
  intros Hok. destruct op as [|userId timeSince timeUntil|];
    cbn [read_resource gateway_prefix retrieve as_read].
  - unfold users_resource, rethrow_as, run_bind, run_ret, as_contents.
    destruct (getUsers b api fuel w) as [[[users | e] w']|]; reflexivity.
  - cbn [timestamps_ok] in Hok. apply andb_prop in Hok as [Hsince Huntil].
    unfold entries_resource, rethrow_as, run_bind, run_ret, as_contents. cbv zeta.
    cbn [first_or_self]. rewrite parseInt_string_of_Z, Hsince, Huntil.
    cbn [negb orb ToString as_read retrieve].
    destruct (getEntries b api fuel (to_double userId) timeSince timeUntil w)
      as [[[entries | e] w']|]; reflexivity.
  - unfold projects_resource, rethrow_as, run_bind, run_ret, as_contents.
    destruct (getProjects b api fuel w) as [[[projects | e] w']|]; reflexivity.
Qed.

(** A user without entries in the range reads as the empty array. *)
Example read_entries_of_nobody :
  outcome_of
    (read_resource (scripted [ok_json (entries_page [sample_entry 10 2] 1 1)]) sample_api 1
       "clockodo://entries/5/s/u" (Entries 5 "2025-09-01T00:00:00Z" "2025-09-02T00:00:00Z")
       fresh)
  = Some (Returns [{| uri := "clockodo://entries/5/s/u"; text := "[]" |}]).
Proof. vm_compute. reflexivity. Qed.

(** X7: A failure of page k reaches the reader of the resource with both
    prefixes, that of the callback and that of the client, before the
    message of the cause: "Failed to fetch users: Failed to fetch users from
    Clockodo API: <cause>". *)
Theorem read_resource_failure_names_both_layers b api href op w bodies cause :
  timestamps_ok op = true ->
  (forall i body, nth_error bodies i = Some body ->
     serves b api (sent w ++ requests api op (pages_from 1 i))%list
       (endpoint_of op (1 + Z.of_nat i)) body /\
     valid op body /\
     exists count, count_pages body = Some count /\ 1 + Z.of_nat i < count) ->
  page_result b api op
    (sent w ++ requests api op (pages_from 1 (List.length bodies)))%list
    (1 + Z.of_nat (List.length bodies)) = Throws cause ->
  forall fuel, (List.length bodies < fuel)%nat ->
  exists w',
    read_resource b api fuel href op w =
      Some (Throws (Err "Error"
              (gateway_prefix op ++ failure_prefix op ++ message_of cause)), w') /\
    sent w' = (sent w ++ requests api op (pages_from 1 (S (List.length bodies))))%list.
Proof.
  intros Hok Hbodies Hfail fuel Hfuel.
  rewrite read_resource_as_contents by assumption.
  destruct op as [|userId timeSince timeUntil|]; cbn [as_read].
  - destruct (retrieve_failing b api Users w bodies cause Hbodies Hfail fuel Hfuel)
      as (w' & Hrun & Hsent).
    exists w'. split; [now rewrite Hrun|exact Hsent].
  - destruct (retrieve_failing b api (Entries (to_double userId) timeSince timeUntil)
                w bodies cause Hbodies Hfail fuel Hfuel) as (w' & Hrun & Hsent).
    exists w'. split; [now rewrite Hrun|exact Hsent].
  - destruct (retrieve_failing b api Projects w bodies cause Hbodies Hfail fuel Hfuel)
      as (w' & Hrun & Hsent).
    exists w'. split; [now rewrite Hrun|exact Hsent].
Qed.

(** Page 1 of 2 is received, page 2 answers 429: both prefixes, two
    requests, no content. *)
Lemma read_resource_failure_names_both_layers_witness :
  let b := scripted [ok_json (users_page [sample_user 1 "Ada"] 1 2);
                     Resolves {| status := 429; statusText := "Too Many Requests";
                                 body_text := ""; body_json := inl "Unexpected end" |}] in
  exists w',
    read_resource b sample_api 2 "clockodo://users" Users fresh =
      Some (Throws (Err "Error"
              "Failed to fetch users: Failed to fetch users from Clockodo API: HTTP 429: Too Many Requests"),
            w') /\
    sent w' = (sent fresh ++ requests sample_api Users (pages_from 1 2))%list.
Proof.
  cbv zeta.
  refine (read_resource_failure_names_both_layers
            (scripted [ok_json (users_page [sample_user 1 "Ada"] 1 2);
                       Resolves {| status := 429; statusText := "Too Many Requests";
                                   body_text := ""; body_json := inl "Unexpected end" |}])
            sample_api "clockodo://users" Users fresh
            [users_page [sample_user 1 "Ada"] 1 2]
            (Err "Error" "HTTP 429: Too Many Requests") _ _ _ 2%nat _).
  - reflexivity.
  - intros [|i] body Hi; cbn [nth_error] in Hi; try (destruct i; discriminate).
    injection Hi as <-. split; [eexists; vm_compute; repeat split; reflexivity|].
    split; [vm_compute; reflexivity|]. exists 2. split; [vm_compute; reflexivity|lia].
  - vm_compute. reflexivity.
  - cbn. lia.
Defined.

Example read_projects_rate_limited :
  outcome_of
    (read_resource (scripted [Resolves {| status := 429; statusText := "Too Many Requests";
                                          body_text := ""; body_json := inl "Unexpected end" |}])
       sample_api 1 "clockodo://projects" Projects fresh)
  = Some (Throws (Err "Error"
      "Failed to fetch projects: Failed to fetch projects from Clockodo API: HTTP 429: Too Many Requests")).
Proof. vm_compute. reflexivity. Qed.

(* ================================================================= *)
(** ** The earlier client and the present one *)

Lemma earlier_makeRequest_outcome b this endpoint schema w :
  fst (Earlier.makeRequest b this endpoint schema w) =
  earlier_outcome (b (sent w) (request_for this endpoint)) schema.
Proof.
  unfold Earlier.makeRequest, earlier_outcome, try_catch, bind, fetch, lift, ret, throw.
  cbn [sent logFile fst snd].
  destruct (b (sent w) (request_for this endpoint)) as [n m | r]; [reflexivity|].
  destruct (ok r); cbn [negb fst snd]; [|reflexivity].
  destruct (body_json r) as [m | data]; [reflexivity|].
  destruct (parse schema data) as [v | e] eqn:Hp; cbn [fst snd]; [reflexivity|].
  destruct (parse_throws_zod _ _ _ Hp) as [issues ->]. reflexivity.
Qed.

Lemma earlier_makeRequest_world b this endpoint schema w :
  snd (Earlier.makeRequest b this endpoint schema w) =
  {| logFile := logFile w; sent := (sent w ++ [request_for this endpoint])%list |}.
Proof.
  unfold Earlier.makeRequest, try_catch, bind, fetch, lift, ret, throw.
  cbn [sent logFile fst snd].
  destruct (b (sent w) (request_for this endpoint)) as [n m | r]; [reflexivity|].
  destruct (ok r); cbn [negb fst snd]; [|reflexivity].
  destruct (body_json r) as [m | data]; [reflexivity|].
  destruct (parse schema data) as [v | e] eqn:Hp; cbn [fst snd]; [reflexivity|].
  destruct (parse_throws_zod _ _ _ Hp) as [issues ->]. reflexivity.
Qed.

Lemma outcomes_agree o schema :
  (forall r, o = Resolves r -> ok r = true -> body_json r <> inr JNull) ->
  request_outcome o schema = earlier_outcome o schema.
Proof.
  intros H. unfold request_outcome, earlier_outcome.
  destruct o as [n m | r]; [reflexivity|].
  destruct (ok r) eqn:Hok; [|reflexivity].
  destruct (body_json r) as [m | data] eqn:Hbody; [reflexivity|].
  destruct data; try reflexivity.
  exfalso. exact (H r eq_refl Hok Hbody).
Qed.

(** X9: What the log added: unless the body of the response is [null], the
    present [makeRequest] ends as the earlier one did, with the same value or
    the same error, after the same one request; the earlier one leaves the
    log file alone. *)
Theorem logging_keeps_the_outcome b this endpoint schema w :
  (forall r, b (sent w) (request_for this endpoint) = Resolves r ->
             ok r = true -> body_json r <> inr JNull) ->
  fst (makeRequest b this endpoint schema w) =
    fst (Earlier.makeRequest b this endpoint schema w) /\
  sent (snd (makeRequest b this endpoint schema w)) =
    sent (snd (Earlier.makeRequest b this endpoint schema w)) /\
  logFile (snd (Earlier.makeRequest b this endpoint schema w)) = logFile w.
Proof.
  intros H. rewrite makeRequest_outcome, earlier_makeRequest_outcome,
    makeRequest_sent, earlier_makeRequest_world.
  repeat split. now apply outcomes_agree.
Qed.

Lemma logging_keeps_the_outcome_witness :
  let b := scripted [ok_json (users_page [JNum 3] 1 1)] in
  fst (makeRequest b sample_api "/v3/users?page=1" ClockodoUsersResponseSchema fresh) =
    fst (Earlier.makeRequest b sample_api "/v3/users?page=1" ClockodoUsersResponseSchema fresh).
Proof.
  cbv zeta.
  apply (logging_keeps_the_outcome (scripted [ok_json (users_page [JNum 3] 1 1)])
           sample_api "/v3/users?page=1" ClockodoUsersResponseSchema fresh).
  intros r H _. vm_compute in H. injection H as <-. discriminate.
Defined.

(** X10: On the body [null] the earlier [makeRequest] reports the failed
    validation, for every object schema. *)
Theorem earlier_client_reports_null_body b this endpoint shape w r :
  b (sent w) (request_for this endpoint) = Resolves r ->
  ok r = true ->
  body_json r = inr JNull ->
  fst (Earlier.makeRequest b this endpoint (z_object shape) w) =
    Throws (Err "Error"
      ("Invalid API response format: "
       ++ message_of (ZodError [invalid_type "object" (Some JNull) []]))).
Proof.
  intros Hb Hok Hbody. rewrite earlier_makeRequest_outcome, Hb.
  unfold earlier_outcome. now rewrite Hok, Hbody.
Qed.

Lemma earlier_client_reports_null_body_witness :
  fst (Earlier.makeRequest (scripted [ok_json JNull]) sample_api "/v3/users?page=1"
         ClockodoUsersResponseSchema fresh) =
  Throws (Err "Error"
    ("Invalid API response format: "
     ++ message_of (ZodError [invalid_type "object" (Some JNull) []]))).
Proof.
  apply (earlier_client_reports_null_body (scripted [ok_json JNull]) sample_api
           "/v3/users?page=1" _ fresh
           {| status := 200; statusText := "OK";
              body_text := JSON_stringify JNull; body_json := inr JNull |}).
  - reflexivity.
  - reflexivity.
  - reflexivity.
Defined.

Lemma getUsers_while_agree b this fuel :
  never_null b ->
  forall acc page w1 w2,
    sent w1 = sent w2 ->
    trace (getUsers_while b this fuel acc page w1) =
    trace (Earlier.getUsers_while b this fuel acc page w2).
Proof.
  intros Hnull. induction fuel as [|fuel IH]; intros acc page w1 w2 Hsent; [reflexivity|].
  cbn [getUsers_while Earlier.getUsers_while].
  pose proof (makeRequest_outcome b this ("/v3/users?page=" ++ string_of_Z page)
                ClockodoUsersResponseSchema w1) as H1.
  pose proof (earlier_makeRequest_outcome b this ("/v3/users?page=" ++ string_of_Z page)
                ClockodoUsersResponseSchema w2) as H2.
  pose proof (makeRequest_sent b this ("/v3/users?page=" ++ string_of_Z page)
                ClockodoUsersResponseSchema w1) as S1.
  pose proof (earlier_makeRequest_world b this ("/v3/users?page=" ++ string_of_Z page)
                ClockodoUsersResponseSchema w2) as S2.
  rewrite Hsent, outcomes_agree in H1 by (intros r Hr _; exact (Hnull _ _ _ Hr)).
  rewrite <- H2 in H1.
  destruct (makeRequest b this _ _ w1) as [o1 w1'].
  destruct (Earlier.makeRequest b this _ _ w2) as [o2 w2'].
  cbn [fst snd] in *. subst o2 w2'.
  assert (Hs : sent w1' = sent {| logFile := logFile w2;
                                  sent := (sent w2 ++ [request_for this
                                    ("/v3/users?page=" ++ string_of_Z page)])%list |}).
  { rewrite S1, Hsent. reflexivity. }
  destruct o1 as [response | e].
  - destruct (payload "data" response) as [data|].
    + destruct (count_pages response) as [count|].
      * cbv zeta. destruct (page <? count).
        -- apply IH. exact Hs.
        -- cbn [trace option_map fst snd]. now rewrite Hs.
      * cbn [trace option_map fst snd]. now rewrite Hs.
    + cbn [trace option_map fst snd]. now rewrite Hs.
  - cbn [trace option_map fst snd]. now rewrite Hs.
Qed.

(** X11: Against a service that never answers with the body [null], [getUsers]
    ends as the earlier [getUsers] did: the same users or the same error,
    after the same requests. *)
Theorem getUsers_as_before_logging b this fuel w :
  never_null b ->
  trace (getUsers b this fuel w) = trace (Earlier.getUsers b this fuel w).
Proof.
  intros Hnull. unfold getUsers, Earlier.getUsers, rethrow_as.
  pose proof (getUsers_while_agree b this fuel Hnull [] 1 w w eq_refl) as H.
  destruct (getUsers_while b this fuel [] 1 w) as [[[a1 | e1] w1]|];
    destruct (Earlier.getUsers_while b this fuel [] 1 w) as [[[a2 | e2] w2]|];
    cbn [trace option_map fst snd] in *; try discriminate; try reflexivity;
    injection H as H1 H2; subst; now rewrite H2.
Qed.

Lemma scripted_users_never_null :
  never_null (scripted [ok_json (users_page [sample_user 1 "Ada"] 1 2);
                        ok_json (users_page [sample_user 2 "Bob"] 2 2)]).
Proof.
  intros history request r. unfold scripted.
  destruct (List.length history) as [|[|[|n]]]; cbn [nth]; intros H;
    try discriminate; injection H as <-; discriminate.
Qed.

Lemma getUsers_as_before_logging_witness :
  let b := scripted [ok_json (users_page [sample_user 1 "Ada"] 1 2);
                     ok_json (users_page [sample_user 2 "Bob"] 2 2)] in
  trace (getUsers b sample_api 2 fresh) = trace (Earlier.getUsers b sample_api 2 fresh).
Proof.
  cbv zeta.
  apply (getUsers_as_before_logging
           (scripted [ok_json (users_page [sample_user 1 "Ada"] 1 2);
                      ok_json (users_page [sample_user 2 "Bob"] 2 2)])
           sample_api 2 fresh).
  exact scripted_users_never_null.
Defined.

(* ================================================================= *)
(** ** Validated values conform to their schema *)

Lemma ZodType_induction (P : ZodType -> Prop) :
  P z_number -> P z_string -> P z_boolean -> P z_any ->
  (forall t, P t -> P (z_nullable t)) ->
  (forall t, P t -> P (z_optional t)) ->
  (forall t, P t -> P (z_array t)) ->
  (forall shape, Forall (fun kt => P (snd kt)) shape -> P (z_object shape)) ->
  forall t, P t.
Proof.
  intros Hn Hs Hb Ha Hnu Ho Har Hob. fix IH 1. intros [| | | |t|t|t|shape].
  - exact Hn.
  - exact Hs.
  - exact Hb.
  - exact Ha.
  - apply Hnu, IH.
  - apply Ho, IH.
  - apply Har, IH.
  - apply Hob. induction shape as [|[k t] shape IHs]; constructor; [apply IH|exact IHs].
Qed.

Lemma conforms_object shape fields :
  conforms (z_object shape) (Some (JObj fields)) = conforms_fields shape fields.
Proof.
  induction shape as [|[k tk] shape IH]; [reflexivity|].
  cbn [conforms conforms_fields] in *. now rewrite IH.
Qed.

Lemma strip_object shape fields :
  strip (z_object shape) (JObj fields) = JObj (strip_fields shape fields).
Proof.
  induction shape as [|[k tk] shape IH]; [reflexivity|].
  cbn [strip strip_fields] in *. injection IH as IH.
  destruct (lookup k fields); now rewrite IH.
Qed.

Lemma well_formed_object shape :
  well_formed (z_object shape) =
  distinct (map fst shape) && forallb (fun kt => well_formed (snd kt)) shape.
Proof.
  cbn [well_formed]. f_equal.
  induction shape as [|[k tk] shape IH]; [reflexivity|]. cbn [forallb snd]. now rewrite IH.
Qed.

Lemma issues_object_fields shape p fields :
  issues_of (z_object shape) p (Some (JObj fields)) = [] <->
  Forall (fun kt => issues_of (snd kt) (p ++ [Key (fst kt)])%list (lookup (fst kt) fields) = [])
         shape.
Proof.
  induction shape as [|[k tk] shape IH].
  - split; [constructor|reflexivity].
  - cbn [issues_of] in *. split.
    + intros H. apply app_eq_nil in H as [H1 H2]. constructor; [exact H1|]. now apply IH.
    + intros H. inversion H as [|? ? H1 H2]; subst. cbn [fst snd] in H1.
      rewrite H1. cbn [app]. now apply IH.
Qed.

Lemma issues_array_items (f : nat -> json -> list ZodIssue) items : forall i,
  List.concat (mapi_from f i items) = [] <->
  (forall j x, nth_error items j = Some x -> f (i + j)%nat x = []).
Proof.
  induction items as [|y items IH]; intros i.
  - split; [intros _ [|j] x H; discriminate|reflexivity].
  - cbn [mapi_from List.concat]. split.
    + intros H. apply app_eq_nil in H as [H1 H2]. intros [|j] x Hx.
      * injection Hx as <-. now rewrite Nat.add_0_r.
      * replace (i + S j)%nat with (S i + j)%nat by lia.
        exact (proj1 (IH (S i)) H2 j x Hx).
    + intros H. pose proof (H O y eq_refl) as H0. rewrite Nat.add_0_r in H0.
      rewrite H0. cbn [app]. apply IH. intros j x Hx.
      replace (S i + j)%nat with (i + S j)%nat by lia. exact (H (S j) x Hx).
Qed.

(** zod raises no issue exactly for the inputs that conform, wherever in the
    body they stand. *)
Lemma no_issue_iff_conforms t : forall p input,
  issues_of t p input = [] <-> conforms t input = true.
Proof.
  induction t as [| | | |t IH|t IH|t IH|shape IH] using ZodType_induction; intros p input.
  - destruct input as [[]|]; cbn; split; congruence.
  - destruct input as [[]|]; cbn; split; congruence.
  - destruct input as [[]|]; cbn; split; congruence.
  - cbn. tauto.
  - destruct input as [[]|]; cbn [issues_of conforms]; try apply IH. tauto.
  - destruct input as [v|]; cbn [issues_of conforms]; [apply IH|tauto].
  - destruct input as [[| | | |items|]|]; cbn [issues_of conforms];
      try (split; discriminate).
    rewrite issues_array_items, forallb_forall. split.
    + intros H x Hx. apply In_nth_error in Hx as (j & Hj).
      exact (proj1 (IH _ _) (H j x Hj)).
    + intros H j x Hx. apply IH, H. eapply nth_error_In; eassumption.
  - destruct input as [[| | | | |fields]|]; try (cbn; split; discriminate).
    rewrite issues_object_fields, conforms_object.
    induction IH as [|[k tk] shape Hk Hshape IHshape].
    + split; [reflexivity|constructor].
    + cbn [conforms_fields]. rewrite andb_true_iff. split.
      * intros H. inversion H as [|? ? H1 H2]; subst. cbn [fst snd] in *.
        split; [exact (proj1 (Hk _ _) H1)|now apply IHshape].
      * intros [H1 H2]. constructor; [exact (proj2 (Hk _ _) H1)|now apply IHshape].
Qed.

Lemma shape_lookup_distinct shape k tk :
  distinct (map fst shape) = true -> In (k, tk) shape -> shape_lookup k shape = Some tk.
Proof.
  induction shape as [|[k' tk'] shape IH]; intros Hd Hin; [contradiction|].
  cbn [map fst distinct] in Hd. apply andb_prop in Hd as [Hnot Hd].
  cbn [shape_lookup]. destruct Hin as [[= -> ->]|Hin].
  - now rewrite String.eqb_refl.
  - destruct (String.eqb k k') eqn:Hk; [|now apply IH].
    apply String.eqb_eq in Hk. subst k'. exfalso.
    apply negb_true_iff in Hnot. assert (H : existsb (String.eqb k) (map fst shape) = true).
    { apply existsb_exists. exists k. split; [|apply String.eqb_refl].
      change k with (fst (k, tk)). now apply in_map. }
    congruence.
Qed.

Lemma lookup_strip_fields shape fields k :
  lookup k (strip_fields shape fields) =
  match shape_lookup k shape with
  | Some t => option_map (strip t) (lookup k fields)
  | None => None
  end.
Proof.
  rewrite <- lookup_strip, strip_object. reflexivity.
Qed.

(** What validation hands back conforms, and validating it again hands it
    back as it is. *)
Lemma strip_conforms t :
  well_formed t = true ->
  forall v, conforms t (Some v) = true ->
    conforms t (Some (strip t v)) = true /\ strip t (strip t v) = strip t v.
Proof.
  induction t as [| | | |t IH|t IH|t IH|shape IH] using ZodType_induction;
    intros Hwf v Hv; try (split; [exact Hv|reflexivity]).
  - cbn [well_formed] in Hwf.
    assert (Hnull : forall w, conforms t (Some w) = true -> strip t w = w ->
              conforms (z_nullable t) (Some w) = true /\ strip (z_nullable t) w = w).
    { intros w Hc Hs. destruct w; cbn [conforms strip]; split;
        assumption || reflexivity. }
    destruct v; try (split; reflexivity);
      cbn [conforms] in Hv; destruct (IH Hwf _ Hv) as [H1 H2];
      cbn [strip]; now apply Hnull.
  - cbn [well_formed] in Hwf. cbn [conforms strip] in *. now apply IH.
  - cbn [well_formed] in Hwf.
    destruct v as [| | | |items|]; try discriminate. cbn [conforms strip] in *.
    rewrite forallb_forall in Hv. split.
    + apply forallb_forall. intros x Hx. apply in_map_iff in Hx as (y & <- & Hy).
      now apply IH, Hv.
    + f_equal. rewrite map_map. apply map_ext_in. intros x Hx. now apply IH, Hv.
  - destruct v as [| | | | |fields]; try discriminate.
    rewrite well_formed_object in Hwf. apply andb_prop in Hwf as [Hd Hwf].
    rewrite conforms_object in Hv. rewrite !strip_object, conforms_object.
    assert (Hsub : forall sh,
               (forall k tk, In (k, tk) sh -> In (k, tk) shape) ->
               conforms_fields sh fields = true ->
               conforms_fields sh (strip_fields shape fields) = true /\
               strip_fields sh (strip_fields shape fields) = strip_fields sh fields).
    { induction sh as [|[k tk] sh IHsh]; intros Hin Hc; [split; reflexivity|].
      cbn [conforms_fields] in Hc. apply andb_prop in Hc as [Hk Hc].
      destruct (IHsh (fun k' tk' H => Hin k' tk' (or_intror H)) Hc) as [Hc' Hs'].
      pose proof (Hin k tk (or_introl eq_refl)) as Hhere.
      assert (Hwfk : well_formed tk = true).
      { rewrite forallb_forall in Hwf. exact (Hwf (k, tk) Hhere). }
      assert (IHk := proj1 (Forall_forall _ _) IH (k, tk) Hhere Hwfk). cbn [snd] in IHk.
      cbn [conforms_fields strip_fields].
      rewrite lookup_strip_fields, (shape_lookup_distinct shape k tk Hd Hhere).
      destruct (lookup k fields) as [x|]; cbn [option_map].
      - destruct (IHk x Hk) as [Hx1 Hx2]. rewrite Hx1, Hx2, Hc', Hs'. split; reflexivity.
      - rewrite Hk, Hc', Hs'. split; reflexivity. }
    destruct (Hsub shape (fun _ _ H => H) Hv) as [H1 H2]. split; [exact H1|now rewrite H2].
Qed.

Lemma validated_parse_conforms schema data v :
  well_formed schema = true ->
  parse schema data = Returns v ->
  issues_of schema [] (Some v) = [].
Proof.
  intros Hwf Hparse. unfold parse in *.
  destruct (issues_of schema [] (Some data)) as [|i rest] eqn:Hi; [|discriminate].
  injection Hparse as <-.
  apply no_issue_iff_conforms in Hi. apply no_issue_iff_conforms.
  now apply strip_conforms.
Qed.

(** X12: A value that has passed validation passes it again, unchanged: the
    validated value is a fixed point of [schema.parse]. *)
Theorem validated_value_revalidates schema data v :
  well_formed schema = true ->
  parse schema data = Returns v ->
  parse schema v = Returns v.
Proof.
  intros Hwf Hparse. unfold parse in *.
  destruct (issues_of schema [] (Some data)) as [|i rest] eqn:Hi; [|discriminate].
  injection Hparse as <-.
  apply no_issue_iff_conforms in Hi.
  destruct (strip_conforms schema Hwf data Hi) as [Hc Hs].
  apply (no_issue_iff_conforms schema []) in Hc. now rewrite Hc, Hs.
Qed.

Lemma validated_value_revalidates_witness :
  let page := JObj [("data", JArr [JObj [("id", JNum 1); ("name", JStr "Ada");
                                         ("email", JStr "a@example.com");
                                         ("active", JBool true); ("shoe_size", JNum 38)]]);
                    ("paging", sample_paging 1 1); ("links", JNull)] in
  parse ClockodoUsersResponseSchema (strip ClockodoUsersResponseSchema page) =
  Returns (strip ClockodoUsersResponseSchema page).
Proof.
  cbv zeta.
  apply (validated_value_revalidates ClockodoUsersResponseSchema
           (JObj [("data", JArr [JObj [("id", JNum 1); ("name", JStr "Ada");
                                        ("email", JStr "a@example.com");
                                        ("active", JBool true); ("shoe_size", JNum 38)]]);
                  ("paging", sample_paging 1 1); ("links", JNull)])).
  - vm_compute. reflexivity.
  - vm_compute. reflexivity.
Defined.


(** X13: Whatever [makeRequest] returns has passed the schema it was given and
    would pass it again: the raw body never comes back. *)
Theorem makeRequest_returns_validated b this endpoint schema w v :
  well_formed schema = true ->
  fst (makeRequest b this endpoint schema w) = Returns v ->
  issues_of schema [] (Some v) = [] /\
  exists r data,
    b (sent w) (request_for this endpoint) = Resolves r /\ ok r = true /\
    body_json r = inr data /\ v = strip schema data.
Proof.
  intros Hwf. rewrite makeRequest_outcome. unfold request_outcome.
  destruct (b (sent w) (request_for this endpoint)) as [n m | r] eqn:Hb; [discriminate|].
  destruct (ok r) eqn:Hok; [|discriminate].
  destruct (body_json r) as [m | data] eqn:Hbody; [discriminate|].
  assert (Hgen : parse schema data = Returns v ->
                 issues_of schema [] (Some v) = [] /\
                 exists r0 data0, Resolves r = Resolves r0 /\ ok r0 = true /\
                                  body_json r0 = inr data0 /\ v = strip schema data0).
  { intros Hp. split; [now apply (validated_parse_conforms schema data)|].
    exists r, data. repeat split; try assumption.
    unfold parse in Hp. destruct (issues_of schema [] (Some data)); congruence. }
  destruct data; try discriminate;
    match goal with
    | |- context [parse schema ?d] =>
        destruct (parse schema d) as [v0 | e] eqn:Hp; [|discriminate];
        intros [= ->]; now apply Hgen
    end.
Qed.

Lemma makeRequest_returns_validated_witness :
  issues_of ClockodoUsersResponseSchema []
    (Some (strip ClockodoUsersResponseSchema
             (users_page [sample_user 1 "Ada"] 1 1))) = [].
Proof.
  refine (proj1 (makeRequest_returns_validated
                   (scripted [ok_json (users_page [sample_user 1 "Ada"] 1 1)])
                   sample_api "/v3/users?page=1" ClockodoUsersResponseSchema fresh
                   (strip ClockodoUsersResponseSchema (users_page [sample_user 1 "Ada"] 1 1))
                   _ _)).
  - vm_compute. reflexivity.
  - vm_compute. reflexivity.
Defined.





(* ================================================================= *)
(** ** The log of a request *)

Ltac run_makeRequest :=
  unfold makeRequest, try_catch, bind, fetch,
    Logger.logRequest, Logger.logResponse, Logger.logError, Logger.log,
    Logger.appendFileSync, lift, ret, throw, request_headers;
  cbn [sent logFile fst snd truthy map].

Ltac log_equation :=
  unfold log_lines, request_line; cbn [logFile fst snd];
  match goal with
  | |- context [logFile ?w] => destruct (logFile w)
  end;
  cbn [app]; rewrite <- ?app_assoc; reflexivity.

(** [makeRequest] appends to the log: first the request line, then lines
    that are no request lines. *)
Lemma makeRequest_log b this endpoint schema w :
  exists rest,
    log_lines (snd (makeRequest b this endpoint schema w)) =
      (log_lines w ++ request_line this endpoint :: rest)%list /\
    request_lines rest = [].
Proof.
  run_makeRequest.
  destruct (b (sent w) (request_for this endpoint)) as [n m | r].
  { eexists. split; [log_equation|reflexivity]. }
  cbn [sent logFile fst snd].
  destruct (ok r); cbn [negb fst snd sent logFile truthy].
  2:{ eexists. split; [log_equation|reflexivity]. }
  destruct (body_json r) as [m | data].
  { eexists. split; [log_equation|reflexivity]. }
  destruct data;
    cbn [typeof String.eqb Ascii.eqb Bool.eqb andb Object_keys fst snd sent logFile truthy];
    try (eexists; split; [log_equation|reflexivity]);
    (destruct (parse schema _) as [v | e] eqn:Hp; cbn [fst snd sent logFile truthy];
     [eexists; split; [log_equation|reflexivity]|];
     destruct (parse_throws_zod _ _ _ Hp) as [issues ->];
     eexists; split; [log_equation|reflexivity]).
Qed.

Lemma request_lines_app l1 l2 :
  request_lines (l1 ++ l2)%list = (request_lines l1 ++ request_lines l2)%list.
Proof. apply flat_map_app. Qed.

Lemma request_lines_request this endpoint rest :
  request_lines (request_line this endpoint :: rest) =
  request_message (request_for this endpoint) :: request_lines rest.
Proof. reflexivity. Qed.

Lemma paginate_log b this op fuel : forall acc page w o w',
  paginate b this op fuel acc page w = Some (o, w') ->
  exists rest news,
    log_lines w' = (log_lines w ++ rest)%list /\
    sent w' = (sent w ++ news)%list /\
    request_lines rest = map request_message news.
Proof.
  induction fuel as [|fuel IH]; intros acc page w o w' Hrun; [discriminate|].
  cbn [paginate] in Hrun.
  destruct (makeRequest_log b this (endpoint_of op page) (schema_of op) w)
    as (rest1 & Hlog1 & Hnone).
  pose proof (makeRequest_sent b this (endpoint_of op page) (schema_of op) w) as Hsent1.
  destruct (makeRequest b this (endpoint_of op page) (schema_of op) w) as [o1 w1].
  cbn [snd] in Hlog1, Hsent1.
  assert (Hstop : exists rest news,
             log_lines w1 = (log_lines w ++ rest)%list /\
             sent w1 = (sent w ++ news)%list /\
             request_lines rest = map request_message news).
  { exists (request_line this (endpoint_of op page) :: rest1),
           [request_for this (endpoint_of op page)].
    repeat split; try assumption.
    now rewrite request_lines_request, Hnone. }
  destruct o1 as [response | e]; [|injection Hrun as <- <-; exact Hstop].
  destruct (payload (payload_key op) response) as [items|];
    [|injection Hrun as <- <-; exact Hstop].
  destruct (count_pages response) as [count|];
    [|injection Hrun as <- <-; exact Hstop].
  destruct (page <? count); [|injection Hrun as <- <-; exact Hstop].
  apply IH in Hrun as (rest2 & news2 & Hlog2 & Hsent2 & Hlines2).
  exists (request_line this (endpoint_of op page) :: rest1 ++ rest2)%list,
         (request_for this (endpoint_of op page) :: news2).
  repeat split.
  - rewrite Hlog2, Hlog1, <- app_assoc. reflexivity.
  - rewrite Hsent2, Hsent1, <- app_assoc. reflexivity.
  - rewrite request_lines_request, request_lines_app, Hnone, Hlines2. reflexivity.
Qed.

(** X17: A retrieval only appends to the log, and the request lines it appends
    are those of the requests it sends, one for each, in the order sent. *)
Theorem every_request_logged b this fuel op w o w' :
  retrieve b this fuel op w = Some (o, w') ->
  exists rest news,
    log_lines w' = (log_lines w ++ rest)%list /\
    sent w' = (sent w ++ news)%list /\
    request_lines rest = map request_message news.
Proof.
  rewrite retrieve_paginate. unfold rethrow_as.
  destruct (paginate b this op fuel [] 1 w) as [[o1 w1]|] eqn:Hrun; [|discriminate].
  intros H. assert (w1 = w') as -> by (destruct o1; congruence).
  eapply paginate_log; eassumption.
Qed.

Lemma every_request_logged_witness :
  exists rest news,
    log_lines (final_world (getProjects (scripted [Rejects "TypeError" "fetch failed"])
                              sample_api 1 fresh)) = ([] ++ rest)%list /\
    sent (final_world (getProjects (scripted [Rejects "TypeError" "fetch failed"])
                         sample_api 1 fresh)) = ([] ++ news)%list /\
    request_lines rest = map request_message news.
Proof.
  refine (every_request_logged (scripted [Rejects "TypeError" "fetch failed"])
            sample_api 1 Projects fresh _ _ _).
  vm_compute. reflexivity.
Defined.

(** X18: The last line of the log after [makeRequest] tells how it ended: the
    validation line when it returns, an error line with the message of the
    failure when it throws. *)
Theorem outcome_is_last_log_line b this endpoint schema w :
  exists before last,
    log_lines (snd (makeRequest b this endpoint schema w)) = (before ++ [last])%list /\
    match fst (makeRequest b this endpoint schema w) with
    | Returns _ => last = Entry "Data successfully validated with schema" None
    | Throws e =>
        last = Entry "!!! ERROR: Request failed"
                 (Some (JObj [("error", JStr (message_of e));
                              ("url", JStr (baseUrl this ++ endpoint))])) \/
        exists issues,
          e = Err "Error" ("Invalid API response format: " ++ message_of (ZodError issues)) /\
          last = Entry "!!! ERROR: Zod validation error"
                   (Some (JObj [("error", JStr (message_of (ZodError issues)));
                                ("issues", JArr (map issue_json issues))]))
    end.
Proof.
  run_makeRequest.
  destruct (b (sent w) (request_for this endpoint)) as [n m | r].
  { eexists _, _. split; [cbn [snd logFile log_lines]; reflexivity|left; reflexivity]. }
  cbn [sent logFile fst snd].
  destruct (ok r); cbn [negb fst snd sent logFile truthy].
  2:{ eexists _, _. split; [cbn [snd logFile log_lines]; reflexivity|left; reflexivity]. }
  destruct (body_json r) as [m | data].
  { eexists _, _. split; [cbn [snd logFile log_lines]; reflexivity|left; reflexivity]. }
  destruct data;
    cbn [typeof String.eqb Ascii.eqb Bool.eqb andb Object_keys fst snd sent logFile truthy];
    try (eexists _, _; split; [cbn [snd logFile log_lines]; reflexivity|left; reflexivity]);
    (destruct (parse schema _) as [v | e] eqn:Hp; cbn [fst snd sent logFile truthy];
     [eexists _, _; split; [cbn [snd logFile log_lines]; reflexivity|reflexivity]|];
     destruct (parse_throws_zod _ _ _ Hp) as [issues ->];
     eexists _, _; split; [cbn [snd logFile log_lines]; reflexivity|];
     right; exists issues; split; reflexivity).
Qed.

(** X19: A response with a status outside 2xx adds four lines to the log: the
    request, the status line, an error line that carries the URL and the
    text of the response body, and a second error line, written by the
    [catch] block, with the message thrown. *)
Theorem http_error_logged_with_body b this endpoint schema w r :
  b (sent w) (request_for this endpoint) = Resolves r ->
  ok r = false ->
  log_lines (snd (makeRequest b this endpoint schema w)) =
  (log_lines w ++
   [request_line this endpoint;
    Entry ("<<< RESPONSE " ++ string_of_Z (status r) ++ " " ++ statusText r) None;
    Entry ("!!! ERROR: HTTP " ++ string_of_Z (status r) ++ ": " ++ statusText r)
      (Some (JObj [("url", JStr (baseUrl this ++ endpoint));
                   ("responseBody", JStr (body_text r))]));
    Entry "!!! ERROR: Request failed"
      (Some (JObj [("error", JStr ("HTTP " ++ string_of_Z (status r) ++ ": " ++ statusText r));
                   ("url", JStr (baseUrl this ++ endpoint))]))])%list.
Proof.
  intros Hb Hok. run_makeRequest. rewrite Hb. cbn [sent logFile fst snd].
  rewrite Hok. cbn [negb fst snd sent logFile truthy]. log_equation.
Qed.

Lemma http_error_logged_with_body_witness :
  log_lines (snd (makeRequest
                    (scripted [Resolves {| status := 401; statusText := "Unauthorized";
                                           body_text := "bad key";
                                           body_json := inl "Unexpected token" |}])
                    sample_api "/v3/users?page=1" ClockodoUsersResponseSchema fresh)) =
  [request_line sample_api "/v3/users?page=1";
   Entry "<<< RESPONSE 401 Unauthorized" None;
   Entry "!!! ERROR: HTTP 401: Unauthorized"
     (Some (JObj [("url", JStr "https://my.clockodo.com/api/v3/users?page=1");
                  ("responseBody", JStr "bad key")]));
   Entry "!!! ERROR: Request failed"
     (Some (JObj [("error", JStr "HTTP 401: Unauthorized");
                  ("url", JStr "https://my.clockodo.com/api/v3/users?page=1")]))].
Proof.
  apply (http_error_logged_with_body
           (scripted [Resolves {| status := 401; statusText := "Unauthorized";
                                  body_text := "bad key";
                                  body_json := inl "Unexpected token" |}])
           sample_api "/v3/users?page=1" ClockodoUsersResponseSchema fresh
           {| status := 401; statusText := "Unauthorized";
              body_text := "bad key"; body_json := inl "Unexpected token" |}).
  - reflexivity.
  - reflexivity.
Defined.

(** X20: Construction keeps the log of an earlier run and starts one, with the
    banner, where there is none; it adds the line of the initialisation
    exactly when it succeeds, [hasApiKey] being [true] in every such line;
    it sends nothing. *)
Theorem construction_appends_to_log env w :
  logFile (snd (constructor env w)) =
  Some ((match logFile w with
         | Some entries => entries
         | None => [Banner]
         end) ++
        match fst (constructor env w) with
        | Returns this =>
            [Entry "ClockodoAPI initialized"
               (Some (JObj [("email", JStr (email this));
                            ("baseUrl", JStr (baseUrl this));
                            ("hasApiKey", JBool true)]))]
        | Throws _ => []
        end)%list /\
  sent (snd (constructor env w)) = sent w.
Proof.
  unfold constructor, bind, Logger.new, Logger.log, Logger.appendFileSync, throw, ret.
  cbn [email apiKey baseUrl].
  destruct (is_empty (env_or_empty (env "CLOCKODO_EMAIL"))) eqn:He;
    destruct (is_empty (env_or_empty (env "CLOCKODO_API_KEY"))) eqn:Hk;
    destruct (logFile w) eqn:Hw;
    cbn [orb negb fst snd logFile sent truthy email apiKey baseUrl];
    rewrite ?Hw, ?app_nil_r; split; reflexivity.
Qed.

(* ================================================================= *)
(** ** No page is requested twice *)

Lemma append_cancel_l a : forall x y, a ++ x = a ++ y -> x = y.
Proof.
  induction a as [|c a IH]; intros x y H; [exact H|].
  cbn [append] in H. injection H as H. now apply IH.
Qed.

Lemma string_of_Z_inj p q : string_of_Z p = string_of_Z q -> p = q.
Proof.
  intros H. pose proof (parsed_integer_string_of_Z p) as Hp.
  rewrite H, parsed_integer_string_of_Z in Hp. congruence.
Qed.

Lemma page_url_inj this op p q :
  url (request_for this (endpoint_of op p)) = url (request_for this (endpoint_of op q)) ->
  p = q.
Proof.
  unfold request_for. cbn [url]. intros H. apply append_cancel_l in H.
  apply string_of_Z_inj.
  destruct op as [|userId timeSince timeUntil|]; cbn [endpoint_of] in H.
  - now apply append_cancel_l in H.
  - unfold entries_endpoint in H.
    now repeat apply append_cancel_l in H.
  - now apply append_cancel_l in H.
Qed.

Lemma pages_from_ge n : forall p q, In q (pages_from p n) -> p <= q.
Proof.
  induction n as [|n IH]; intros p q Hin; [contradiction|].
  cbn [pages_from] in Hin. destruct Hin as [<- | Hin]; [lia|].
  apply IH in Hin. lia.
Qed.

Lemma pages_from_NoDup n : forall p, NoDup (pages_from p n).
Proof.
  induction n as [|n IH]; intros p; cbn [pages_from]; constructor.
  - intros Hin. apply pages_from_ge in Hin. lia.
  - apply IH.
Qed.

Lemma requests_urls_NoDup this op pages :
  NoDup pages -> NoDup (map url (requests this op pages)).
Proof.
  unfold requests. rewrite map_map.
  induction 1 as [|p pages Hnotin Hnodup IH]; cbn [map]; constructor; [|exact IH].
  intros Hin. apply in_map_iff in Hin as (q & Heq & Hq).
  apply page_url_inj in Heq. now subst q.
Qed.

(** X21: Whatever the service answers, the requests of one retrieval go to
    pairwise different URLs: no page is fetched a second time, after a
    failure or otherwise. *)
Theorem no_page_requested_twice b this fuel op w o w' :
  retrieve b this fuel op w = Some (o, w') ->
  exists news,
    sent w' = (sent w ++ news)%list /\ NoDup (map url news).
Proof.
  intros Hrun. apply retrieve_inv in Hrun as (responses & _ & Hsent & _).
  exists (requests this op (pages_from 1 (S (List.length responses)))).
  split; [exact Hsent|]. apply requests_urls_NoDup, pages_from_NoDup.
Qed.

Lemma no_page_requested_twice_witness :
  exists news,
    sent (final_world (getUsers (scripted [ok_json (users_page [sample_user 1 "Ada"] 1 2);
                                           ok_json (users_page [sample_user 1 "Ada"] 1 2)])
                         sample_api 2 fresh)) = ([] ++ news)%list /\
    NoDup (map url news).
Proof.
  refine (no_page_requested_twice
            (scripted [ok_json (users_page [sample_user 1 "Ada"] 1 2);
                       ok_json (users_page [sample_user 1 "Ada"] 1 2)])
            sample_api 2 Users fresh _ _ _).
  vm_compute. reflexivity.
Defined.

(** X22: A retrieval fails only when a page fails: the request that failed is
    the last one sent, all pages before it were received and announced
    more, and the error is that of the failing page behind the prefix of the
    operation. *)
Theorem retrieval_fails_with_its_last_page b this fuel op w e w' :
  retrieve b this fuel op w = Some (Throws e, w') ->
  exists n cause,
    sent w' = (sent w ++ requests this op (pages_from 1 (S n)))%list /\
    (forall i, (i < n)%nat ->
       exists response count,
         page_result b this op (sent w ++ requests this op (pages_from 1 i))%list
           (1 + Z.of_nat i) = Returns response /\
         count_pages response = Some count /\ 1 + Z.of_nat i < count) /\
    page_result b this op (sent w ++ requests this op (pages_from 1 n))%list
      (1 + Z.of_nat n) = Throws cause /\
    e = Err "Error" (failure_prefix op ++ message_of cause).
Proof.
  intros Hrun.
  apply retrieve_inv in Hrun as (responses & _ & Hsent & Hpages & cause & Hcause & ->).
  exists (List.length responses), cause. repeat split; try assumption.
  intros i Hi. destruct (nth_error responses i) as [response|] eqn:Hnth.
  - destruct (Hpages i response Hnth) as (Hpage & count & Hcount & Hlt).
    now exists response, count.
  - apply nth_error_None in Hnth. lia.
Qed.

Lemma retrieval_fails_with_its_last_page_witness :
  exists n cause,
    sent (final_world (getUsers (scripted [ok_json (users_page [sample_user 1 "Ada"] 1 2)])
                         sample_api 2 fresh))
    = ([] ++ requests sample_api Users (pages_from 1 (S n)))%list /\
    (forall i, (i < n)%nat ->
       exists response count,
         page_result (scripted [ok_json (users_page [sample_user 1 "Ada"] 1 2)])
           sample_api Users ([] ++ requests sample_api Users (pages_from 1 i))%list
           (1 + Z.of_nat i) = Returns response /\
         count_pages response = Some count /\ 1 + Z.of_nat i < count) /\
    page_result (scripted [ok_json (users_page [sample_user 1 "Ada"] 1 2)])
      sample_api Users ([] ++ requests sample_api Users (pages_from 1 n))%list
      (1 + Z.of_nat n) = Throws cause /\
    Err "Error" "Failed to fetch users from Clockodo API: fetch failed" =
    Err "Error" (failure_prefix Users ++ message_of cause).
Proof.
  refine (retrieval_fails_with_its_last_page
            (scripted [ok_json (users_page [sample_user 1 "Ada"] 1 2)])
            sample_api 2 Users fresh
            (Err "Error" "Failed to fetch users from Clockodo API: fetch failed") _ _).
  vm_compute. reflexivity.
Defined.

(* ================================================================= *)
(** ** The API key and the gateway *)

Lemma retrieve_blind b this1 this2 fuel op w1 w2 :
  key_blind b ->
  email this1 = email this2 -> baseUrl this1 = baseUrl this2 ->
  same_view w1 w2 ->
  visible (retrieve b this1 fuel op w1) = visible (retrieve b this2 fuel op w2).
Proof.
  intros Hblind He Hbase Hview. rewrite !retrieve_paginate.
  apply rethrow_as_visible. now apply paginate_blind.
Qed.

Lemma as_contents_visible prefix href r1 r2 :
  visible r1 = visible r2 ->
  visible (as_contents prefix href r1) = visible (as_contents prefix href r2).
Proof.
  unfold as_contents.
  destruct r1 as [[[a1 | e1] w1']|]; destruct r2 as [[[a2 | e2] w2']|];
    cbn [visible option_map fst snd]; intros H; try discriminate; try reflexivity;
    injection H as H1 H2 H3; subst; now rewrite H2, H3.
Qed.

Lemma users_resource_as_contents b api fuel href w :
  users_resource b api fuel href w =
  as_contents "Failed to fetch users: " href (getUsers b api fuel w).
Proof.
  unfold users_resource, rethrow_as, run_bind, run_ret, as_contents.
  destruct (getUsers b api fuel w) as [[[users | e] w']|]; reflexivity.
Qed.

Lemma projects_resource_as_contents b api fuel href w :
  projects_resource b api fuel href w =
  as_contents "Failed to fetch projects: " href (getProjects b api fuel w).
Proof.
  unfold projects_resource, rethrow_as, run_bind, run_ret, as_contents.
  destruct (getProjects b api fuel w) as [[[projects | e] w']|]; reflexivity.
Qed.

Lemma entries_resource_cases b fuel href userId timeSince timeUntil :
  (exists e, forall api' w',
     entries_resource b api' fuel href userId timeSince timeUntil w' = Some (Throws e, w')) \/
  (exists n since until, forall api' w',
     entries_resource b api' fuel href userId timeSince timeUntil w' =
     as_contents "Failed to fetch entries: " href (getEntries b api' fuel n since until w')).
Proof.
  unfold entries_resource. cbv zeta.
  destruct (parseInt (first_or_self userId)) as [n|].
  - destruct (negb (test dateRegex (first_or_self timeSince))
              || negb (test dateRegex (first_or_self timeUntil))).
    + left. eexists. intros api' w'. reflexivity.
    + right. exists n, (ToString (first_or_self timeSince)), (ToString (first_or_self timeUntil)).
      intros api' w'. unfold rethrow_as, run_bind, run_ret, as_contents.
      destruct (getEntries b api' fuel n _ _ w') as [[[entries | e] w'']|]; reflexivity.
  - left. eexists. intros api' w'. reflexivity.
Qed.

(** X8: The gateway gives the API key away no more than the client does: for a
    service whose answers do not depend on the key, two clients that differ
    in the key only give, read through any of the three resources with any
    arguments, the same contents or the same error message, the same log
    and, the key masked, the same requests. *)
Theorem gateway_keeps_key_secret b this1 this2 fuel href w1 w2 :
  key_blind b ->
  email this1 = email this2 -> baseUrl this1 = baseUrl this2 ->
  same_view w1 w2 ->
  visible (users_resource b this1 fuel href w1) =
  visible (users_resource b this2 fuel href w2) /\
  (forall userId timeSince timeUntil,
     visible (entries_resource b this1 fuel href userId timeSince timeUntil w1) =
     visible (entries_resource b this2 fuel href userId timeSince timeUntil w2)) /\
  visible (projects_resource b this1 fuel href w1) =
  visible (projects_resource b this2 fuel href w2).
Proof.
  intros Hblind He Hbase Hview. repeat split.
  - rewrite !users_resource_as_contents. apply as_contents_visible.
    now apply (retrieve_blind b this1 this2 fuel Users).
  - intros userId timeSince timeUntil.
    destruct (entries_resource_cases b fuel href userId timeSince timeUntil)
      as [(e & H) | (n & since & until & H)]; rewrite !H.
    + destruct Hview as (Hlog & Hsent). cbn [visible option_map fst snd].
      now rewrite Hlog, Hsent.
    + apply as_contents_visible.
      now apply (retrieve_blind b this1 this2 fuel (Entries n since until)).
  - rewrite !projects_resource_as_contents. apply as_contents_visible.
    now apply (retrieve_blind b this1 this2 fuel Projects).
Qed.

Lemma gateway_keeps_key_secret_witness :
  visible (users_resource (scripted [ok_json (users_page [sample_user 1 "Ada"] 1 1)])
             sample_api 1 "clockodo://users" fresh) =
  visible (users_resource (scripted [ok_json (users_page [sample_user 1 "Ada"] 1 1)])
             {| email := "me@example.com"; apiKey := "0ther";
                baseUrl := "https://my.clockodo.com/api" |}
             1 "clockodo://users" fresh).
Proof.
  refine (proj1 (gateway_keeps_key_secret
                   (scripted [ok_json (users_page [sample_user 1 "Ada"] 1 1)])
                   sample_api
                   {| email := "me@example.com"; apiKey := "0ther";
                      baseUrl := "https://my.clockodo.com/api" |}
                   1 "clockodo://users" fresh fresh _ _ _ _)).
  - apply scripted_key_blind.
  - reflexivity.
  - reflexivity.
  - split; reflexivity.
Defined.

(* ================================================================= *)
(** ** Bodies that are not JSON, or not of the shape *)

Lemma malformed_body_rethrown_witness :
  fst (makeRequest
         (scripted [Resolves {| status := 200; statusText := "OK";
                                body_text := "<html>";
                                body_json := inl "Unexpected token < in JSON at position 0" |}])
         sample_api "/v4/projects?page=1" ClockodoProjectsResponseSchema fresh)
  = Throws (Err "SyntaxError" "Unexpected token < in JSON at position 0").
Proof.
  apply (malformed_body_rethrown
           (scripted [Resolves {| status := 200; statusText := "OK";
                                  body_text := "<html>";
                                  body_json := inl "Unexpected token < in JSON at position 0" |}])
           sample_api "/v4/projects?page=1" ClockodoProjectsResponseSchema fresh
           {| status := 200; statusText := "OK"; body_text := "<html>";
              body_json := inl "Unexpected token < in JSON at position 0" |}).
  - reflexivity.
  - reflexivity.
  - reflexivity.
Defined.

(** Two users without [id] in one body, a good one between them: the error
    is the wrapped [ZodError] of both issues, and each of the two is spelled
    out in its message. *)
Lemma invalid_body_rejected_witness :
  let bad := JObj [("name", JStr "Ada"); ("email", JStr "a@example.com");
                   ("active", JBool true)] in
  let first := invalid_type "number" None [Key "data"; Index 0; Key "id"] in
  let second := invalid_type "number" None [Key "data"; Index 2; Key "id"] in
  fst (makeRequest
         (scripted [ok_json (users_page [bad; sample_user 2 "Bob"; bad] 1 1)])
         sample_api "/v3/users?page=1" ClockodoUsersResponseSchema fresh)
  = Throws (Err "Error"
      ("Invalid API response format: " ++ message_of (ZodError [first; second]))) /\
  forall issue, In issue [first; second] ->
    occurs_in (stringify_at "  " (issue_json issue)) (message_of (ZodError [first; second])).
Proof.
  cbv zeta.
  refine (invalid_body_rejected
            (scripted [ok_json (users_page
                                  [JObj [("name", JStr "Ada"); ("email", JStr "a@example.com");
                                         ("active", JBool true)];
                                   sample_user 2 "Bob";
                                   JObj [("name", JStr "Ada"); ("email", JStr "a@example.com");
                                         ("active", JBool true)]] 1 1)])
            sample_api "/v3/users?page=1" ClockodoUsersResponseSchema fresh
            _ (users_page
                 [JObj [("name", JStr "Ada"); ("email", JStr "a@example.com");
                        ("active", JBool true)];
                  sample_user 2 "Bob";
                  JObj [("name", JStr "Ada"); ("email", JStr "a@example.com");
                        ("active", JBool true)]] 1 1)
            (invalid_type "number" None [Key "data"; Index 0; Key "id"])
            [invalid_type "number" None [Key "data"; Index 2; Key "id"]]
            _ _ _ _ _).
  - reflexivity.
  - reflexivity.
  - reflexivity.
  - discriminate.
  - vm_compute. reflexivity.
Defined.

(* ================================================================= *)
(** ** The earlier constructor *)

(** The earlier constructor accepts and refuses the same environments, and
    leaves the world as it was. *)
Lemma earlier_constructor_outcome env w :
  fst (Earlier.constructor env w) = fst (constructor env w) /\
  snd (Earlier.constructor env w) = w.
Proof.
  unfold Earlier.constructor, constructor, bind, Logger.new, Logger.log,
    Logger.appendFileSync, throw, ret.
  cbn [email apiKey].
  destruct (is_empty (env_or_empty (env "CLOCKODO_EMAIL")));
    destruct (is_empty (env_or_empty (env "CLOCKODO_API_KEY")));
    destruct (logFile w); split; reflexivity.
Qed.

(* ================================================================= *)
(** ** What the log tells of a body that was accepted *)

Lemma makeRequest_success_log b this endpoint schema w r fields :
  b (sent w) (request_for this endpoint) = Resolves r ->
  ok r = true ->
  body_json r = inr (JObj fields) ->
  issues_of schema [] (Some (JObj fields)) = [] ->
  log_lines (snd (makeRequest b this endpoint schema w)) =
  (log_lines w ++
   [request_line this endpoint;
    Entry ("<<< RESPONSE " ++ string_of_Z (status r) ++ " " ++ statusText r) None;
    Entry "Response data received"
      (Some (obj [("dataType", Some (JStr "object"));
                  ("isArray", Some (JBool false));
                  ("keys", Some (JArr (map JStr (map fst fields))));
                  ("entryCount",
                    js_or (js_or (opt_chain (lookup "entries" fields) "length")
                                 (opt_chain (lookup "data" fields) "length"))
                          (Some (JStr "unknown")))]));
    Entry "Data successfully validated with schema" None])%list.
Proof.
  intros Hb Hok Hbody Hvalid. run_makeRequest. rewrite Hb. cbn [sent logFile fst snd].
  rewrite Hok. cbn [negb fst snd sent logFile truthy]. rewrite Hbody.
  cbn [typeof String.eqb Ascii.eqb Bool.eqb andb Object_keys fst snd sent logFile
       opt_chain prop isArray].
  unfold parse. rewrite Hvalid. cbn [fst snd sent logFile].
  unfold obj at 1. cbn [truthy]. log_equation.
Qed.

Lemma length_of_swapped pre key items1 items2 post k :
  List.length items1 = List.length items2 ->
  opt_chain (lookup k (pre ++ (key, JArr items1) :: post)%list) "length" =
  opt_chain (lookup k (pre ++ (key, JArr items2) :: post)%list) "length".
Proof.
  intros Hlen. induction pre as [|[k' v] pre IH]; cbn [app lookup].
  - destruct (String.eqb k key); [|reflexivity].
    cbn [opt_chain prop]. now rewrite Hlen.
  - destruct (String.eqb k k'); [reflexivity|exact IH].
Qed.

(** X23: When the body is accepted, the log says nothing of the records: two
    2xx responses with the same status line whose bodies pass the schema
    and differ only in the elements of one array, there being as many in
    the one as in the other, leave the same log. *)
Theorem accepted_records_stay_out_of_log
    b1 b2 this endpoint schema w r1 r2 pre key items1 items2 post :
  b1 (sent w) (request_for this endpoint) = Resolves r1 ->
  b2 (sent w) (request_for this endpoint) = Resolves r2 ->
  ok r1 = true -> ok r2 = true ->
  status r1 = status r2 -> statusText r1 = statusText r2 ->
  body_json r1 = inr (JObj (pre ++ (key, JArr items1) :: post)%list) ->
  body_json r2 = inr (JObj (pre ++ (key, JArr items2) :: post)%list) ->
  List.length items1 = List.length items2 ->
  issues_of schema [] (Some (JObj (pre ++ (key, JArr items1) :: post)%list)) = [] ->
  issues_of schema [] (Some (JObj (pre ++ (key, JArr items2) :: post)%list)) = [] ->
  log_lines (snd (makeRequest b1 this endpoint schema w)) =
  log_lines (snd (makeRequest b2 this endpoint schema w)).
Proof.
  intros Hb1 Hb2 Hok1 Hok2 Hstatus Htext Hbody1 Hbody2 Hlen Hvalid1 Hvalid2.
  rewrite (makeRequest_success_log b1 this endpoint schema w r1 _ Hb1 Hok1 Hbody1 Hvalid1).
  rewrite (makeRequest_success_log b2 this endpoint schema w r2 _ Hb2 Hok2 Hbody2 Hvalid2).
  rewrite Hstatus, Htext.
  rewrite (length_of_swapped pre key items1 items2 post "entries" Hlen).
  rewrite (length_of_swapped pre key items1 items2 post "data" Hlen).
  rewrite !map_app. cbn [map fst]. reflexivity.
Qed.

Lemma accepted_records_stay_out_of_log_witness :
  log_lines (snd (makeRequest (scripted [ok_json (users_page [sample_user 1 "Ada"] 1 1)])
                    sample_api "/v3/users?page=1" ClockodoUsersResponseSchema fresh)) =
  log_lines (snd (makeRequest (scripted [ok_json (users_page [sample_user 2 "Bob"] 1 1)])
                    sample_api "/v3/users?page=1" ClockodoUsersResponseSchema fresh)).
Proof.
  refine (accepted_records_stay_out_of_log
            (scripted [ok_json (users_page [sample_user 1 "Ada"] 1 1)])
            (scripted [ok_json (users_page [sample_user 2 "Bob"] 1 1)])
            sample_api "/v3/users?page=1" ClockodoUsersResponseSchema fresh
            _ _ [("paging", sample_paging 1 1)] "data"
            [sample_user 1 "Ada"] [sample_user 2 "Bob"] []
            _ _ _ _ _ _ _ _ _ _ _).
  - reflexivity.
  - reflexivity.
  - reflexivity.
  - reflexivity.
  - reflexivity.
  - reflexivity.
  - reflexivity.
  - reflexivity.
  - reflexivity.
  - vm_compute. reflexivity.
  - vm_compute. reflexivity.
Defined.

(* ================================================================= *)
(** ** Termination *)

Lemma paginate_terminates b this op N :
  announces_at_most b this op N ->
  forall fuel acc page w,
    N <= page + Z.of_nat fuel ->
    exists o w', paginate b this op (S fuel) acc page w = Some (o, w').
Proof.
  intros Hmost. induction fuel as [|fuel IH]; intros acc page w Hfuel;
    cbn [paginate];
    pose proof (makeRequest_outcome b this (endpoint_of op page) (schema_of op) w) as Hout;
    destruct (makeRequest b this (endpoint_of op page) (schema_of op) w) as [[response | e] w1];
    cbn [fst] in Hout; try (eexists _, _; reflexivity);
    destruct (payload (payload_key op) response) as [items|];
    try (eexists _, _; reflexivity);
    destruct (count_pages response) as [count|] eqn:Hcount;
    try (eexists _, _; reflexivity);
    pose proof (Hmost (sent w) page response count (eq_sym Hout) Hcount) as Hle;
    destruct (page <? count) eqn:Hlt; try (eexists _, _; reflexivity);
    apply Z.ltb_lt in Hlt.
  - lia.
  - apply IH. lia.
Qed.

(** X24: Against a service that never announces more than N pages, a retrieval
    with fuel for N requests comes to an end, with a result or an error,
    after at most max(1, N) requests. *)
Theorem retrieval_terminates b this op N fuel w :
  announces_at_most b this op N ->
  (0 < fuel)%nat ->
  N <= Z.of_nat fuel ->
  exists o w',
    retrieve b this fuel op w = Some (o, w') /\
    Z.of_nat (List.length (sent w')) <= Z.of_nat (List.length (sent w)) + Z.max 1 N.
Proof.
  intros Hmost Hpos Hfuel.
  destruct fuel as [|fuel]; [lia|].
  destruct (paginate_terminates b this op N Hmost fuel [] 1 w) as (o1 & w1 & Hrun); [lia|].
  assert (Hret : exists o w', retrieve b this (S fuel) op w = Some (o, w')).
  { rewrite retrieve_paginate. unfold rethrow_as. rewrite Hrun.
    destruct o1; eexists _, _; reflexivity. }
  destruct Hret as (o & w' & Hret). exists o, w'. split; [exact Hret|].
  apply retrieve_inv in Hret as (responses & _ & Hsent & Hpages & _).
  rewrite Hsent, length_app, requests_length, pages_from_length.
  destruct (List.length responses) as [|n] eqn:Hn; [lia|].
  destruct (nth_error responses n) as [response|] eqn:Hnth.
  - destruct (Hpages n response Hnth) as (Hpage & count & Hcount & Hlt).
    pose proof (Hmost _ _ _ _ Hpage Hcount). lia.
  - apply nth_error_None in Hnth. lia.
Qed.

Lemma scripted_announces_two :
  announces_at_most (scripted [ok_json (users_page [sample_user 1 "Ada"] 1 2);
                               ok_json (users_page [sample_user 2 "Bob"] 2 2)])
    sample_api Users 2.
Proof.
  intros history page response count Hpage Hcount.
  unfold page_result, scripted in Hpage.
  destruct (List.length history) as [|[|n]]; cbn [nth] in Hpage;
    [| |destruct n; discriminate];
    vm_compute in Hpage; injection Hpage as <-;
    vm_compute in Hcount; injection Hcount as <-; lia.
Qed.

Lemma retrieval_terminates_witness :
  exists o w',
    retrieve (scripted [ok_json (users_page [sample_user 1 "Ada"] 1 2);
                        ok_json (users_page [sample_user 2 "Bob"] 2 2)])
      sample_api 2 Users fresh = Some (o, w') /\
    Z.of_nat (List.length (sent w')) <= Z.of_nat (List.length (sent fresh)) + Z.max 1 2.
Proof.
  apply (retrieval_terminates
           (scripted [ok_json (users_page [sample_user 1 "Ada"] 1 2);
                      ok_json (users_page [sample_user 2 "Bob"] 2 2)])
           sample_api Users 2 2 fresh).
  - exact scripted_announces_two.
  - lia.
  - lia.
Defined.

(* ================================================================= *)
(** ** The gateway and numbers *)

(** [parseInt] rounds as a Number does: 2^53 + 1 is read as 2^53. *)
Example parseInt_rounds :
  parseInt (Some "9007199254740993") = Some 9007199254740992 /\
  parseInt (Some "9007199254740995") = Some 9007199254740996 /\
  parseInt (Some "-9007199254740991") = Some (-9007199254740991).
Proof. repeat split; vm_compute; reflexivity. Qed.

Lemma lookup_safe fields k x :
  forallb (fun kv => safe (snd kv)) fields = true ->
  lookup k fields = Some x -> safe x = true.
Proof.
  induction fields as [|[k' v] fields IH]; cbn [forallb lookup snd]; [discriminate|].
  intros H. apply andb_prop in H as [Hv Hf].
  destruct (String.eqb k k'); [intros [= <-]; exact Hv|now apply IH].
Qed.

(** Validation brings in no number. *)
Lemma strip_safe t : forall v, safe v = true -> safe (strip t v) = true.
Proof.
  induction t as [| | | |t IH|t IH|t IH|shape IH] using ZodType_induction;
    intros v Hv; try exact Hv.
  - destruct v; cbn [strip]; auto.
  - cbn [strip]. auto.
  - destruct v as [| | | |items|]; cbn [strip]; try exact Hv.
    cbn [safe] in *. rewrite forallb_forall in *.
    intros x Hx. apply in_map_iff in Hx as (y & <- & Hy). auto.
  - destruct v as [| | | | |fields]; try exact Hv.
    rewrite strip_object. cbn [safe] in *.
    induction IH as [|[k tk] shape Hk _ IHshape]; [reflexivity|].
    cbn [strip_fields]. destruct (lookup k fields) as [x|] eqn:Hx; [|exact IHshape].
    cbn [forallb snd] in *. rewrite (Hk x (lookup_safe fields k x Hv Hx)). exact IHshape.
Qed.

Lemma items_of_safe op response :
  safe response = true -> forallb safe (items_of op response) = true.
Proof.
  intros Hsafe. unfold items_of, payload.
  destruct (prop response (payload_key op)) as [[| | | |items|]|] eqn:Hprop; try reflexivity.
  destruct response as [| | |s|l|fields]; cbn [prop] in Hprop; try discriminate.
  - destruct (String.eqb (payload_key op) "length"); discriminate.
  - destruct (String.eqb (payload_key op) "length"); discriminate.
  - exact (lookup_safe fields _ _ Hsafe Hprop).
Qed.


(** A page the loop receives is the stripped body of a response. *)
Lemma page_result_served b this op history page response :
  page_result b this op history page = Returns response ->
  exists r data,
    b history (request_for this (endpoint_of op page)) = Resolves r /\
    body_json r = inr data /\
    response = strip (schema_of op) data.
Proof.
  unfold page_result, request_outcome.
  destruct (b history _) as [n m | r] eqn:Hb; [discriminate|].
  destruct (ok r); [|discriminate].
  destruct (body_json r) as [m | data] eqn:Hbody; [discriminate|].
  assert (Hgen : parse (schema_of op) data = Returns response ->
                 exists r0 data0, Resolves r = Resolves r0 /\
                                  body_json r0 = inr data0 /\
                                  response = strip (schema_of op) data0).
  { intros Hp. exists r, data. repeat split; [exact Hbody|].
    unfold parse in Hp. destruct (issues_of (schema_of op) [] (Some data)); congruence. }
  destruct data; try discriminate;
    match goal with
    | |- context [parse (schema_of op) ?d] =>
        destruct (parse (schema_of op) d) as [v | e] eqn:Hp; [|discriminate];
        intros [= ->]; now apply Hgen
    end.
Qed.

(** What a retrieval returns from a safe service is safe. *)
Lemma retrieve_safe b this fuel op w out w' :
  safe_service b ->
  retrieve b this fuel op w = Some (Returns out, w') ->
  forallb safe out = true.
Proof.
  intros Hservice Hrun.
  apply retrieve_inv in Hrun as (responses & _ & _ & Hpages & last & count & Hlast & _ & _ & ->).
  apply forallb_forall. intros x Hx. unfold collected in Hx.
  apply in_flat_map in Hx as (response & Hresp & Hx). apply filter_In in Hx as [Hx _].
  assert (Hsafe : safe response = true).
  { assert (Hserved : exists history page,
               page_result b this op history page = Returns response).
    { apply in_app_or in Hresp as [Hresp | [<- | []]].
      - apply In_nth_error in Hresp as (i & Hi).
        destruct (Hpages i response Hi) as [Hpage _]. eauto.
      - eauto. }
    destruct Hserved as (history & page & Hpage).
    apply page_result_served in Hpage as (r & data & Hb & Hbody & ->).
    apply strip_safe. exact (Hservice _ _ _ _ Hb Hbody). }
  pose proof (items_of_safe op response Hsafe) as Hitems.
  rewrite forallb_forall in Hitems. now apply Hitems.
Qed.

(** A scripted service is safe when the bodies of its script are. *)
Lemma scripted_safe_service bodies :
  forallb safe bodies = true -> safe_service (scripted (map ok_json bodies)).
Proof.
  intros Hsafe history request r data Hb Hbody. unfold scripted in Hb.
  destruct (nth_in_or_default (List.length history) (map ok_json bodies)
              (Rejects "TypeError" "fetch failed")) as [Hin | Hd].
  - rewrite Hb in Hin. apply in_map_iff in Hin as (body & Hok & Hin).
    unfold ok_json in Hok. injection Hok as <-. cbn [body_json] in Hbody.
    injection Hbody as <-. rewrite forallb_forall in Hsafe. now apply Hsafe.
  - rewrite Hb in Hd. discriminate.
Qed.

(** X3: The user id is the leading decimal integer of the variable, made a
    Number: white space before it and anything but a digit after it are
    passed over, and the integer is rounded to the nearest double, which for
    a safe integer is the integer itself.  With two timestamps of the
    format, the callback then is [getEntries] for that user and these
    timestamps, its failure prefixed, its result printed as the text of one
    content; against a service whose bodies hold safe numbers only, the
    numbers printed are safe. *)
Theorem entries_resource_reads_leading_integer
    b api fuel href white n rest timeSince timeUntil w :
  string_forall is_white white = true ->
  no_leading_digit rest = true ->
  test dateRegex (Some timeSince) = true ->
  test dateRegex (Some timeUntil) = true ->
  safe_service b ->
  entries_resource b api fuel href
    (Single (white ++ string_of_Z n ++ rest)) (Single timeSince) (Single timeUntil) w =
  as_contents "Failed to fetch entries: " href
    (getEntries b api fuel (to_double n) timeSince timeUntil w) /\
  (safe_integer n = true -> to_double n = n) /\
  (forall entries w',
     getEntries b api fuel (to_double n) timeSince timeUntil w = Some (Returns entries, w') ->
     forallb safe entries = true).
Proof.
  intros Hwhite Hrest Hsince Huntil Hservice. split; [|split].
  - unfold entries_resource, rethrow_as, run_bind, run_ret, as_contents. cbv zeta.
    cbn [first_or_self]. rewrite parseInt_leading_white, parseInt_printed by assumption.
    rewrite Hsince, Huntil. cbn [negb orb ToString].
    destruct (getEntries b api fuel (to_double n) timeSince timeUntil w)
      as [[[entries | e] w']|]; reflexivity.
  - apply to_double_safe.
  - intros entries w' Hrun.
    exact (retrieve_safe b api fuel (Entries (to_double n) timeSince timeUntil) w
             entries w' Hservice Hrun).
Qed.

Lemma entries_resource_reads_leading_integer_witness :
  let b := scripted [ok_json (entries_page [sample_entry 10 2; sample_entry 11 42] 1 1)] in
  entries_resource b sample_api 1 "clockodo://entries/42abc/s/u"
    (Single (" " ++ string_of_Z 42 ++ "abc"))
    (Single "2025-09-01T00:00:00Z") (Single "2025-09-02T00:00:00.000") fresh =
  as_contents "Failed to fetch entries: " "clockodo://entries/42abc/s/u"
    (getEntries b sample_api 1 42 "2025-09-01T00:00:00Z" "2025-09-02T00:00:00.000" fresh).
Proof.
  cbv zeta.
  refine (proj1 (entries_resource_reads_leading_integer
                   (scripted [ok_json (entries_page [sample_entry 10 2; sample_entry 11 42]
                                         1 1)])
                   sample_api 1 "clockodo://entries/42abc/s/u" " " 42 "abc"
                   "2025-09-01T00:00:00Z" "2025-09-02T00:00:00.000" fresh _ _ _ _ _)).
  - reflexivity.
  - reflexivity.
  - reflexivity.
  - reflexivity.
  - apply (scripted_safe_service [entries_page [sample_entry 10 2; sample_entry 11 42] 1 1]).
    reflexivity.
Defined.


